(** * Indexing and semantic-search core of AIssue-BE-Flask

    A shallow embedding of [app/services/faiss_service.py] (index builder,
    index store and similarity search), of the orchestration code in
    [app/services/issue_analysis_service.py], [app/services/repository_service.py]
    and [app/api/repository_api.py], and the properties proved about them.

    Conventions.
    - Python exceptions are values of [Py.exn]; a call that may raise returns
      a [Py.outcome]; functions that also log run in the writer monad [Py.M].
    - Python [float]s are modelled by the rationals they denote ([Q]): every
      finite double is a rational and float comparison is exact on them.
      Floating-point arithmetic itself (numpy's norm, division, dot product)
      is a parameter, the record [Np.NumPy].  The module [Ieee] embeds the
      search once more with infinities and NaN among the scores, for the
      properties of the ranking that depend on them.
    - Python [int]s are [Z]; list positions and counts are [nat].
    - Python [dict]s are stdpp [gmap]s. *)

From Stdlib Require Import QArith ZArith Lia List Sorting.Sorted.
From stdpp Require Import gmap strings list fin_maps.

(** ** Python effects: exceptions and logging *)

Module Py.

(** The exception classes that occur in the modelled code.  They are
    pairwise unrelated subclasses of [Exception]. *)
Inductive exn_class :=
| EmbeddingErrorC
| IndexingErrorC
| ServiceErrorC
| RAGErrorC
| ValidationErrorC
| ValueErrorC
| OSErrorC
| RuntimeErrorC.

#[global] Instance exn_class_eq_dec : EqDecision exn_class.
Proof. solve_decision. Defined.

(** An exception object: its class, [str(e)], [e.__cause__] (set by
    [raise ... from e]) and the [error_code] attribute of service errors. *)
#[warnings="-register-all"]
Inductive exn :=
| Exn (cls : exn_class) (msg : string) (cause : option exn) (error_code : option string).

Definition exn_cls (e : exn) : exn_class := let 'Exn c _ _ _ := e in c.
Definition exn_msg (e : exn) : string := let 'Exn _ m _ _ := e in m.
Definition exn_cause (e : exn) : option exn := let 'Exn _ _ c _ := e in c.
Definition exn_code (e : exn) : option string := let 'Exn _ _ _ k := e in k.

Definition isinstance (e : exn) (c : exn_class) : bool := bool_decide (exn_cls e = c).

(** [X(msg)] and [raise X(msg) from e]. *)
Definition new (c : exn_class) (msg : string) : exn := Exn c msg None None.
Definition new_from (c : exn_class) (msg : string) (e : exn) : exn := Exn c msg (Some e) None.

Inductive outcome (A : Type) :=
| Return (a : A)
| Raise (e : exn).
Arguments Return {A} a.
Arguments Raise {A} e.

(** One constructor per [logger] call site of [faiss_service.py], carrying
    the values interpolated in its message. *)
Inductive log_event :=
| NoDocuments (index_type : string)
| IndexBuildStart (index_type index_path : string)
| AllEmbeddingsFailed
| IndexBuildDone (index_type : string) (n_ok n_failed : nat)
| IndexBuildError (index_type : string) (e : exn)
| IndexMissing (index_type index_path : string)
| IndexLoading (index_type index_path : string)
| IndexLoadFailed (index_type : string) (e : exn)
| EmbeddingStart (n : nat)
| EmbeddingDone (n_ok n_failed : nat)
| EmbeddingBadFormat
| EmbeddingFailed (e : exn)
| EmbeddingUnexpected (e : exn)
| VectorStoreCreateFailed (e : exn)
| IndexSaved (index_path : string)
| IndexSaveFailed (e : exn)
| SearchNoVectorStore
| SearchNoEmbedQuery
| SearchQueryEmbedding (query_text : string)
| SearchIndexEmpty
| SearchScanStart (num_vectors : nat)
| SearchNoDocstoreId (idx : nat)
| SearchNoDocument (docstore_id : string)
| SearchReconstructFailed (idx : nat) (e : exn)
| SearchRelaxThreshold (similarity_threshold : Q)
| SearchDone (n_pairs : nat) (top_k : Z) (n_top : nat) (similarity_threshold : Q) (n_selected : nat)
| SearchEmbeddingError (e : exn)
| SearchUnexpected (e : exn).



(** The computation monad: an outcome together with the log lines emitted
    on the way (also on the way to a raise). *)
Definition M (A : Type) : Type := outcome A * list log_event.

Definition ret {A} (a : A) : M A := (Return a, []).
Definition raise {A} (e : exn) : M A := (Raise e, []).
Definition log (ev : log_event) : M unit := (Return tt, [ev]).
Definition call {A} (r : outcome A) : M A := (r, []).

Definition bind {A B} (m : M A) (k : A -> M B) : M B :=
  match m with
  | (Return a, l) => let '(r, l') := k a in (r, l ++ l')
  | (Raise e, l) => (Raise e, l)
  end.

(** [try: m  except Exception as e: h e] *)
Definition try_except {A} (m : M A) (h : exn -> M A) : M A :=
  match m with
  | (Return a, l) => (Return a, l)
  | (Raise e, l) => let '(r, l') := h e in (r, l ++ l')
  end.

Definition result {A} (m : M A) : outcome A := fst m.
Definition logged {A} (m : M A) : list log_event := snd m.

End Py.

Export Py.

Declare Scope py_scope.
Delimit Scope py_scope with py.
Notation "x <- m ;; k" := (Py.bind m (fun x => k))
  (at level 100, m at next level, right associativity) : py_scope.
Notation "m ;; k" := (Py.bind m (fun _ => k))
  (at level 100, right associativity) : py_scope.
Open Scope py_scope.

(** ** Numbers *)

Module Np.

(** A float32 vector. *)
Definition vec := list Q.

(** The float literals of the source, as the exact value of the double. *)
Definition float_0_1 : Q := 3602879701896397 # 36028797018963968.
Definition float_0_9 : Q := 8106479329266893 # 9007199254740992.
Definition float_0_5 : Q := 1 # 2.
Definition float_1e_8 : Q := 3022314549036573 # 302231454903657293676544.

(** [x >= y] and [x > y] on floats. *)
Definition ge (x y : Q) : bool := Qle_bool y x.
Definition gt (x y : Q) : bool := negb (Qle_bool x y).

(** The floating-point primitives of numpy used by the source. *)
Record NumPy := {
  linalg_norm : vec -> Q;
  fadd : Q -> Q -> Q;
  fdiv : Q -> Q -> Q;
  dot_value : vec -> vec -> Q
}.

(** [np.dot] of two 1-d arrays raises [ValueError] on a shape mismatch. *)
Definition dot (np : NumPy) (a b : vec) : outcome Q :=
  if Nat.eqb (length a) (length b) then Return (dot_value np a b)
  else Raise (Py.new ValueErrorC "shapes not aligned").

(** [normalize_vector], faiss_service.py lines 21-24. *)
Definition normalize_vector (np : NumPy) (v : vec) : vec :=
  let norm := fadd np (linalg_norm np v) float_1e_8 in
  map (fun x => fdiv np x norm) v.

(** [cosine_similarity], faiss_service.py lines 27-31. *)
Definition cosine_similarity (np : NumPy) (vec1 vec2 : vec) : outcome Q :=
  let v1_normalized := normalize_vector np vec1 in
  let v2_normalized := normalize_vector np vec2 in
  dot np v1_normalized v2_normalized.

End Np.

Export Np.

(** ** The vector store of langchain, as far as the service uses it *)

Module LangChain.

(** [langchain_core.documents.Document] *)
Record Document := {
  page_content : string;
  metadata : gmap string string
}.

(** A faiss index: its dimension [d] and its stored rows.  A row that
    cannot be reconstructed holds the exception [reconstruct] raises. *)
Record FaissIndex := {
  d : nat;
  xb : list (outcome vec)
}.

Definition ntotal (ix : FaissIndex) : nat := length (xb ix).

Definition reconstruct (ix : FaissIndex) (idx : nat) : outcome vec :=
  match xb ix !! idx with
  | Some r => r
  | None => Raise (Py.new RuntimeErrorC "reconstruct: key out of range")
  end.

(** The [FAISS] vector store object: [index], [docstore._dict] and
    [index_to_docstore_id]. *)
Record FAISS := {
  index : option FaissIndex;
  docstore : gmap string Document;
  index_to_docstore_id : gmap nat string
}.

(** [FAISS.from_embeddings(text_embeddings, embedding, metadatas)]
    (langchain-community): unpacks the pairs, checks the lengths, draws one
    [uuid4] per text, refuses duplicate ids, builds a flat index of the
    dimension of the first vector and fills docstore and id table.
    [uuid4 n] is the n-th identifier drawn by this call. *)
Definition from_embeddings (uuid4 : nat -> string)
    (text_embeddings : list (string * vec))
    (metadatas : list (gmap string string)) : outcome FAISS :=
  match text_embeddings with
  | [] => Raise (Py.new ValueErrorC "not enough values to unpack (expected 2, got 0)")
  | (_, e0) :: _ =>
    let texts := text_embeddings.*1 in
    let embeddings := text_embeddings.*2 in
    if negb (Nat.eqb (length texts) (length metadatas)) then
      Raise (Py.new ValueErrorC "texts and metadatas must be the same length")
    else
      let ids := map uuid4 (seq 0 (length texts)) in
      let documents := zip_with Build_Document texts metadatas in
      if negb (bool_decide (NoDup ids)) then
        Raise (Py.new ValueErrorC "Duplicate ids found in the ids list.")
      else if negb (forallb (fun v : vec => Nat.eqb (length v) (length e0)) embeddings) then
        Raise (Py.new ValueErrorC "setting an array element with a sequence")
      else
        Return {| index := Some {| d := length e0; xb := map Return embeddings |};
                  docstore := list_to_map (zip ids documents);
                  index_to_docstore_id := list_to_map (zip (seq 0 (length ids)) ids) |}
  end.

End LangChain.

Export LangChain.

(** ** External collaborators of the service *)

(** What [embed_documents] hands back: the expected 2-tuple
    [(embeddings_data, failed_indices)], or any other object. *)
Inductive embed_return :=
| EmbedPair (embeddings_data : list vec) (failed_indices : list Z)
| EmbedOther.

(** The embedding provider [GeminiAPIEmbeddings] ([app/services/embeddings.py]
    is not part of the sources; the service only calls these operations). *)
Record GeminiAPIEmbeddings := {
  has_embed_query : bool;
  embed_documents : list string -> outcome embed_return;
  embed_query : string -> outcome vec
}.

(** The file system and the persistence calls of langchain
    ([os.path.exists], [os.path.dirname], [ensure_directory_exists] of
    [app.core.utils], [FAISS.load_local], [FAISS.save_local]). *)
Record Disk := {
  path_exists : string -> bool;
  dirname : string -> string;
  ensure_directory_exists : string -> outcome unit;
  load_local : string -> outcome FAISS;
  save_local : FAISS -> string -> outcome unit
}.

(** ** Python list helpers *)

Definition is_empty {A} (l : list A) : bool :=
  match l with [] => true | _ => false end.

(** [l[:k]] for a Python int [k]: a negative [k] counts from the end. *)
Definition slice_to {A} (l : list A) (k : Z) : list A :=
  if (0 <=? k)%Z then firstn (Z.to_nat k) l
  else firstn (Z.to_nat (Z.of_nat (length l) + k)) l.

(** [enumerate(l)] *)
Fixpoint enumerate_from {A} (i : nat) (l : list A) : list (nat * A) :=
  match l with
  | [] => []
  | x :: l' => (i, x) :: enumerate_from (S i) l'
  end.

Definition enumerate {A} (l : list A) : list (nat * A) := enumerate_from 0 l.

(** [needle in hay] on strings. *)
Fixpoint contains (needle hay : string) : bool :=
  String.prefix needle hay ||
  match hay with
  | EmptyString => false
  | String _ hay' => contains needle hay'
  end.

Definition nl : string := String (Ascii.ascii_of_nat 10) EmptyString.

(** [sep.join(parts)] *)
Fixpoint join (sep : string) (parts : list string) : string :=
  match parts with
  | [] => EmptyString
  | [p] => p
  | p :: rest => String.append p (String.append sep (join sep rest))
  end.

(** [pairs.sort(key=lambda x: x[1], reverse=True)]: a stable sort, so
    entries of equal score keep their order. *)
Fixpoint insert_desc {A} (x : A * Q) (l : list (A * Q)) : list (A * Q) :=
  match l with
  | [] => [x]
  | y :: l' => if Np.gt (snd y) (snd x) then y :: insert_desc x l' else x :: y :: l'
  end.

Fixpoint sort_desc {A} (l : list (A * Q)) : list (A * Q) :=
  match l with
  | [] => []
  | x :: l' => insert_desc x (sort_desc l')
  end.

(** ** [class FAISSService] of [app/services/faiss_service.py] *)

Module FAISSService.

Section Service.

(** [self.embeddings], numpy, the disk and the uuid supply. *)
Context (np : NumPy) (embeddings : GeminiAPIEmbeddings) (disk : Disk) (uuid4 : nat -> string).

Definition solution_marker : string := "해결 방법:".

Definition default_solutions : string :=
  join "" [nl; nl; "추가 해결 방법:"; nl;
           "1. Flask 서버를 재시작해보세요."; nl;
           "2. .env 파일의 API 키가 올바른지 확인하세요."; nl;
           "3. 네트워크 연결을 확인하세요."].

Definition error_details (e : exn) : list string :=
  [String.append "임베딩 생성 중 예상치 못한 오류가 발생했습니다: " (exn_msg e);
   "";
   "가능한 원인:";
   "1. 네트워크 연결 문제";
   "2. Gemini API 서비스 장애";
   "3. API 키 권한 문제";
   "4. 요청 데이터 형식 문제";
   "";
   "해결 방법:";
   "1. 네트워크 연결을 확인하세요.";
   "2. 잠시 후 다시 시도하세요.";
   "3. API 키가 유효하고 권한이 있는지 확인하세요.";
   "4. 문제가 지속되면 로그를 확인하세요."].

(** [_generate_embeddings], lines 121-186. *)
Definition _generate_embeddings (documents : list Document) : M (list vec * list Z) :=
  try_except
    (log (EmbeddingStart (length documents)) ;;
     let document_contents := map page_content documents in
     embeddings_result <- call (embed_documents embeddings document_contents) ;;
     match embeddings_result with
     | EmbedPair embeddings_data failed_indices =>
       log (EmbeddingDone (length embeddings_data) (length failed_indices)) ;;
       ret (embeddings_data, failed_indices)
     | EmbedOther =>
       log EmbeddingBadFormat ;;
       raise (Py.new EmbeddingErrorC "임베딩 결과 형식이 올바르지 않습니다.")
     end)
    (fun e =>
       if isinstance e EmbeddingErrorC then
         log (EmbeddingFailed e) ;;
         let error_message := exn_msg e in
         let error_message :=
           if negb (contains solution_marker error_message)
           then String.append error_message default_solutions
           else error_message in
         raise (Py.new_from EmbeddingErrorC error_message e)
       else
         log (EmbeddingUnexpected e) ;;
         raise (Py.new_from EmbeddingErrorC (join nl (error_details e)) e)).

(** [_filter_successful_documents], lines 188-201. *)
Definition _filter_successful_documents (documents : list Document)
    (failed_indices : list Z) : list Document :=
  let failed_set : gset Z := list_to_set failed_indices in
  map snd (List.filter (fun p => negb (bool_decide (Z.of_nat (fst p) ∈ failed_set)))
                       (enumerate documents)).

(** [_create_faiss_vector_store], lines 203-237. *)
Definition _create_faiss_vector_store (documents : list Document)
    (embeddings_data : list vec) : M FAISS :=
  try_except
    (let text_embedding_pairs := zip (map page_content documents) embeddings_data in
     let metadatas := map metadata documents in
     call (from_embeddings uuid4 text_embedding_pairs metadatas))
    (fun e =>
       log (VectorStoreCreateFailed e) ;;
       raise (Py.new_from IndexingErrorC "벡터 스토어 생성 실패" e)).

(** [_save_index], lines 239-259. *)
Definition _save_index (vector_store : FAISS) (index_path : string) : M unit :=
  try_except
    (call (ensure_directory_exists disk (dirname disk index_path)) ;;
     call (save_local disk vector_store index_path) ;;
     log (IndexSaved index_path))
    (fun e =>
       log (IndexSaveFailed e) ;;
       raise (Py.new_from IndexingErrorC "인덱스 저장 실패" e)).

(** [create_index_from_documents], lines 45-95: the index builder. *)
Definition create_index_from_documents (documents : list Document)
    (index_path index_type : string) : M (option FAISS) :=
  if is_empty documents then
    log (NoDocuments index_type) ;; ret None
  else
    log (IndexBuildStart index_type index_path) ;;
    try_except
      (r <- _generate_embeddings documents ;;
       let '(embeddings_data, failed_indices) := r in
       if is_empty embeddings_data then
         log AllEmbeddingsFailed ;; ret None
       else
         let successful_documents := _filter_successful_documents documents failed_indices in
         vector_store <- _create_faiss_vector_store successful_documents embeddings_data ;;
         _save_index vector_store index_path ;;
         log (IndexBuildDone index_type (length successful_documents) (length failed_indices)) ;;
         ret (Some vector_store))
      (fun e =>
         log (IndexBuildError index_type e) ;;
         raise (Py.new_from IndexingErrorC (String.append index_type " 인덱스 생성 실패") e)).

(** [load_index], lines 97-119. *)
Definition load_index (index_path index_type : string) : M (option FAISS) :=
  if negb (path_exists disk index_path) then
    log (IndexMissing index_type index_path) ;; ret None
  else
    try_except
      (log (IndexLoading index_type index_path) ;;
       vs <- call (load_local disk index_path) ;;
       ret (Some vs))
      (fun e => log (IndexLoadFailed index_type e) ;; ret None).

(** The scan of [search_documents], lines 344-371: one pass over
    [range(num_vectors)], appending to [doc_score_pairs]. *)
Fixpoint scan (vector_store : FAISS) (ix : FaissIndex) (query_embedding_np : vec)
    (idxs : list nat) (doc_score_pairs : list (Document * Q)) : M (list (Document * Q)) :=
  match idxs with
  | [] => ret doc_score_pairs
  | idx :: rest =>
    match index_to_docstore_id vector_store !! idx with
    | None =>
      log (SearchNoDocstoreId idx) ;;
      scan vector_store ix query_embedding_np rest doc_score_pairs
    | Some docstore_id =>
      match docstore vector_store !! docstore_id with
      | None =>
        log (SearchNoDocument docstore_id) ;;
        scan vector_store ix query_embedding_np rest doc_score_pairs
      | Some doc =>
        match reconstruct ix idx with
        | Raise e_reconstruct =>
          log (SearchReconstructFailed idx e_reconstruct) ;;
          scan vector_store ix query_embedding_np rest doc_score_pairs
        | Return doc_embedding_np =>
          sim <- call (cosine_similarity np query_embedding_np doc_embedding_np) ;;
          scan vector_store ix query_embedding_np rest (doc_score_pairs ++ [(doc, sim)])
        end
      end
    end
  end.

(** Lines 340-375: scan, sort by score descending, keep [[:top_k]]. *)
Definition top_results_of (vector_store : FAISS) (ix : FaissIndex)
    (query_embedding_np : vec) (top_k : Z) : M (list (Document * Q) * nat) :=
  let num_vectors := ntotal ix in
  log (SearchScanStart num_vectors) ;;
  doc_score_pairs <- scan vector_store ix query_embedding_np (seq 0 num_vectors) [] ;;
  let doc_score_pairs := sort_desc doc_score_pairs in
  ret (slice_to doc_score_pairs top_k, length doc_score_pairs).

(** The list comprehension [[(doc, score) for ... if score >= t]]. *)
Definition keep_ge (top_results : list (Document * Q)) (t : Q) : list (Document * Q) :=
  List.filter (fun p => Np.ge (snd p) t) top_results.

(** Lines 377-390: the threshold filter and its relaxation. *)
Definition filter_results (top_results : list (Document * Q))
    (similarity_threshold : Q) : M (list (Document * Q)) :=
  let filtered_results := keep_ge top_results similarity_threshold in
  if is_empty filtered_results && Np.gt similarity_threshold float_0_1
     && negb (is_empty top_results)
  then
    log (SearchRelaxThreshold similarity_threshold) ;;
    ret (keep_ge top_results float_0_1)
  else ret filtered_results.

(** [search_documents], lines 305-403. *)
Definition search_documents (vector_store : option FAISS) (query_text : string)
    (top_k : Z) (similarity_threshold : Q) : M (list (Document * Q)) :=
  match vector_store with
  | None => log SearchNoVectorStore ;; ret []
  | Some vector_store =>
    if negb (has_embed_query embeddings) then
      log SearchNoEmbedQuery ;;
      raise (Py.new EmbeddingErrorC "임베딩 객체가 쿼리 임베딩을 지원하지 않습니다.")
    else
      try_except
        (log (SearchQueryEmbedding query_text) ;;
         query_embedding_np <- call (embed_query embeddings query_text) ;;
         match index vector_store with
         | None => log SearchIndexEmpty ;; ret []
         | Some ix =>
           if Nat.eqb (ntotal ix) 0 then log SearchIndexEmpty ;; ret []
           else
             r <- top_results_of vector_store ix query_embedding_np top_k ;;
             let '(top_results, n_pairs) := r in
             filtered_results <- filter_results top_results similarity_threshold ;;
             log (SearchDone n_pairs top_k (length top_results) similarity_threshold
                             (length filtered_results)) ;;
             ret filtered_results
         end)
        (fun e =>
           if isinstance e EmbeddingErrorC then
             log (SearchEmbeddingError e) ;; raise e
           else
             log (SearchUnexpected e) ;; ret [])
  end.

End Service.

End FAISSService.

Export FAISSService.

(** ** The indexing job state machine

    [app/services/indexing_service.py] and [app/services/status_service.py]
    are not part of the sources; [RepositoryService] only calls into them.
    The definitions of this module follow sections 3, 4.4 and 5 of the
    specification. *)

Module Indexing.

Inductive job_status := pending | indexing | completed | failed.

Definition status_name (s : job_status) : string :=
  match s with
  | pending => "pending"
  | indexing => "indexing"
  | completed => "completed"
  | failed => "failed"
  end.

(** Modelled from the spec: the per-repository job record of the missing
    status service (section 3, IndexingJob). *)
Record IndexingJob := {
  status : job_status;
  progress : Z;
  progress_message : string;
  start_time : option string;
  end_time : option string;
  error : option string;
  error_code : option string;
  callback_url : option string;
  requesting_user_id : option Z
}.

(** Modelled from the spec: the keyed job store of the missing status
    service (section 9), and the pipeline executions started so far (one
    entry, the repository key, per execution). *)
Record World := {
  jobs : gmap string IndexingJob;
  pipelines : list string
}.

(** Modelled from the spec: what the missing [prepare_and_start_indexing]
    reports to its caller (section 4.4). *)
Record IndexingResult := {
  r_status : string;
  r_progress : Z;
  r_progress_message : string;
  r_is_new_request : bool;
  r_start_time : option string;
  r_end_time : option string
}.

Definition report (j : IndexingJob) (is_new : bool) : IndexingResult :=
  {| r_status := status_name (status j);
     r_progress := progress j;
     r_progress_message := progress_message j;
     r_is_new_request := is_new;
     r_start_time := start_time j;
     r_end_time := end_time j |}.

Definition new_job (now : string) (callback : option string) (user : option Z) : IndexingJob :=
  {| status := pending; progress := 0; progress_message := "";
     start_time := Some now; end_time := None; error := None; error_code := None;
     callback_url := callback; requesting_user_id := user |}.

(** Modelled from the spec: [IndexingService.prepare_and_start_indexing]
    (the specification's [requestIndexing], section 4.4), whose source is
    missing.  One atomic check-and-create step on the job store (section 5):
    no record, or a failed one, creates the job in [pending] and starts the
    pipeline; a pending, indexing or completed record is returned unchanged. *)
Definition prepare_and_start_indexing (w : World) (now repo_key : string)
    (callback : option string) (user : option Z) : IndexingResult * World :=
  let start :=
    let j := new_job now callback user in
    (report j true,
     {| jobs := <[repo_key := j]> (jobs w); pipelines := pipelines w ++ [repo_key] |}) in
  match jobs w !! repo_key with
  | None => start
  | Some j =>
    match status j with
    | failed => start
    | pending | indexing | completed => (report j false, w)
    end
  end.

(** Modelled from the spec: the writes of the missing background pipeline
    to the job record (section 4.4): the job starts indexing, progresses
    without ever going back, and ends completed or failed. *)
Inductive pipeline_event :=
| Begin
| Progress (p : Z) (message : string)
| Succeed (now : string)
| Fail (now err code : string).

Definition is_terminal (ev : pipeline_event) : bool :=
  match ev with
  | Begin | Progress _ _ => false
  | Succeed _ | Fail _ _ _ => true
  end.

Definition update_job (j : IndexingJob) (ev : pipeline_event) : IndexingJob :=
  match ev with
  | Begin =>
    {| status := indexing; progress := progress j; progress_message := progress_message j;
       start_time := start_time j; end_time := end_time j; error := error j;
       error_code := error_code j; callback_url := callback_url j;
       requesting_user_id := requesting_user_id j |}
  | Progress p message =>
    {| status := indexing; progress := Z.max (progress j) p; progress_message := message;
       start_time := start_time j; end_time := end_time j; error := error j;
       error_code := error_code j; callback_url := callback_url j;
       requesting_user_id := requesting_user_id j |}
  | Succeed now =>
    {| status := completed; progress := 100; progress_message := progress_message j;
       start_time := start_time j; end_time := Some now; error := error j;
       error_code := error_code j; callback_url := callback_url j;
       requesting_user_id := requesting_user_id j |}
  | Fail now err code =>
    {| status := failed; progress := progress j; progress_message := progress_message j;
       start_time := start_time j; end_time := Some now; error := Some err;
       error_code := Some code; callback_url := callback_url j;
       requesting_user_id := requesting_user_id j |}
  end.

(** Modelled from the spec: a pipeline (missing) writes only to the record
    of a job that is in flight; terminal states persist (section 4.4). *)
Definition pipeline_step (w : World) (repo_key : string) (ev : pipeline_event) : World :=
  match jobs w !! repo_key with
  | Some j =>
    match status j with
    | pending | indexing =>
      {| jobs := <[repo_key := update_job j ev]> (jobs w); pipelines := pipelines w |}
    | completed | failed => w
    end
  | None => w
  end.

(** Modelled from the spec: what happens between two requests, pipeline
    writes and requests of other clients, each an atomic step on the job
    store (section 5). *)
Inductive event :=
| PipelineEvent (repo_key : string) (ev : pipeline_event)
| RequestEvent (now repo_key : string) (callback : option string) (user : option Z).

Definition step (w : World) (e : event) : World :=
  match e with
  | PipelineEvent k ev => pipeline_step w k ev
  | RequestEvent now k cb u => snd (prepare_and_start_indexing w now k cb u)
  end.

Definition run (w : World) (es : list event) : World := foldl step w es.

(** The status query of the status service. *)
Record StatusData := {
  sd_status : string;
  sd_progress : Z;
  sd_progress_message : string;
  sd_error : option string;
  sd_error_code : option string;
  sd_start_time : option string;
  sd_completion_time : option string
}.

(** Modelled from the spec: [StatusService.get_repository_status_data],
    whose source is missing: the fields of the job record (section 6), and
    the status [not_indexed] that its caller tests for when there is none. *)
Definition get_repository_status_data (w : World) (repo_name : string) : StatusData :=
  match jobs w !! repo_name with
  | None =>
    {| sd_status := "not_indexed"; sd_progress := 0; sd_progress_message := "";
       sd_error := None; sd_error_code := None; sd_start_time := None;
       sd_completion_time := None |}
  | Some j =>
    {| sd_status := status_name (status j); sd_progress := progress j;
       sd_progress_message := progress_message j; sd_error := error j;
       sd_error_code := error_code j; sd_start_time := start_time j;
       sd_completion_time := end_time j |}
  end.

End Indexing.

Export Indexing.

(** ** Helpers of [app.core] that the services import

    [app/core/utils.py], [app/core/validators.py] and
    [app/core/response_utils.py] are not part of the sources: the functions
    are parameters, the two response builders are the responses they build. *)

Record IndexRequestData := {
  ird_repo_url : option string;
  ird_repository_info : gmap string string
}.

Record SearchRequestData := {
  srd_repo_name : option string;
  srd_query : option string;
  srd_search_type : option string
}.

Record Core := {
  validate_repo_url : IndexRequestData -> outcome string;
  validate_search_request : SearchRequestData -> outcome (string * string * string);
  _get_repo_name_from_url : string -> string;
  extract_repo_name_from_url : string -> outcome string;
  get_faiss_index_path : string -> string -> string;
  top_k_default : Z;
  threshold_default : Q
}.

(** [success_response(data, message, status_code)] and
    [error_response(message, error_code, status_code)]. *)
Inductive api_response (D : Type) :=
| success_response (data : option D) (message : string) (status_code : Z)
| error_response (message : string) (error_code : string) (status_code : Z).
Arguments success_response {D} data message status_code.
Arguments error_response {D} message error_code status_code.

(** ** [class RepositoryService] of [app/services/repository_service.py] *)

Module RepositoryService.

(** The [response_data] dictionary of the index and status methods (the
    status method adds fields that repeat the status record; they are left
    out). *)
Record ResponseData := {
  analysis_id : string;
  repo_name : string;
  rd_status : string;
  rd_progress : Z;
  rd_message : string;
  started_at : option string;
  estimated_completion : option string
}.

Record SearchResults := {
  sr_repo_name : string;
  sr_query : string;
  sr_search_type : string;
  sr_results : list (Document * Q)
}.

(** The dictionaries the service methods return. *)
Record ServiceResult (D : Type) := {
  res_status : string;
  res_data : option D;
  res_message : string;
  res_error_code : option string;
  res_status_code : Z
}.
Arguments res_status {D} _.
Arguments res_data {D} _.
Arguments res_message {D} _.
Arguments res_error_code {D} _.
Arguments res_status_code {D} _.

(** The three [except] clauses that close every method of the class:
    validation and service errors pass, anything else becomes a
    [ServiceError] with a fixed message. *)
Definition at_boundary (message : string) (e : exn) : exn :=
  if isinstance e ValidationErrorC || isinstance e ServiceErrorC then e
  else Py.new ServiceErrorC message.

Section Service.

Context (np : NumPy) (embeddings : GeminiAPIEmbeddings) (disk : Disk) (core : Core).

(** [process_index_request], lines 34-119.  [now] is the clock reading the
    indexing service takes when it creates a job. *)
Definition process_index_request (w : World) (now : string)
    (request_data : IndexRequestData) (callback_url : option string)
    (user_id : option Z) : outcome (ServiceResult ResponseData) * World :=
  match validate_repo_url core request_data with
  | Raise e => (Raise (at_boundary "Repository indexing failed due to unexpected error" e), w)
  | Return repo_url =>
    let repo_name := _get_repo_name_from_url core repo_url in
    let '(initial_status_result, w') :=
      prepare_and_start_indexing w now repo_name callback_url user_id in
    let current_status := r_status initial_status_result in
    let is_new_request := r_is_new_request initial_status_result in
    let response_data :=
      {| analysis_id := repo_name;
         repo_name := repo_name;
         rd_status := current_status;
         rd_progress := r_progress initial_status_result;
         rd_message := r_progress_message initial_status_result;
         started_at := r_start_time initial_status_result;
         estimated_completion := r_end_time initial_status_result |} in
    if String.eqb current_status "completed" then
      (Return {| res_status := "success"; res_data := Some response_data;
                 res_message := join "" ["저장소 '"; repo_name; "'은(는) 이미 성공적으로 인덱싱되었습니다."];
                 res_error_code := None; res_status_code := 200 |}, w')
    else
      let message :=
        if is_new_request &&
           (String.eqb current_status "pending" || String.eqb current_status "indexing")
        then join "" ["저장소 '"; repo_name; "' 인덱싱 작업이 시작되었습니다."]
        else join "" ["저장소 '"; repo_name; "' 인덱싱 작업이 이미 진행 중입니다."] in
      (Return {| res_status := "success"; res_data := Some response_data;
                 res_message := message; res_error_code := None;
                 res_status_code := 202 |}, w')
  end.

(** Modelled from the spec: [SearchService.search_repository], whose source
    is missing (section 4.5, the search orchestrator): resolve the
    repository key, derive the index location, load; no index fails with
    [INDEX_NOT_FOUND]; otherwise delegate to the search engine with the
    configured defaults.  It has no access to the job store. *)
Definition search_service_search_repository (repo_url query search_type : string)
    : outcome SearchResults :=
  match extract_repo_name_from_url core repo_url with
  | Raise e => Raise e
  | Return repo_key =>
    let location := get_faiss_index_path core repo_key search_type in
    match result (load_index disk location search_type) with
    | Raise e => Raise e
    | Return None =>
      Raise (Exn ServiceErrorC
               (join "" ["저장소 '"; repo_key; "'의 인덱스를 찾을 수 없습니다."])
               None (Some "INDEX_NOT_FOUND"))
    | Return (Some vector_store) =>
      match result (search_documents np embeddings (Some vector_store) query
                      (top_k_default core) (threshold_default core)) with
      | Raise e => Raise e
      | Return pairs =>
        Return {| sr_repo_name := repo_key; sr_query := query;
                  sr_search_type := search_type; sr_results := pairs |}
      end
    end
  end.

(** [search_repository], lines 121-170. *)
Definition search_repository (request_data : SearchRequestData)
    : outcome (ServiceResult SearchResults) :=
  let boundary := at_boundary "Repository search failed due to unexpected error" in
  match validate_search_request core request_data with
  | Raise e => Raise (boundary e)
  | Return (repo_name, query, search_type) =>
    let search_type := if negb (String.eqb search_type "code") then "code" else search_type in
    match search_service_search_repository
            (String.append "https://github.com/" repo_name) query search_type with
    | Raise e => Raise (boundary e)
    | Return data =>
      Return {| res_status := "success"; res_data := Some data;
                res_message := "검색이 완료되었습니다."; res_error_code := None;
                res_status_code := 200 |}
    end
  end.

(** [get_repository_status], lines 172-254. *)
Definition get_repository_status (w : World) (repo_name : string)
    : ServiceResult ResponseData :=
  let status_data_result := get_repository_status_data w repo_name in
  let current_status := sd_status status_data_result in
  let response_data :=
    {| analysis_id := repo_name;
       repo_name := repo_name;
       rd_status := current_status;
       rd_progress := sd_progress status_data_result;
       rd_message := sd_progress_message status_data_result;
       started_at := sd_start_time status_data_result;
       estimated_completion := None |} in
  if String.eqb current_status "not_indexed" then
    {| res_status := "error"; res_data := None;
       res_message := join "" ["저장소 '"; repo_name; "'에 대한 인덱싱 정보를 찾을 수 없습니다."];
       res_error_code := Some "NOT_FOUND"; res_status_code := 404 |}
  else if String.eqb current_status "failed" then
    {| res_status := "error"; res_data := None;
       res_message := join "" ["저장소 '"; repo_name; "' 인덱싱에 실패했습니다: ";
                               default "알 수 없는 오류" (sd_error status_data_result)];
       res_error_code := Some (default "INDEXING_FAILED" (sd_error_code status_data_result));
       res_status_code := 409 |}
  else if String.eqb current_status "pending" || String.eqb current_status "indexing" then
    {| res_status := "success"; res_data := Some response_data;
       res_message := join "" ["저장소 '"; repo_name; "' 인덱싱 진행 중입니다."];
       res_error_code := None; res_status_code := 202 |}
  else if String.eqb current_status "completed" then
    {| res_status := "success"; res_data := Some response_data;
       res_message := join "" ["저장소 '"; repo_name; "' 인덱싱이 완료되었습니다."];
       res_error_code := None; res_status_code := 200 |}
  else
    {| res_status := "error"; res_data := None;
       res_message := join "" ["알 수 없는 상태값("; current_status; ")입니다."];
       res_error_code := Some "UNKNOWN_STATUS"; res_status_code := 500 |}.

End Service.

End RepositoryService.

Export RepositoryService.

(** ** The resources of [app/api/repository_api.py] *)

Module RepositoryApi.

(** [e.error_code or "SERVICE_ERROR"] *)
Definition error_code_or (e : exn) (fallback : string) : string :=
  match exn_code e with
  | Some c => if String.eqb c "" then fallback else c
  | None => fallback
  end.

Definition internal_error_message : string := "서버 내부 오류가 발생했습니다.".

Section Api.

Context (np : NumPy) (embeddings : GeminiAPIEmbeddings) (disk : Disk) (core : Core).

(** [RepositoryIndex.post], lines 222-280. *)
Definition RepositoryIndex_post (w : World) (now : string) (data : IndexRequestData)
    (callback_url : option string) (user_id : option Z)
    : api_response ResponseData * World :=
  match process_index_request core w now data callback_url user_id with
  | (Return result, w') =>
    (success_response (res_data result) (res_message result) (res_status_code result), w')
  | (Raise e, w') =>
    if isinstance e ValidationErrorC then
      (error_response (exn_msg e) "VALIDATION_ERROR" 400, w')
    else if isinstance e ServiceErrorC then
      (error_response (exn_msg e) (error_code_or e "SERVICE_ERROR")
         (if bool_decide (error_code_or e "" = "") then 500 else 400), w')
    else
      (error_response internal_error_message "INTERNAL_SERVER_ERROR" 500, w')
  end.

(** [RepositorySearch.post], lines 291-346.  The handler has no access to
    the job store: the world comes back as it went in. *)
Definition RepositorySearch_post (w : World) (data : SearchRequestData)
    : api_response SearchResults * World :=
  match search_repository np embeddings disk core data with
  | Return result =>
    (success_response (res_data result) (res_message result) 200, w)
  | Raise e =>
    if isinstance e ValidationErrorC then
      (error_response (exn_msg e) "VALIDATION_ERROR" 400, w)
    else if isinstance e ServiceErrorC then
      let error_code := error_code_or e "SERVICE_ERROR" in
      let status_code :=
        if bool_decide (exn_code e = Some "INDEX_NOT_FOUND") then 404%Z else 500%Z in
      (error_response (exn_msg e) error_code status_code, w)
    else
      (error_response internal_error_message "INTERNAL_SERVER_ERROR" 500, w)
  end.

(** [RepositoryStatus.get], lines 360-411. *)
Definition RepositoryStatus_get (w : World) (repo_name : string)
    : api_response ResponseData * World :=
  let result := get_repository_status w repo_name in
  if String.eqb (res_status result) "error" then
    (error_response (res_message result) (default "" (res_error_code result))
       (res_status_code result), w)
  else
    (success_response (res_data result) (res_message result) (res_status_code result), w).

End Api.

End RepositoryApi.

Export RepositoryApi.

(** ** [class IssueAnalysisService] of [app/services/issue_analysis_service.py] *)

Module IssueAnalysisService.

(** The request dictionary. *)
Record IssueRequestData := {
  issueId : option Z;
  repoUrl : option string;
  defaultBranch : option string;
  title : string;
  body : string
}.

(** The response dictionary; [status_code] is popped by the resource. *)
Record AnalysisResponse := {
  summary : string;
  relatedFiles : list string;
  codeSnippets : list string;
  solutionSuggestion : string;
  status_code : Z
}.

(** The collaborators the service constructs or imports:
    [GeminiAPIEmbeddings(...)] may raise on construction, and
    [issue_analyzer.analyze_issue] ([app/services/issue_analyzer.py], not
    part of the sources) returns the analysis without its status code. *)
Record Collaborators := {
  new_embeddings : outcome GeminiAPIEmbeddings;
  issue_analyzer : GeminiAPIEmbeddings -> gmap string FAISS -> IssueRequestData -> string ->
                   outcome (string * list string * list string * string)
}.

(** [self.embeddings] / [self.faiss_service], set together on first use. *)
Definition self_state := option GeminiAPIEmbeddings.

Definition failure (summary suggestion : string) (code : Z) : AnalysisResponse :=
  {| summary := summary; relatedFiles := []; codeSnippets := [];
     solutionSuggestion := suggestion; status_code := code |}.

Section Service.

Context (disk : Disk) (core : Core) (ext : Collaborators).

(** [_initialize_services], lines 29-42. *)
Definition _initialize_services (self : self_state) : outcome GeminiAPIEmbeddings :=
  match self with
  | Some embeddings => Return embeddings
  | None =>
    match new_embeddings ext with
    | Return embeddings => Return embeddings
    | Raise _ => Raise (Py.new ServiceErrorC "AI 분석 서비스 초기화 중 오류가 발생했습니다.")
    end
  end.

(** [_load_vector_stores], lines 149-177. *)
Definition _load_vector_stores (repo_name : string) : option (gmap string FAISS) :=
  let code_index_path := get_faiss_index_path core repo_name "code" in
  match result (load_index disk code_index_path "code") with
  | Return (Some code_vector_store) => Some {[ "code"%string := code_vector_store ]}
  | Return None => None
  | Raise _ => None
  end.

(** The three handlers of the outer [try], lines 118-147. *)
Definition on_error (e : exn) : AnalysisResponse :=
  if isinstance e RAGErrorC then
    failure "AI 분석 중 검색 오류가 발생했습니다."
            "검색 엔진 오류로 인해 분석을 완료할 수 없습니다." 500
  else if isinstance e ServiceErrorC then
    failure "분석 서비스 오류가 발생했습니다."
            "서비스 오류로 인해 분석을 완료할 수 없습니다." 500
  else
    failure "이슈 분석 중 예상치 못한 오류가 발생했습니다."
            "예상치 못한 오류로 인해 분석을 완료할 수 없습니다." 500.

(** [analyze_issue], lines 44-147.  The service object and the world (job
    store and started pipelines) are threaded through; the method only ever
    writes its own fields. *)
Definition analyze_issue (self : self_state) (w : World) (request_data : IssueRequestData)
    : AnalysisResponse * self_state * World :=
  let default_branch :=
    match defaultBranch request_data with
    | Some b => if String.eqb b "" then "main" else b
    | None => "main"
    end in
  let missing_url :=
    (failure "저장소 URL이 필요합니다." "분석을 위해 저장소 URL을 제공해주세요." 400, self, w) in
  match repoUrl request_data with
  | None => missing_url
  | Some repo_url =>
    if String.eqb repo_url "" then missing_url
    else
      match extract_repo_name_from_url core repo_url with
      | Raise e =>
        if isinstance e ValueErrorC then
          (failure "유효하지 않은 저장소 URL입니다." "올바른 저장소 URL을 제공해주세요." 400, self, w)
        else (on_error e, self, w)
      | Return repo_name =>
        match _initialize_services self with
        | Raise e => (on_error e, self, w)
        | Return embeddings =>
          let self' := Some embeddings in
          match _load_vector_stores repo_name with
          | None =>
            (failure (join "" ["'"; repo_name; "' 저장소의 분석 데이터를 찾을 수 없습니다."])
                     "저장소가 아직 인덱싱되지 않았습니다. 먼저 저장소를 분석해주세요." 404,
             self', w)
          | Some vector_stores =>
            match issue_analyzer ext embeddings vector_stores request_data default_branch with
            | Raise e => (on_error e, self', w)
            | Return (s, files, snippets, suggestion) =>
              ({| summary := s; relatedFiles := files; codeSnippets := snippets;
                  solutionSuggestion := suggestion; status_code := 200 |}, self', w)
            end
          end
        end
      end
  end.

End Service.

End IssueAnalysisService.

Export IssueAnalysisService.

(** ** Concrete collaborators, to run the model on *)

Module Fixtures.

(** Exact rational arithmetic: the norm is exact on vectors whose squared
    length is a perfect square, and an addend below float32 resolution is
    absorbed, as in [1.0 + 1e-8]. *)
Definition Qsqrt (x : Q) : Q := Z.sqrt (Qnum x) # Pos.sqrt (Qden x).

Definition exact_np : NumPy := {|
  linalg_norm := fun v => Qsqrt (fold_right (fun x acc => x * x + acc)%Q 0%Q v);
  fadd := fun x y => if Qle_bool (y * 16777216) x then x else (x + y)%Q;
  fdiv := Qdiv;
  dot_value := fun a b => fold_right Qplus 0%Q (zip_with Qmult a b)
|}.

Definition unit_x : vec := [1; 0; 0; 0]%Q.

(** A provider that embeds every text as [unit_x]. *)
Definition constant_embeddings : GeminiAPIEmbeddings := {|
  has_embed_query := true;
  embed_documents := fun texts => Return (EmbedPair (map (fun _ => unit_x) texts) []);
  embed_query := fun _ => Return unit_x
|}.

(** A provider that is out of quota. *)
Definition quota_error : exn := Py.new EmbeddingErrorC "429 quota exceeded".

Definition failing_embeddings : GeminiAPIEmbeddings := {|
  has_embed_query := true;
  embed_documents := fun _ => Raise quota_error;
  embed_query := fun _ => Raise quota_error
|}.

(** A provider that fails on the first document of every batch. *)
Definition first_fails_embeddings : GeminiAPIEmbeddings := {|
  has_embed_query := true;
  embed_documents := fun texts => Return (EmbedPair (map (fun _ => unit_x) (tail texts)) [0%Z]);
  embed_query := fun _ => Return unit_x
|}.

Definition doc (text : string) : Document := {| page_content := text; metadata := ∅ |}.

Definition foo_doc : Document :=
  {| page_content := "def foo(): pass"; metadata := {[ "source"%string := "a.py"%string ]} |}.
Definition bar_doc : Document :=
  {| page_content := "def bar(): return 1"; metadata := {[ "source"%string := "b.py"%string ]} |}.

(** Three stored vectors, at cosine 1/2, 0 and 3/5 from [unit_x]. *)
Definition store3 : FAISS := {|
  index := Some {| d := 4; xb := [Return [1; 1; 1; 1]%Q; Return [0; 1; 0; 0]%Q; Return [3; 4; 0; 0]%Q] |};
  docstore := list_to_map [("a"%string, doc "half"); ("b"%string, doc "zero"); ("c"%string, doc "three fifths")];
  index_to_docstore_id := list_to_map [(0, "a"%string); (1, "b"%string); (2, "c"%string)]
|}.

(** One stored vector, at cosine 1/2 from [unit_x]. *)
Definition store1 : FAISS := {|
  index := Some {| d := 4; xb := [Return [1; 1; 1; 1]%Q] |};
  docstore := list_to_map [("a"%string, doc "half")];
  index_to_docstore_id := list_to_map [(0, "a"%string)]
|}.

(** An index without vectors, and a store without index. *)
Definition empty_store : FAISS := {|
  index := Some {| d := 4; xb := [] |};
  docstore := ∅;
  index_to_docstore_id := ∅
|}.

Definition no_index_store : FAISS := {|
  index := None;
  docstore := ∅;
  index_to_docstore_id := ∅
|}.

(** A stored vector of the wrong dimension: scoring raises [ValueError]. *)
Definition ragged_store : FAISS := {|
  index := Some {| d := 4; xb := [Return [1; 1]%Q] |};
  docstore := list_to_map [("a"%string, doc "short")];
  index_to_docstore_id := list_to_map [(0, "a"%string)]
|}.

(** Identifiers ["x"], ["xx"], ["xxx"], ...: pairwise distinct. *)
Fixpoint xs (n : nat) : string :=
  match n with
  | O => "x"
  | S n' => String.append "x" (xs n')
  end.

(** A disk on which nothing is stored and every write succeeds, one whose
    only entry is corrupt, and one that is full. *)
Definition blank_disk : Disk := {|
  path_exists := fun _ => false;
  dirname := fun p => p;
  ensure_directory_exists := fun _ => Return tt;
  load_local := fun _ => Raise (Py.new OSErrorC "No such file or directory");
  save_local := fun _ _ => Return tt
|}.

Definition corrupt_disk : Disk := {|
  path_exists := fun _ => true;
  dirname := fun p => p;
  ensure_directory_exists := fun _ => Return tt;
  load_local := fun _ => Raise (Py.new RuntimeErrorC "could not read index.faiss");
  save_local := fun _ _ => Return tt
|}.

Definition full_disk : Disk := {|
  path_exists := fun _ => false;
  dirname := fun p => p;
  ensure_directory_exists := fun _ => Return tt;
  load_local := fun _ => Raise (Py.new OSErrorC "No such file or directory");
  save_local := fun _ _ => Raise (Py.new OSErrorC "No space left on device")
|}.

(** Helpers of [app.core] on repository names of the form [owner/name]. *)
Definition plain_core : Core := {|
  validate_repo_url := fun r =>
    match ird_repo_url r with
    | Some u => Return u
    | None => Raise (Py.new ValidationErrorC "repo_url is required")
    end;
  validate_search_request := fun r =>
    match srd_repo_name r, srd_query r with
    | Some n, Some q => Return (n, q, default "code" (srd_search_type r))
    | _, _ => Raise (Py.new ValidationErrorC "repo_name and query are required")
    end;
  _get_repo_name_from_url := fun u => u;
  extract_repo_name_from_url := fun u => Return u;
  get_faiss_index_path := fun name kind => join "/" ["faiss_indexes"; name; kind];
  top_k_default := 5;
  threshold_default := float_0_5
|}.

Definition plain_collaborators : Collaborators := {|
  new_embeddings := Return constant_embeddings;
  issue_analyzer := fun _ _ _ _ => Return ("summary"%string, [], [], "suggestion"%string)
|}.

Definition empty_world : World := {| jobs := ∅; pipelines := [] |}.

Definition flask : string := "pallets/flask".

(** The world in which the pipeline of [flask] has begun. *)
Definition indexing_world : World := {|
  jobs := {[ flask := update_job (new_job "2024-07-22T11:00:00Z" None None) Begin ]};
  pipelines := [flask]
|}.

Definition flask_index_request : IndexRequestData :=
  {| ird_repo_url := Some flask; ird_repository_info := ∅ |}.

Definition flask_search_request : SearchRequestData :=
  {| srd_repo_name := Some flask; srd_query := Some "request object"; srd_search_type := None |}.

Definition flask_issue_request : IssueRequestData :=
  {| issueId := Some 7%Z; repoUrl := Some flask; defaultBranch := None;
     title := "crash on start"; body := "" |}.

End Fixtures.

Export Fixtures.


(** ** Vocabulary of the properties *)

Module Spec.

(** [a] may stand before [b] in a ranking by descending score. *)
Definition desc {A} (a b : A * Q) : Prop := (snd b <= snd a)%Q.

(** The top-k candidate list of a search ([top_results], line 375), when
    the search gets that far: the query embeds, the index holds vectors and
    scoring does not fail. *)
Definition top_k_candidates (np : NumPy) (embeddings : GeminiAPIEmbeddings)
    (vector_store : FAISS) (query_text : string) (top_k : Z)
    : option (list (Document * Q)) :=
  if has_embed_query embeddings then
    match embed_query embeddings query_text, index vector_store with
    | Return q, Some ix =>
      if Nat.eqb (ntotal ix) 0 then None
      else
        match result (top_results_of np vector_store ix q top_k) with
        | Return (top_results, _) => Some top_results
        | Raise _ => None
        end
    | _, _ => None
    end
  else None.

(** Whether the threshold step falls back to 0.1 (line 384). *)
Definition relaxes (top : list (Document * Q)) (t : Q) : bool :=
  is_empty (keep_ge top t) && Np.gt t float_0_1 && negb (is_empty top).

(** The exception of the capability guard of [search_documents]. *)
Definition no_embed_query : exn :=
  Py.new EmbeddingErrorC "임베딩 객체가 쿼리 임베딩을 지원하지 않습니다.".


(** The documents that survive embedding, with their original index: those
    whose index the provider did not report as failed. *)
Definition survivors (documents : list Document) (failed_indices : list Z)
    : list (nat * Document) :=
  List.filter
    (fun p => negb (bool_decide (Z.of_nat (fst p) ∈ (list_to_set failed_indices : gset Z))))
    (enumerate documents).


(** The message of every exception that escapes the index builder. *)
Definition build_failed (index_type : string) : string :=
  String.append index_type " 인덱스 생성 실패".

(** What [_generate_embeddings] raises when the provider call failed with
    [e] (lines 151-186): an [EmbeddingError] from [e], with the solutions
    appended if [e] is an [EmbeddingError] that names none, and the generic
    diagnostic if [e] is anything else. *)
Definition embedding_error_of (e : exn) : exn :=
  if isinstance e EmbeddingErrorC then
    Py.new_from EmbeddingErrorC
      (if negb (contains solution_marker (exn_msg e))
       then String.append (exn_msg e) default_solutions
       else exn_msg e) e
  else Py.new_from EmbeddingErrorC (join nl (error_details e)) e.

Definition bad_format : exn :=
  Py.new EmbeddingErrorC "임베딩 결과 형식이 올바르지 않습니다.".

(** The stored rows of a vector store (none without an index). *)
Definition xb_of (vector_store : FAISS) : list (outcome vec) :=
  match index vector_store with
  | Some ix => xb ix
  | None => []
  end.

(** The store [from_embeddings] builds from as many documents as vectors,
    all of dimension [dim]. *)
Definition assembled (uuid4 : nat -> string) (docs : list Document) (embs : list vec)
    (dim : nat) : FAISS :=
  let ids := map uuid4 (seq 0 (length docs)) in
  {| index := Some {| d := dim; xb := map Return embs |};
     docstore := list_to_map (zip ids docs);
     index_to_docstore_id := list_to_map (zip (seq 0 (length docs)) ids) |}.

(** A job that a pipeline is working on. *)
Definition in_flight (w : World) (repo_key : string) : Prop :=
  exists j, jobs w !! repo_key = Some j /\ (status j = pending \/ status j = indexing).

(** An event that does not end the pipeline of [repo_key]: any request, any
    write to another job, and the non-terminal writes to this one. *)
Definition keeps_running (repo_key : string) (e : event) : Prop :=
  match e with
  | PipelineEvent k ev => k = repo_key -> is_terminal ev = false
  | RequestEvent _ _ _ _ => True
  end.

(** The pipeline executions started for [repo_key]. *)
Definition executions (w : World) (repo_key : string) : nat :=
  count_occ String.string_dec (pipelines w) repo_key.

(** The two messages of an accepted index request (lines 100 and 102). *)
Definition started_message (repo_name : string) : string :=
  join "" ["저장소 '"; repo_name; "' 인덱싱 작업이 시작되었습니다."].

Definition in_progress_message (repo_name : string) : string :=
  join "" ["저장소 '"; repo_name; "' 인덱싱 작업이 이미 진행 중입니다."].

End Spec.

Export Spec.

(** ** Vocabulary of the scan *)

Module Rows.

(** Row [idx] of a store as the scan of [search_documents] sees it (lines
    345-368): its document and its vector, when the id table, the docstore
    and the index all deliver. *)
Definition row_of (vs : FAISS) (ix : FaissIndex) (idx : nat) : option (Document * vec) :=
  match index_to_docstore_id vs !! idx with
  | None => None
  | Some docstore_id =>
    match docstore vs !! docstore_id with
    | None => None
    | Some doc =>
      match reconstruct ix idx with
      | Return v => Some (doc, v)
      | Raise _ => None
      end
    end
  end.

(** The rows of a store that deliver, in index order. *)
Definition rows (vs : FAISS) (ix : FaissIndex) : list (Document * vec) :=
  omap (row_of vs ix) (seq 0 (ntotal ix)).

(** The value of [cosine_similarity] on vectors of one dimension. *)
Definition score (np : NumPy) (q v : vec) : Q :=
  dot_value np (normalize_vector np q) (normalize_vector np v).

Definition scored (np : NumPy) (q : vec) (rs : list (Document * vec)) : list (Document * Q) :=
  map (fun r => (fst r, score np q (snd r))) rs.

Definition same_dimension (q : vec) (r : Document * vec) : bool :=
  Nat.eqb (length q) (length (snd r)).

(** The exception of [np.dot] on vectors of different dimensions. *)
Definition shape_error : exn := Py.new ValueErrorC "shapes not aligned".



End Rows.

Export Rows.

(** ** Scores as floating-point values

    The scores that [search_documents] ranks are Python floats, made by
    numpy from float32 arrays: numbers, the two infinities and NaN.  In the
    embedding above a score is the rational it denotes, which covers the
    searches in which every score is a number.  This module embeds the
    search once more with the values of IEEE 754, for the properties of the
    ranking that depend on how Python orders floats: an overflow in a stored
    vector makes the norm infinite and the score NaN, and NaN compares false
    with everything. *)

Module Ieee.

Inductive float :=
| Num (q : Q)
| PInf
| NInf
| NaN.

Definition is_nan (x : float) : bool :=
  match x with
  | NaN => true
  | _ => false
  end.

(** [x <= y] on numbers and infinities. *)
Definition le (x y : float) : bool :=
  match x, y with
  | NaN, _ | _, NaN => false
  | NInf, _ => true
  | _, PInf => true
  | Num a, Num b => Qle_bool a b
  | _, _ => false
  end.

(** [x >= y], [x < y] and [x > y] on floats: false when either is NaN. *)
Definition ge (x y : float) : bool := le y x.
Definition lt (x y : float) : bool :=
  negb (is_nan x) && negb (is_nan y) && negb (le y x).
Definition gt (x y : float) : bool := lt y x.

(** A float32 array, and the primitives of numpy that the source uses on
    them: [np.array(x, dtype=np.float32)] on each component, the norm,
    [norm + 1e-8], the division of a component by the norm, and the value of
    [np.dot] on arrays of one shape. *)
Definition fvec := list float.

Record NumPy := {
  float32 : Q -> float;
  linalg_norm : fvec -> float;
  fadd : float -> float -> float;
  fdiv : float -> float -> float;
  dot_value : fvec -> fvec -> float
}.

(** [np.array(v, dtype=np.float32)] *)
Definition array (np : NumPy) (v : vec) : fvec := map (float32 np) v.

(** [np.dot] of two 1-d arrays raises [ValueError] on a shape mismatch. *)
Definition dot (np : NumPy) (a b : fvec) : outcome float :=
  if Nat.eqb (length a) (length b) then Return (dot_value np a b)
  else Raise shape_error.

(** [normalize_vector], faiss_service.py lines 21-24. *)
Definition normalize_vector (np : NumPy) (v : fvec) : fvec :=
  let norm := fadd np (linalg_norm np v) (Num float_1e_8) in
  map (fun x => fdiv np x norm) v.

(** [cosine_similarity], faiss_service.py lines 27-31. *)
Definition cosine_similarity (np : NumPy) (vec1 vec2 : fvec) : outcome float :=
  let v1_normalized := normalize_vector np vec1 in
  let v2_normalized := normalize_vector np vec2 in
  dot np v1_normalized v2_normalized.

(** The stable descending sort by insertion.  On scores without NaN this
    is what [pairs.sort(key=lambda x: x[1], reverse=True)] computes. *)
Fixpoint insert_desc {A} (x : A * float) (l : list (A * float)) : list (A * float) :=
  match l with
  | [] => [x]
  | y :: l' => if gt (snd y) (snd x) then y :: insert_desc x l' else x :: y :: l'
  end.

Fixpoint sort_desc {A} (l : list (A * float)) : list (A * float) :=
  match l with
  | [] => []
  | x :: l' => insert_desc x (sort_desc l')
  end.

(** Whether some element of the list is less than its successor. *)
Fixpoint ascends {A} (l : list (A * float)) : bool :=
  match l with
  | x :: ((y :: _) as l') => lt (snd x) (snd y) || ascends l'
  | _ => false
  end.

(** [pairs.sort(key=lambda x: x[1], reverse=True)] on a list of
    (document, score) pairs. *)
Definition list_sort := list (Document * float) -> list (Document * float).

(** What is known of Python's sort.  It rearranges the list.  When [<]
    orders the keys (no NaN among them) the result is in descending order
    and stable.  And CPython leaves a list alone in which no element is less
    than its successor: with [reverse=True] it reverses the list, finds it
    to be one run (no element less than its predecessor,
    [count_run] of [Objects/listobject.c]), and reverses it back.  Nothing
    else is promised when NaN is among the keys. *)
Record python_sort (sort : list_sort) : Prop := {
  sort_permutes : forall l, sort l ≡ₚ l;
  sort_orders : forall l, Forall (fun p => is_nan (snd p) = false) l -> sort l = sort_desc l;
  sort_keeps_runs : forall l, ascends l = false -> sort l = l
}.

Section Service.

Context (np : NumPy) (sort : list_sort) (embeddings : GeminiAPIEmbeddings).

(** The scan of [search_documents], lines 344-371. *)
Fixpoint scan (vector_store : FAISS) (ix : FaissIndex) (query_embedding_np : fvec)
    (idxs : list nat) (doc_score_pairs : list (Document * float))
    : M (list (Document * float)) :=
  match idxs with
  | [] => ret doc_score_pairs
  | idx :: rest =>
    match index_to_docstore_id vector_store !! idx with
    | None =>
      log (SearchNoDocstoreId idx) ;;
      scan vector_store ix query_embedding_np rest doc_score_pairs
    | Some docstore_id =>
      match docstore vector_store !! docstore_id with
      | None =>
        log (SearchNoDocument docstore_id) ;;
        scan vector_store ix query_embedding_np rest doc_score_pairs
      | Some doc =>
        match reconstruct ix idx with
        | Raise e_reconstruct =>
          log (SearchReconstructFailed idx e_reconstruct) ;;
          scan vector_store ix query_embedding_np rest doc_score_pairs
        | Return v =>
          let doc_embedding_np := array np v in
          sim <- call (cosine_similarity np query_embedding_np doc_embedding_np) ;;
          scan vector_store ix query_embedding_np rest (doc_score_pairs ++ [(doc, sim)])
        end
      end
    end
  end.

(** Lines 340-375: scan, sort by score descending, keep [[:top_k]]. *)
Definition top_results_of (vector_store : FAISS) (ix : FaissIndex)
    (query_embedding_np : fvec) (top_k : Z) : M (list (Document * float) * nat) :=
  let num_vectors := ntotal ix in
  log (SearchScanStart num_vectors) ;;
  doc_score_pairs <- scan vector_store ix query_embedding_np (seq 0 num_vectors) [] ;;
  let doc_score_pairs := sort doc_score_pairs in
  ret (slice_to doc_score_pairs top_k, length doc_score_pairs).

(** The list comprehension [[(doc, score) for ... if score >= t]]. *)
Definition keep_ge (top_results : list (Document * float)) (t : Q)
    : list (Document * float) :=
  List.filter (fun p => ge (snd p) (Num t)) top_results.

(** Lines 377-390: the threshold filter and its relaxation. *)
Definition filter_results (top_results : list (Document * float))
    (similarity_threshold : Q) : M (list (Document * float)) :=
  let filtered_results := keep_ge top_results similarity_threshold in
  if is_empty filtered_results && Np.gt similarity_threshold float_0_1
     && negb (is_empty top_results)
  then
    log (SearchRelaxThreshold similarity_threshold) ;;
    ret (keep_ge top_results float_0_1)
  else ret filtered_results.

(** [search_documents], lines 305-403. *)
Definition search_documents (vector_store : option FAISS) (query_text : string)
    (top_k : Z) (similarity_threshold : Q) : M (list (Document * float)) :=
  match vector_store with
  | None => log SearchNoVectorStore ;; ret []
  | Some vector_store =>
    if negb (has_embed_query embeddings) then
      log SearchNoEmbedQuery ;;
      raise (Py.new EmbeddingErrorC "임베딩 객체가 쿼리 임베딩을 지원하지 않습니다.")
    else
      try_except
        (log (SearchQueryEmbedding query_text) ;;
         query_embedding <- call (embed_query embeddings query_text) ;;
         let query_embedding_np := array np query_embedding in
         match index vector_store with
         | None => log SearchIndexEmpty ;; ret []
         | Some ix =>
           if Nat.eqb (ntotal ix) 0 then log SearchIndexEmpty ;; ret []
           else
             r <- top_results_of vector_store ix query_embedding_np top_k ;;
             let '(top_results, n_pairs) := r in
             filtered_results <- filter_results top_results similarity_threshold ;;
             log (SearchDone n_pairs top_k (length top_results) similarity_threshold
                             (length filtered_results)) ;;
             ret filtered_results
         end)
        (fun e =>
           if isinstance e EmbeddingErrorC then
             log (SearchEmbeddingError e) ;; raise e
           else
             log (SearchUnexpected e) ;; ret [])
  end.

End Service.

(** The value of [cosine_similarity] on the query embedding and a stored
    vector of its dimension, and the scores of a list of rows. *)
Definition score (np : NumPy) (q v : vec) : float :=
  dot_value np (normalize_vector np (array np q)) (normalize_vector np (array np v)).

Definition scored (np : NumPy) (q : vec) (rs : list (Document * vec))
    : list (Document * float) :=
  map (fun r => (fst r, score np q (snd r))) rs.

(** No score of the rows is NaN. *)
Definition numeric (np : NumPy) (q : vec) (rs : list (Document * vec)) : Prop :=
  Forall (fun r => is_nan (score np q (snd r)) = false) rs.

(** The top-k candidate list of a search ([top_results], line 375), when
    the search gets that far. *)
Definition top_k_candidates (np : NumPy) (sort : list_sort)
    (embeddings : GeminiAPIEmbeddings) (vector_store : FAISS) (query_text : string)
    (top_k : Z) : option (list (Document * float)) :=
  if has_embed_query embeddings then
    match embed_query embeddings query_text, index vector_store with
    | Return q, Some ix =>
      if Nat.eqb (ntotal ix) 0 then None
      else
        match result (top_results_of np sort vector_store ix (array np q) top_k) with
        | Return (top_results, _) => Some top_results
        | Raise _ => None
        end
    | _, _ => None
    end
  else None.

(** Whether the threshold step falls back to 0.1 (line 384). *)
Definition relaxes (top : list (Document * float)) (t : Q) : bool :=
  is_empty (keep_ge top t) && Np.gt t float_0_1 && negb (is_empty top).

(** [a] may stand before [b] in a ranking by descending score. *)
Definition desc {A} (a b : A * float) : Prop := ge (snd a) (snd b) = true.

(** Two scores are the same value. *)
Definition tied (s : float) (p : Document * float) : bool :=
  ge (snd p) s && ge s (snd p).

(** A score that is a number. *)
Definition num {A} (p : A * Q) : A * float := (fst p, Num (snd p)).

(** The number a float stands for (0 for the others), and the primitives
    of numpy that stay within the numbers: those of the embedding in
    rationals. *)
Definition number (x : float) : Q :=
  match x with
  | Num q => q
  | _ => 0
  end.

Definition of_numbers (np : Np.NumPy) : NumPy := {|
  float32 := Num;
  linalg_norm := fun v => Num (Np.linalg_norm np (map number v));
  fadd := fun x y => Num (Np.fadd np (number x) (number y));
  fdiv := fun x y => Num (Np.fdiv np (number x) (number y));
  dot_value := fun a b => Num (Np.dot_value np (map number a) (map number b))
|}.

End Ieee.

(** ** [class FAISSService], continued: [delete_index] and [get_index_stats] *)

Module FAISSServiceAdmin.

(** The [logger] call sites of the two methods, with the text of the
    exception they interpolate. *)
Inductive admin_event :=
| IndexDeleted (index_path : string)
| IndexDeleteFailed (e : exn)
| IndexStatsFailed (message : string).

(** A directory, as the list of the names that lead to it; the
    directories at or below [p] are those [p] is a prefix of. *)
Definition path := list string.

(** The directories of the index store: which directory a path string
    denotes, what [FAISS.load_local] finds at each directory that exists,
    and, for the directories that [shutil.rmtree] fails to remove, the
    exception it raises and what it leaves at and below them. *)
Record Tree := {
  locate : string -> path;
  entries : gmap path (outcome FAISS);
  rmtree_fails : gmap path (exn * gmap path (outcome FAISS))
}.

(** The directories of [m] at or below [p], and the others. *)
Definition inside (p : path) (m : gmap path (outcome FAISS)) : gmap path (outcome FAISS) :=
  filter (fun kv => p `prefix_of` kv.1) m.
Definition outside (p : path) (m : gmap path (outcome FAISS)) : gmap path (outcome FAISS) :=
  filter (fun kv => ~ p `prefix_of` kv.1) m.

(** [os.path.exists] *)
Definition tree_exists (t : Tree) (index_path : string) : bool :=
  bool_decide (is_Some (entries t !! locate t index_path)).

(** [shutil.rmtree]: removes the directory with everything below it, or
    raises, having removed some of it. *)
Definition rmtree (t : Tree) (index_path : string) : outcome unit * Tree :=
  let p := locate t index_path in
  match rmtree_fails t !! p with
  | Some (e, rest) =>
    (Raise e, {| locate := locate t;
                 entries := outside p (entries t) ∪ inside p rest;
                 rmtree_fails := rmtree_fails t |})
  | None =>
    (Return tt, {| locate := locate t;
                   entries := outside p (entries t);
                   rmtree_fails := rmtree_fails t |})
  end.

(** [delete_index], lines 261-281: the flag it returns, what it logs and
    the directories it leaves. *)
Definition delete_index (t : Tree) (index_path : string) : bool * list admin_event * Tree :=
  if tree_exists t index_path then
    match rmtree t index_path with
    | (Return _, t') => (true, [IndexDeleted index_path], t')
    | (Raise e, t') => (false, [IndexDeleteFailed e], t')
    end
  else (false, [], t).

(** The values of the statistics dictionary. *)
Inductive stat :=
| SInt (n : nat)
| SBool (b : bool)
| SStr (s : string).

(** The attributes of a faiss index beyond [ntotal] and [d] that the
    statistics read. *)
Record IndexAttributes := {
  is_trained : FaissIndex -> bool;
  has_metric_type : FaissIndex -> bool
}.

(** [get_index_stats], lines 283-303.  Without an index, [index.ntotal]
    raises [AttributeError], and the method returns the empty dictionary. *)
Definition get_index_stats (attrs : IndexAttributes) (vector_store : FAISS)
    : gmap string stat * list admin_event :=
  match index vector_store with
  | Some index =>
    (list_to_map
       [("total_vectors"%string, SInt (ntotal index));
        ("dimension"%string, SInt (d index));
        ("is_trained"%string, SBool (is_trained attrs index));
        ("metric_type"%string,
         SStr (if has_metric_type attrs index then "L2" else "unknown"))],
     [])
  | None =>
    (∅, [IndexStatsFailed "'NoneType' object has no attribute 'ntotal'"])
  end.

End FAISSServiceAdmin.

Export FAISSServiceAdmin.

From stdpp Require pretty.

(** ** [class RepositoryService], continued: the text methods *)

Module RepositoryTexts.

(** The request dictionaries of the two methods.  A field is [None] when
    the key is absent; the values are strings (the resources validate the
    body against request models whose fields are all strings). *)
Record ReadmeRequest := {
  rr_repo_name : option string;
  rr_readme_content : option string
}.

Record TranslationRequest := {
  tr_text : option string;
  tr_source_language : option string;
  tr_target_language : option string
}.

(** The [response_data] dictionaries; [rs_is_fallback] is the key
    [is_fallback], which is present (and [True]) only in the fallback
    response. *)
Record ReadmeSummaryData := {
  rs_repo_name : string;
  rs_summary : string;
  rs_original_length : nat;
  rs_summary_length : nat;
  rs_is_fallback : bool
}.

Record TranslationData := {
  td_original_text : string;
  td_translated_text : string;
  td_source_language : string;
  td_target_language : string
}.

(** What the methods call: [len] and [str.strip] of Python (which count
    and classify code points), and the collaborators
    [ReadmeSummarizer.summarize_readme] (run to completion by
    [asyncio.run]), [ReadmeSummarizer.create_fallback_description] and
    [Translator().translate_text], whose sources are not part of the
    repository sources. *)
Record TextServices := {
  len : string -> nat;
  strip : string -> string;
  readme_summarizer_summarize_readme : string -> string -> outcome (option string);
  create_fallback_description : string -> outcome string;
  translator_translate_text : string -> string -> string -> outcome (option string)
}.

(** Truth value of an optional string: [None] and [""] are false. *)
Definition truthy (o : option string) : bool :=
  match o with
  | Some s => negb (String.eqb s "")
  | None => false
  end.

Definition translation_failed : exn :=
  Exn ServiceErrorC "번역에 실패했습니다. 원본 텍스트를 사용해주세요." None
      (Some "TRANSLATION_FAILED"%string).

Section Service.

Context (texts : TextServices).

(** [summarize_readme], lines 256-327. *)
Definition summarize_readme (request_data : ReadmeRequest)
    : outcome (ServiceResult ReadmeSummaryData) :=
  let boundary := at_boundary "README summarization failed due to unexpected error" in
  if negb (bool_decide (is_Some (rr_repo_name request_data)))
     && negb (bool_decide (is_Some (rr_readme_content request_data)))
  then Raise (Py.new ValidationErrorC "요청 데이터가 필요합니다.")
  else if negb (truthy (rr_repo_name request_data)) then
    Raise (Py.new ValidationErrorC "저장소 이름이 필요합니다.")
  else if negb (truthy (rr_readme_content request_data)) then
    Raise (Py.new ValidationErrorC "README 내용이 필요합니다.")
  else
    let repo_name := default "" (rr_repo_name request_data) in
    let readme_content := default "" (rr_readme_content request_data) in
    match readme_summarizer_summarize_readme texts repo_name readme_content with
    | Raise e => Raise (boundary e)
    | Return summary =>
      if truthy summary then
        let summary := default "" summary in
        Return {| res_status := "success";
                  res_data := Some {| rs_repo_name := repo_name;
                                      rs_summary := summary;
                                      rs_original_length := len texts readme_content;
                                      rs_summary_length := len texts summary;
                                      rs_is_fallback := false |};
                  res_message := String.append "README 요약이 완료되었습니다: " repo_name;
                  res_error_code := None; res_status_code := 200 |}
      else
        match create_fallback_description texts repo_name with
        | Raise e => Raise (boundary e)
        | Return fallback_description =>
          Return {| res_status := "success";
                    res_data := Some {| rs_repo_name := repo_name;
                                        rs_summary := fallback_description;
                                        rs_original_length := len texts readme_content;
                                        rs_summary_length := len texts fallback_description;
                                        rs_is_fallback := true |};
                    res_message :=
                      String.append "README 요약에 실패하여 기본 설명을 생성했습니다: " repo_name;
                    res_error_code := None; res_status_code := 200 |}
        end
    end.

(** [translate_text], lines 329-385. *)
Definition translate_text (request_data : TranslationRequest)
    : outcome (ServiceResult TranslationData) :=
  let boundary := at_boundary "Translation failed due to unexpected error" in
  let text := strip texts (default "" (tr_text request_data)) in
  let source_language := default "auto" (tr_source_language request_data) in
  let target_language := default "ko" (tr_target_language request_data) in
  if String.eqb text "" then
    Raise (Py.new ValidationErrorC "번역할 텍스트가 필요합니다.")
  else
    match translator_translate_text texts text source_language target_language with
    | Raise e => Raise (boundary e)
    | Return translated_text =>
      if truthy translated_text then
        Return {| res_status := "success";
                  res_data := Some {| td_original_text := text;
                                      td_translated_text := default "" translated_text;
                                      td_source_language := source_language;
                                      td_target_language := target_language |};
                  res_message := "번역이 완료되었습니다.";
                  res_error_code := None; res_status_code := 200 |}
      else Raise translation_failed
    end.

(** The three [except] clauses of the two resources, which differ in the
    message of the last. *)
Definition text_error {D} (internal_message : string) (e : exn) : api_response D :=
  if isinstance e ValidationErrorC then
    error_response (exn_msg e) "VALIDATION_ERROR" 400
  else if isinstance e ServiceErrorC then
    error_response (exn_msg e) (error_code_or e "SERVICE_ERROR") 500
  else
    error_response internal_message "INTERNAL_SERVER_ERROR" 500.

(** [ReadmeSummary.post], lines 519-574 of [repository_api.py]. *)
Definition ReadmeSummary_post (data : ReadmeRequest) : api_response ReadmeSummaryData :=
  match summarize_readme data with
  | Return result =>
    success_response (res_data result) (res_message result) (res_status_code result)
  | Raise e => text_error "README 요약 중 서버 내부 오류가 발생했습니다." e
  end.

(** [Translation.post], lines 586-641 of [repository_api.py]. *)
Definition Translation_post (data : TranslationRequest) : api_response TranslationData :=
  match translate_text data with
  | Return result => success_response (res_data result) (res_message result) 200
  | Raise e => text_error "번역 중 서버 내부 오류가 발생했습니다." e
  end.

End Service.

End RepositoryTexts.

Export RepositoryTexts.

(** ** [class ChatbotService] of [app/services/chatbot_service.py] and its
    resource in [app/api/chatbot_api.py] *)

Module Chatbot.

(** The JSON values of a message field: [null], a string, or anything
    else (a number, a boolean, a list, an object). *)
Inductive pyval :=
| PNone
| PStr (s : string)
| POther.

#[global] Instance pyval_eq_dec : EqDecision pyval.
Proof. solve_decision. Defined.

(** An element of the message list: a dictionary, or anything else. *)
Inductive message :=
| MDict (fields : gmap string pyval)
| MOther.

(** The value under [messages]: a list, or anything else (also nothing). *)
Inductive messages_value :=
| MList (ms : list message)
| MNotList.

Record ChatRequest := {
  cr_repo_name : option string;
  cr_messages : messages_value;
  cr_readme_filename : option string;
  cr_license_filename : option string;
  cr_contributing_filename : option string
}.

(** The exceptions at this boundary: [FileNotFoundError], which the
    service and the resource single out, or one of the classes of [Py.exn]. *)
Inductive chat_exn :=
| FileNotFoundError (msg : string)
| PyExn (e : exn).

Inductive chat_outcome (A : Type) :=
| Answered (a : A)
| Failed (e : chat_exn).
Arguments Answered {A} a.
Arguments Failed {A} e.

(** What the resource sends: the marshalled result, or [abort(code, message)]. *)
Inductive http_answer (R : Type) :=
| Marshalled (result : R)
| abort (code : Z) (message : string).
Arguments Marshalled {R} result.
Arguments abort {R} code message.

Definition validation {A} (msg : string) : chat_outcome A :=
  Failed (PyExn (Py.new ValidationErrorC msg)).

Definition unexpected_message : string :=
  "저장소 컨텍스트 질문 답변 중 예상치 못한 오류가 발생했습니다.".

(** [msg.get("role") == "user"] *)
Definition is_user (m : message) : bool :=
  match m with
  | MDict fields => bool_decide (fields !! "role"%string = Some (PStr "user"))
  | MOther => false
  end.

(** [str(i)] of a list position. *)
Definition str (i : nat) : string := pretty.pretty i.

Definition is_dict (m : message) : bool :=
  match m with
  | MDict _ => true
  | MOther => false
  end.

Section Service.

(** [R] is the dictionary that
    [repository_context_service.answer_question_with_context] returns
    ([app/services/repository_context_service.py] is not part of the
    sources); [strip] is [str.strip]. *)
Context {R : Type} (strip : string -> string).
Context (answer_question_with_context :
           string -> string -> option string -> option string -> option string ->
           list message -> chat_outcome R).

(** The four [except] clauses of [ask_repository_question], lines 76-87. *)
Definition chat_boundary (e : chat_exn) : chat_exn :=
  match e with
  | FileNotFoundError msg => PyExn (Exn ServiceErrorC msg None (Some "FILE_NOT_FOUND"%string))
  | PyExn e => PyExn (at_boundary unexpected_message e)
  end.

(** [ask_repository_question], lines 24-87.  The comprehension of line 47
    calls [msg.get] on every message and raises [AttributeError] at one that
    is not a dictionary; so does [question.strip()] on a content that is not
    a string. *)
Definition ask_repository_question (request_data : ChatRequest) : chat_outcome (R * Z) :=
  let required := validation "repo_name과 messages(배열)는 필수 항목이며, 비어있을 수 없습니다." in
  let unexpected := Failed (PyExn (Py.new ServiceErrorC unexpected_message)) in
  match cr_repo_name request_data, cr_messages request_data with
  | Some repo_name, MList messages =>
    if String.eqb repo_name "" || is_empty messages then required
    else if negb (forallb is_dict messages) then unexpected
    else
      let user_messages := List.filter is_user messages in
      match last user_messages with
      | None => validation "사용자 메시지가 필요합니다."
      | Some (MDict fields) =>
        match default (PStr "") (fields !! "content"%string) with
        | PStr question =>
          if String.eqb (strip question) "" then validation "질문 내용이 비어있습니다."
          else
            match answer_question_with_context repo_name question
                    (cr_readme_filename request_data)
                    (cr_license_filename request_data)
                    (cr_contributing_filename request_data) messages with
            | Answered result => Answered (result, 200%Z)
            | Failed e => Failed (chat_boundary e)
            end
        | _ => unexpected
        end
      | Some MOther => unexpected
      end
  | _, _ => required
  end.

(** The loop of [validate_messages], lines 102-113, from index [i] on. *)
Fixpoint validate_from (i : nat) (messages : list message) : outcome bool :=
  match messages with
  | [] => Return true
  | message :: rest =>
    let complain (what : string) :=
      Raise (Py.new ValidationErrorC (join "" ["Message "; str i; what])) in
    match message with
    | MOther => complain "는 객체여야 합니다."
    | MDict fields =>
      if negb (bool_decide (is_Some (fields !! "role"%string))) then
        complain "에 'role' 필드가 필요합니다."
      else if negb (bool_decide (is_Some (fields !! "content"%string))) then
        complain "에 'content' 필드가 필요합니다."
      else if negb (bool_decide (default PNone (fields !! "role"%string)
                                   ∈ [PStr "user"; PStr "assistant"])) then
        complain "의 role은 'user' 또는 'assistant'여야 합니다."
      else validate_from (S i) rest
    end
  end.

(** [validate_messages], lines 89-115. *)
Definition validate_messages (messages : messages_value) : outcome bool :=
  match messages with
  | MNotList => Raise (Py.new ValidationErrorC "messages는 배열이어야 합니다.")
  | MList ms => validate_from 0 ms
  end.

(** [AskRepositoryQuestion.post], lines 63-92 of [chatbot_api.py]. *)
Definition AskRepositoryQuestion_post (data : ChatRequest) : http_answer R :=
  match ask_repository_question data with
  | Answered (result, _) => Marshalled result
  | Failed (PyExn e) =>
    if isinstance e ValidationErrorC then abort 400 (exn_msg e)
    else if isinstance e ServiceErrorC then abort 500 (exn_msg e)
    else abort 500 "서버 내부 오류가 발생했습니다."
  | Failed (FileNotFoundError msg) => abort 404 msg
  end.

End Service.

(** A message that [validate_messages] accepts. *)
Definition well_formed (m : message) : Prop :=
  exists fields,
    m = MDict fields /\
    is_Some (fields !! "content"%string) /\
    (fields !! "role"%string = Some (PStr "user") \/
     fields !! "role"%string = Some (PStr "assistant")).

(** The status of an answer of the resource. *)
Definition answer_status {R} (a : http_answer R) : Z :=
  match a with
  | Marshalled _ => 200
  | abort code _ => code
  end.

End Chatbot.

Export Chatbot.

(** ** Vocabulary of the orchestration properties *)

Module Orchestration.

(** [request_data.get("defaultBranch") or "main"] (line 58 of
    [issue_analysis_service.py]). *)
Definition default_branch_of (request_data : IssueRequestData) : string :=
  match defaultBranch request_data with
  | Some b => if String.eqb b "" then "main" else b
  | None => "main"
  end.

(** A service object like [ext], but with the constructor [ctor] for the
    embeddings. *)
Definition with_constructor (ext : Collaborators) (ctor : outcome GeminiAPIEmbeddings)
    : Collaborators :=
  {| new_embeddings := ctor; issue_analyzer := issue_analyzer ext |}.

(** The HTTP status of a response. *)
Definition http_status {D} (r : api_response D) : Z :=
  match r with
  | success_response _ _ c => c
  | error_response _ _ c => c
  end.

End Orchestration.

Export Orchestration.

(** ** More stores to run the model on *)

Module MoreFixtures.

(** Two stored vectors at the same cosine 1/2 from [unit_x]. *)
Definition tied_store : FAISS := {|
  index := Some {| d := 4; xb := [Return [1; 1; 1; 1]%Q; Return [2; 2; 2; 2]%Q] |};
  docstore := list_to_map [("a"%string, doc "first"); ("b"%string, doc "second")];
  index_to_docstore_id := list_to_map [(0, "a"%string); (1, "b"%string)]
|}.


(** A perfect match next to a vector of another dimension. *)
Definition mixed_store : FAISS := {|
  index := Some {| d := 4; xb := [Return [1; 0; 0; 0]%Q; Return [1; 1]%Q] |};
  docstore := list_to_map [("a"%string, doc "match"); ("b"%string, doc "short")];
  index_to_docstore_id := list_to_map [(0, "a"%string); (1, "b"%string)]
|}.

(** A provider that reports one vector more than it was given texts, and
    one that reports a single vector whatever it was given. *)
Definition generous_embeddings : GeminiAPIEmbeddings := {|
  has_embed_query := true;
  embed_documents := fun texts => Return (EmbedPair (map (fun _ => unit_x) ("" :: texts)) []);
  embed_query := fun _ => Return unit_x
|}.

Definition stingy_embeddings : GeminiAPIEmbeddings := {|
  has_embed_query := true;
  embed_documents := fun _ => Return (EmbedPair [unit_x] []);
  embed_query := fun _ => Return unit_x
|}.

(** The attributes of a flat index. *)
Definition flat_attributes : IndexAttributes :=
  {| is_trained := fun _ => true; has_metric_type := fun _ => true |}.

(** The directories that the path strings of the examples denote. *)
Definition locate_example (s : string) : path :=
  if String.eqb s "faiss/flask" then ["faiss"; "flask"]
  else if String.eqb s "faiss/flask/code" then ["faiss"; "flask"; "code"]
  else if String.eqb s "faiss/django/code" then ["faiss"; "django"; "code"]
  else [s].

(** Two repositories with one index each, under one root. *)
Definition two_index_tree : Tree :=
  {| locate := locate_example;
     entries := list_to_map
       [(["faiss"], Raise (Py.new RuntimeErrorC "no index here"));
        (["faiss"; "flask"], Raise (Py.new RuntimeErrorC "no index here"));
        (["faiss"; "flask"; "code"], Return store1);
        (["faiss"; "django"], Raise (Py.new RuntimeErrorC "no index here"));
        (["faiss"; "django"; "code"], Return store3)];
     rmtree_fails := ∅ |}.

(** Helpers of [app.core] that accept no repository. *)
Definition strict_core : Core := {|
  validate_repo_url := fun _ => Raise (Py.new ValidationErrorC "유효하지 않은 저장소 URL입니다.");
  validate_search_request := validate_search_request plain_core;
  _get_repo_name_from_url := fun u => u;
  extract_repo_name_from_url := fun _ => Raise (Py.new ValueErrorC "not a repository URL");
  get_faiss_index_path := get_faiss_index_path plain_core;
  top_k_default := 5;
  threshold_default := float_0_5
|}.

(** A disk whose only index holds [store1]. *)
Definition stocked_disk : Disk := {|
  path_exists := fun _ => true;
  dirname := fun p => p;
  ensure_directory_exists := fun _ => Return tt;
  load_local := fun _ => Return store1;
  save_local := fun _ _ => Return tt
|}.

(** Text services that return nothing, on strings without surrounding
    whitespace. *)
Definition silent_texts : TextServices := {|
  len := String.length;
  strip := fun s => s;
  readme_summarizer_summarize_readme := fun _ _ => Return None;
  create_fallback_description := fun name => Return (String.append name " repository");
  translator_translate_text := fun _ _ _ => Return None
|}.

Definition flask_readme_request : ReadmeRequest :=
  {| rr_repo_name := Some flask; rr_readme_content := Some "# Flask" |}.

Definition hello_translation_request : TranslationRequest :=
  {| tr_text := Some "hello"; tr_source_language := None; tr_target_language := None |}.

(** A conversation: a question, an answer, and a follow-up question. *)
Definition user_says (text : string) : message :=
  MDict (list_to_map [("role"%string, PStr "user"); ("content"%string, PStr text)]).
Definition assistant_says (text : string) : message :=
  MDict (list_to_map [("role"%string, PStr "assistant"); ("content"%string, PStr text)]).

Definition conversation : list message :=
  [user_says "what is flask?"; assistant_says "a framework"; user_says "who wrote it?";
   assistant_says "..."].

Definition flask_chat_request : ChatRequest :=
  {| cr_repo_name := Some flask; cr_messages := MList conversation;
     cr_readme_filename := None; cr_license_filename := None;
     cr_contributing_filename := None |}.

(** A context service that echoes the question, and one that misses a file. *)
Definition echo_context (repo question : string) (readme license contributing : option string)
    (messages : list message) : chat_outcome string :=
  Answered question.

Definition missing_file_context (repo question : string)
    (readme license contributing : option string) (messages : list message)
    : chat_outcome string :=
  Failed (FileNotFoundError "README.md not found").

(** Arithmetic on numbers, infinities and NaN, exact on the numbers (as
    [exact_np] is): enough of IEEE 754 to run the examples. *)
Definition negate (x : Ieee.float) : Ieee.float :=
  match x with
  | Ieee.Num q => Ieee.Num (- q)
  | Ieee.PInf => Ieee.NInf
  | Ieee.NInf => Ieee.PInf
  | Ieee.NaN => Ieee.NaN
  end.

Definition signed (q : Q) (x : Ieee.float) : Ieee.float :=
  if Qle_bool 0 q then x else negate x.

Definition xadd (x y : Ieee.float) : Ieee.float :=
  match x, y with
  | Ieee.NaN, _ | _, Ieee.NaN => Ieee.NaN
  | Ieee.PInf, Ieee.NInf | Ieee.NInf, Ieee.PInf => Ieee.NaN
  | Ieee.PInf, _ | _, Ieee.PInf => Ieee.PInf
  | Ieee.NInf, _ | _, Ieee.NInf => Ieee.NInf
  | Ieee.Num a, Ieee.Num b => Ieee.Num (a + b)
  end.

Definition xmul (x y : Ieee.float) : Ieee.float :=
  match x, y with
  | Ieee.NaN, _ | _, Ieee.NaN => Ieee.NaN
  | Ieee.Num a, Ieee.Num b => Ieee.Num (a * b)
  | Ieee.Num a, i | i, Ieee.Num a => if Qeq_bool a 0 then Ieee.NaN else signed a i
  | Ieee.PInf, Ieee.PInf | Ieee.NInf, Ieee.NInf => Ieee.PInf
  | _, _ => Ieee.NInf
  end.

Definition xdiv (x y : Ieee.float) : Ieee.float :=
  match x, y with
  | Ieee.NaN, _ | _, Ieee.NaN => Ieee.NaN
  | Ieee.Num a, Ieee.Num b =>
    if Qeq_bool b 0 then (if Qeq_bool a 0 then Ieee.NaN else signed a Ieee.PInf)
    else Ieee.Num (a / b)
  | Ieee.Num _, _ => Ieee.Num 0
  | i, Ieee.Num b => signed b i
  | _, _ => Ieee.NaN
  end.

Definition is_inf (x : Ieee.float) : bool :=
  match x with
  | Ieee.PInf | Ieee.NInf => true
  | _ => false
  end.

Definition square_of (x : Ieee.float) : Q :=
  match x with
  | Ieee.Num q => q * q
  | _ => 0
  end.

(** The largest float32. *)
Definition float32_max : Q := 340282346638528859811704183484516925440.

Definition ieee_np : Ieee.NumPy := {|
  Ieee.float32 := fun q =>
    if Qle_bool q float32_max && Qle_bool (- float32_max) q then Ieee.Num q
    else signed q Ieee.PInf;
  Ieee.linalg_norm := fun v =>
    if existsb Ieee.is_nan v then Ieee.NaN
    else if existsb is_inf v then Ieee.PInf
    else Ieee.Num (Qsqrt (fold_right (fun x acc => square_of x + acc)%Q 0%Q v));
  Ieee.fadd := fun x y =>
    match x, y with
    | Ieee.Num a, Ieee.Num b => Ieee.Num (if Qle_bool (b * 16777216) a then a else (a + b)%Q)
    | _, _ => xadd x y
    end;
  Ieee.fdiv := xdiv;
  Ieee.dot_value := fun a b => fold_right xadd (Ieee.Num 0) (zip_with xmul a b)
|}.

(** Three stored vectors, the second with a component beyond float32: at
    cosine 3/5, NaN and 1 from [unit_x]. *)
Definition overflow_store : FAISS := {|
  index := Some {| d := 4;
                   xb := [Return [3; 4; 0; 0]%Q;
                          Return [(1000000000000000000000000000000000000000 : Q); 0; 0; 0]%Q;
                          Return [1; 0; 0; 0]%Q] |};
  docstore := list_to_map [("a"%string, doc "three fifths"); ("b"%string, doc "overflow");
                           ("c"%string, doc "one")];
  index_to_docstore_id := list_to_map [(0, "a"%string); (1, "b"%string); (2, "c"%string)]
|}.

End MoreFixtures.

Export MoreFixtures.

(** * Properties *)

(** ** The effect monad *)

Section MonadFacts.

Context {A B : Type}.

Lemma result_bind (m : M A) (k : A -> M B) :
  result (Py.bind m k) =
  match result m with
  | Return a => result (k a)
  | Raise e => Raise e
  end.
Proof.
  destruct m as [[a | e] l]; simpl; [| reflexivity].
  destruct (k a); reflexivity.
Qed.

Lemma logged_bind (m : M A) (k : A -> M B) :
  logged (Py.bind m k) =
  match result m with
  | Return a => logged m ++ logged (k a)
  | Raise _ => logged m
  end.
Proof.
  destruct m as [[a | e] l]; simpl; [| reflexivity].
  destruct (k a); reflexivity.
Qed.

Lemma result_try_except (m : M A) (h : exn -> M A) :
  result (try_except m h) =
  match result m with
  | Return a => Return a
  | Raise e => result (h e)
  end.
Proof.
  destruct m as [[a | e] l]; simpl; [reflexivity |].
  destruct (h e); reflexivity.
Qed.

Lemma logged_try_except (m : M A) (h : exn -> M A) :
  logged (try_except m h) =
  match result m with
  | Return _ => logged m
  | Raise e => logged m ++ logged (h e)
  end.
Proof.
  destruct m as [[a | e] l]; simpl; [reflexivity |].
  destruct (h e); reflexivity.
Qed.

Lemma result_call (r : outcome A) : result (call r) = r.
Proof. reflexivity. Qed.

Lemma result_ret (a : A) : result (ret a) = Return a.
Proof. reflexivity. Qed.

Lemma result_raise (e : exn) : result (@raise A e) = Raise e.
Proof. reflexivity. Qed.

End MonadFacts.

Lemma result_log (ev : log_event) : result (log ev) = Return tt.
Proof. reflexivity. Qed.

Arguments Py.bind : simpl never.
Arguments Py.try_except : simpl never.

Create Rewrite HintDb py.
Create Rewrite HintDb pylog.
#[export] Hint Rewrite @result_bind @result_try_except @result_call @result_ret
  @result_raise result_log : py.
#[export] Hint Rewrite @logged_bind @logged_try_except : pylog.

(** Push [result] through the monadic structure of a computation. *)
Ltac py_result := repeat (autorewrite with py; cbn beta iota).

(** ** Ranking *)

Section Ranking.

Context {A : Type}.

Lemma gt_true (x y : Q) : Np.gt x y = true -> (y < x)%Q.
Proof.
  unfold Np.gt. intros H. apply negb_true_iff in H.
  apply Qnot_le_lt. intros Hle. apply Qle_bool_iff in Hle. congruence.
Qed.


Lemma ge_true (x y : Q) : Np.ge x y = true <-> (y <= x)%Q.
Proof. unfold Np.ge. apply Qle_bool_iff. Qed.






Lemma Forall_list_filter (P : A * Q -> Prop) (f : A * Q -> bool) l :
  Forall P l -> Forall P (List.filter f l).
Proof.
  induction 1 as [| x l Hx Hl IH]; simpl; [constructor |].
  destruct (f x); [constructor |]; assumption.
Qed.

Lemma filter_sorted (f : A * Q -> bool) (l : list (A * Q)) :
  StronglySorted desc l -> StronglySorted desc (List.filter f l).
Proof.
  induction 1 as [| x l Hs IH Hx]; simpl; [constructor |].
  destruct (f x); [| exact IH].
  constructor; [exact IH | now apply Forall_list_filter].
Qed.

Lemma slice_to_length k (l : list A) :
  (0 <= k)%Z -> (Z.of_nat (length (slice_to l k)) <= k)%Z.
Proof.
  intros Hk. unfold slice_to.
  destruct (Z.leb_spec 0 k); [| lia].
  rewrite length_firstn. lia.
Qed.

Lemma filter_length_le (f : A -> bool) (l : list A) :
  length (List.filter f l) <= length l.
Proof.
  induction l as [| x l IH]; simpl; [lia |].
  destruct (f x); simpl; lia.
Qed.

End Ranking.

(** ** Similarity search *)

Section Search.

Context (np : NumPy) (embeddings : GeminiAPIEmbeddings).

Lemma cosine_similarity_raises (a b : vec) (e : exn) :
  cosine_similarity np a b = Raise e -> exn_cls e = ValueErrorC.
Proof.
  unfold cosine_similarity, Np.dot.
  destruct (Nat.eqb _ _); [discriminate |].
  intros [= <-]. reflexivity.
Qed.

(** The scan only fails through scoring, hence with a [ValueError]. *)
Lemma scan_raises (vs : FAISS) (ix : FaissIndex) (q : vec) (idxs : list nat) :
  forall acc e, result (scan np vs ix q idxs acc) = Raise e -> exn_cls e = ValueErrorC.
Proof.
  induction idxs as [| idx rest IH]; intros acc e; cbn [scan]; [discriminate |].
  destruct (index_to_docstore_id vs !! idx) as [id |]; [| py_result; apply IH].
  destruct (docstore vs !! id) as [doc |]; [| py_result; apply IH].
  destruct (reconstruct ix idx) as [v | e']; [| py_result; apply IH].
  py_result.
  destruct (cosine_similarity np q v) as [sim | e'] eqn:Hc; [apply IH |].
  intros [= <-]. eapply cosine_similarity_raises; eassumption.
Qed.

Lemma top_results_of_raises vs ix q k e :
  result (top_results_of np vs ix q k) = Raise e -> exn_cls e = ValueErrorC.
Proof.
  unfold top_results_of. py_result.
  destruct (result (scan np vs ix q (seq 0 (ntotal ix)) [])) eqn:Hs; [discriminate |].
  intros [= <-]. eapply scan_raises; eassumption.
Qed.


Lemma top_results_of_length vs ix q k top n :
  result (top_results_of np vs ix q k) = Return (top, n) ->
  (0 <= k)%Z -> (Z.of_nat (length top) <= k)%Z.
Proof.
  unfold top_results_of. py_result.
  destruct (result (scan np vs ix q (seq 0 (ntotal ix)) [])); [| discriminate].
  intros [= <- _]. apply slice_to_length.
Qed.

Lemma filter_results_result top t :
  result (filter_results top t) =
  Return (if relaxes top t then keep_ge top float_0_1 else keep_ge top t).
Proof.
  unfold filter_results, relaxes.
  destruct (is_empty (keep_ge top t) && Np.gt t float_0_1 && negb (is_empty top));
    reflexivity.
Qed.


(** The outcome of a search, step by step. *)
Lemma search_documents_result vs query_text top_k t :
  result (search_documents np embeddings (Some vs) query_text top_k t) =
  if negb (has_embed_query embeddings) then Raise no_embed_query
  else
    match embed_query embeddings query_text with
    | Raise e => if isinstance e EmbeddingErrorC then Raise e else Return []
    | Return q =>
      match index vs with
      | None => Return []
      | Some ix =>
        if Nat.eqb (ntotal ix) 0 then Return []
        else
          match result (top_results_of np vs ix q top_k) with
          | Raise e => Return []
          | Return (top, _) =>
            Return (if relaxes top t then keep_ge top float_0_1 else keep_ge top t)
          end
      end
    end.
Proof.
  unfold search_documents.
  destruct (negb (has_embed_query embeddings)); [reflexivity |].
  py_result.
  destruct (embed_query embeddings query_text) as [q | e].
  - destruct (index vs) as [ix |]; [| reflexivity].
    destruct (Nat.eqb (ntotal ix) 0); [reflexivity |].
    py_result.
    destruct (result (top_results_of np vs ix q top_k)) as [[top n] | e] eqn:Htop.
    + py_result. rewrite filter_results_result. reflexivity.
    + apply top_results_of_raises in Htop.
      unfold isinstance. rewrite Htop. reflexivity.
  - destruct (isinstance e EmbeddingErrorC); reflexivity.
Qed.

End Search.

Section SearchLog.

Context (np : NumPy) (embeddings : GeminiAPIEmbeddings).





End SearchLog.

Lemma keep_ge_all_below (top : list (Document * Q)) (t : Q) :
  Forall (fun p => (snd p < t)%Q) top -> keep_ge top t = [].
Proof.
  induction 1 as [| p top Hp Htop IH]; [reflexivity |].
  unfold keep_ge in *. simpl. rewrite IH.
  destruct (Np.ge (snd p) t) eqn:Hge; [| reflexivity].
  apply ge_true in Hge. exfalso. eapply Qlt_not_le; eassumption.
Qed.




(** A search that reaches the threshold step returns what that step returns. *)
Lemma search_documents_candidates np embeddings vs query_text top_k t top :
  top_k_candidates np embeddings vs query_text top_k = Some top ->
  result (search_documents np embeddings (Some vs) query_text top_k t) =
  Return (if relaxes top t then keep_ge top float_0_1 else keep_ge top t).
Proof.
  rewrite search_documents_result. unfold top_k_candidates.
  destruct (has_embed_query embeddings); [| discriminate]. cbn [negb].
  destruct (embed_query embeddings query_text) as [q | e]; [| discriminate].
  destruct (index vs) as [ix |]; [| discriminate].
  destruct (Nat.eqb (ntotal ix) 0); [discriminate |].
  destruct (result (top_results_of np vs ix q top_k)) as [[top' n] | e];
    [| discriminate].
  intros [= ->]. reflexivity.
Qed.



Lemma list_filter_sublist {A} (f : A -> bool) (l : list A) : sublist (List.filter f l) l.
Proof.
  induction l as [| x l IH]; simpl; [constructor |].
  destruct (f x); [now apply sublist_skip | now apply sublist_cons].
Qed.

(** A search returns the empty list, or the top-k candidates filtered by
    some threshold. *)
Lemma search_documents_returns np embeddings vector_store query_text top_k t l :
  result (search_documents np embeddings vector_store query_text top_k t) = Return l ->
  l = [] \/
  exists vs ix q top n u,
    result (top_results_of np vs ix q top_k) = Return (top, n) /\ l = keep_ge top u.
Proof.
  destruct vector_store as [vs |]; [| intros [= <-]; now left].
  rewrite search_documents_result.
  destruct (has_embed_query embeddings); cbn [negb]; [| discriminate].
  destruct (embed_query embeddings query_text) as [q | e].
  2:{ destruct (isinstance e EmbeddingErrorC); [discriminate | intros [= <-]; now left]. }
  destruct (index vs) as [ix |]; [| intros [= <-]; now left].
  destruct (Nat.eqb (ntotal ix) 0); [intros [= <-]; now left |].
  destruct (result (top_results_of np vs ix q top_k)) as [[top n] | e] eqn:Htop;
    [| intros [= <-]; now left].
  intros [= <-]. right. exists vs, ix, q, top, n.
  destruct (relaxes top t); eauto.
Qed.


(** C9 (as amended). On an index without vectors, or a store whose index is
    not initialised, a search returns the empty list without raising,
    provided the provider supports query embedding and embedding the query
    does not fail with an [EmbeddingError]: the query is embedded before the
    index is looked at.  Without a vector store at all, the search returns
    the empty list before anything is embedded. *)
Theorem search_empty_index :
  forall np embeddings query_text top_k t,
    result (search_documents np embeddings None query_text top_k t) = Return [] /\
    (forall vs,
       (index vs = None \/ exists ix, index vs = Some ix /\ ntotal ix = 0) ->
       has_embed_query embeddings = true ->
       (forall e, embed_query embeddings query_text = Raise e ->
                  isinstance e EmbeddingErrorC = false) ->
       result (search_documents np embeddings (Some vs) query_text top_k t) = Return []).
Proof.
  intros np embeddings query_text top_k t. split; [reflexivity |].
  intros vs Hempty Hcap Hembed.
  rewrite search_documents_result, Hcap. cbn [negb].
  destruct (embed_query embeddings query_text) as [q | e].
  - destruct Hempty as [-> | (ix & -> & ->)]; reflexivity.
  - rewrite (Hembed e eq_refl). reflexivity.
Qed.

Lemma search_empty_index_witness :
  (exists ix, index empty_store = Some ix /\ ntotal ix = 0) /\
  result (search_documents exact_np constant_embeddings (Some empty_store) "q" 5 float_0_5)
    = Return [] /\
  index no_index_store = None /\
  result (search_documents exact_np constant_embeddings (Some no_index_store) "q" 5 float_0_5)
    = Return [].
Proof.
  assert (H : exists ix, index empty_store = Some ix /\ ntotal ix = 0)
    by (eexists; split; reflexivity).
  split; [exact H |]. split; [| split; [reflexivity |]].
  - apply (proj2 (search_empty_index exact_np constant_embeddings "q"%string 5%Z float_0_5));
      [right; exact H | reflexivity | discriminate].
  - apply (proj2 (search_empty_index exact_np constant_embeddings "q"%string 5%Z float_0_5));
      [left; reflexivity | reflexivity | discriminate].
Defined.

(** A provider out of quota: the search on an index without vectors raises. *)
Lemma search_empty_index_counterexample :
  result (search_documents exact_np failing_embeddings (Some empty_store) "q" 5 float_0_5)
    = Raise quota_error /\
  result (search_documents exact_np failing_embeddings (Some empty_store) "q" 5 float_0_5)
    <> Return [].
Proof. split; [vm_compute; reflexivity | discriminate]. Qed.

(** C10. Inside [search_documents], past the check of the vector store,
    every failure other than an [EmbeddingError] is swallowed: the search
    returns the empty list, as for a search without matches.  The only
    exceptions that reach the caller are [EmbeddingError]s of the query
    embedding step: the one of the provider's [embed_query], re-raised as it
    is, and the one of the guard for a provider without [embed_query]. *)
Theorem search_swallows_unexpected_errors :
  forall np embeddings vs query_text top_k t,
    (forall e,
       result (search_documents np embeddings (Some vs) query_text top_k t) = Raise e ->
       isinstance e EmbeddingErrorC = true /\
       ((has_embed_query embeddings = false /\ e = no_embed_query) \/
        (has_embed_query embeddings = true /\ embed_query embeddings query_text = Raise e))) /\
    (forall e,
       has_embed_query embeddings = true ->
       embed_query embeddings query_text = Raise e ->
       result (search_documents np embeddings (Some vs) query_text top_k t) =
         if isinstance e EmbeddingErrorC then Raise e else Return []) /\
    (forall q ix e,
       has_embed_query embeddings = true ->
       embed_query embeddings query_text = Return q ->
       index vs = Some ix ->
       result (top_results_of np vs ix q top_k) = Raise e ->
       result (search_documents np embeddings (Some vs) query_text top_k t) = Return []).
Proof.
  intros np embeddings vs query_text top_k t.
  split; [| split].
  - intros e. rewrite search_documents_result.
    destruct (has_embed_query embeddings); cbn [negb].
    + destruct (embed_query embeddings query_text) as [q | e'].
      * destruct (index vs) as [ix |]; [| discriminate].
        destruct (Nat.eqb (ntotal ix) 0); [discriminate |].
        destruct (result (top_results_of np vs ix q top_k)) as [[top n] | e'];
          discriminate.
      * destruct (isinstance e' EmbeddingErrorC) eqn:Hcls; [| discriminate].
        intros [= <-]. split; [exact Hcls |]. right. split; reflexivity.
    + intros [= <-]. split; [reflexivity |]. left. split; reflexivity.
  - intros e Hcap Hembed. rewrite search_documents_result, Hcap, Hembed. reflexivity.
  - intros q ix e Hcap Hembed Hix Htop.
    rewrite search_documents_result, Hcap, Hembed, Hix, Htop. cbn [negb].
    destruct (Nat.eqb (ntotal ix) 0); reflexivity.
Qed.

Lemma search_swallows_unexpected_errors_witness :
  (exists e, result (top_results_of exact_np ragged_store
                       {| d := 4; xb := [Return [1; 1]%Q] |} unit_x 5) = Raise e) /\
  result (search_documents exact_np constant_embeddings (Some ragged_store) "q" 5 float_0_5)
    = Return [] /\
  result (search_documents exact_np failing_embeddings (Some store3) "q" 5 float_0_5)
    = Raise quota_error.
Proof.
  split; [eexists; vm_compute; reflexivity |].
  split.
  - eapply (proj2 (proj2 (search_swallows_unexpected_errors exact_np constant_embeddings
                            ragged_store "q"%string 5%Z float_0_5)));
      [reflexivity | reflexivity | reflexivity | vm_compute; reflexivity].
  - apply (proj1 (proj2 (search_swallows_unexpected_errors exact_np failing_embeddings
                            store3 "q"%string 5%Z float_0_5)) quota_error);
      reflexivity.
Defined.

(** ** The index builder *)

Section Enumerate.

Context {A : Type}.

Lemma enumerate_from_lookup (l : list A) :
  forall i k n x,
    enumerate_from i l !! k = Some (n, x) <-> n = i + k /\ l !! k = Some x.
Proof.
  induction l as [| y l IH]; intros i k n x; simpl.
  - rewrite !lookup_nil. split; [discriminate | intros [_ ?]; discriminate].
  - destruct k as [| k]; simpl.
    + split.
      * intros [= <- <-]. split; [lia | reflexivity].
      * intros [-> [= <-]]. do 2 f_equal. lia.
    + rewrite IH. split; intros [-> H]; (split; [lia | exact H]).
Qed.

Lemma enumerate_from_elem (l : list A) i n x :
  (n, x) ∈ enumerate_from i l <-> i <= n /\ l !! (n - i) = Some x.
Proof.
  rewrite list_elem_of_lookup. split.
  - intros [k Hk]. apply enumerate_from_lookup in Hk. destruct Hk as [-> Hk].
    split; [lia |]. replace (i + k - i) with k by lia. exact Hk.
  - intros [Hle Hx]. exists (n - i). apply enumerate_from_lookup.
    split; [lia | exact Hx].
Qed.

Lemma enumerate_from_fst_sorted (l : list A) :
  forall i, StronglySorted lt (enumerate_from i l).*1.
Proof.
  induction l as [| y l IH]; intros i; simpl; constructor; [apply IH |].
  apply Forall_forall. intros n Hn.
  apply list_elem_of_fmap in Hn. destruct Hn as ([n' x] & -> & Hin).
  apply enumerate_from_elem in Hin. simpl. lia.
Qed.

Lemma list_filter_fst_sorted {B} (f : nat * B -> bool) (l : list (nat * B)) :
  StronglySorted lt l.*1 -> StronglySorted lt (List.filter f l).*1.
Proof.
  induction l as [| p l IH]; simpl; [constructor |].
  intros Hs. apply StronglySorted_inv in Hs. destruct Hs as [Hs Hp].
  destruct (f p); simpl; [| now apply IH].
  constructor; [now apply IH |].
  apply Forall_forall. intros n Hn. rewrite Forall_forall in Hp. apply Hp.
  apply list_elem_of_fmap in Hn. destruct Hn as (q & -> & Hq).
  apply list_elem_of_fmap. exists q. split; [reflexivity |].
  apply list_elem_of_In in Hq. apply List.filter_In in Hq.
  apply list_elem_of_In. tauto.
Qed.

End Enumerate.

Section Survivors.

Implicit Types (documents : list Document) (failed_indices : list Z).

Lemma filter_successful_documents_survivors documents failed_indices :
  _filter_successful_documents documents failed_indices =
  (survivors documents failed_indices).*2.
Proof. reflexivity. Qed.

(** The survivors are the documents at the indices that did not fail... *)
Lemma survivors_elem documents failed_indices i doc :
  (i, doc) ∈ survivors documents failed_indices <->
  documents !! i = Some doc /\ Z.of_nat i ∉ failed_indices.
Proof.
  unfold survivors, enumerate.
  rewrite list_elem_of_In, List.filter_In, <- list_elem_of_In, enumerate_from_elem.
  simpl. rewrite negb_true_iff, bool_decide_eq_false, elem_of_list_to_set.
  rewrite Nat.sub_0_r. intuition lia.
Qed.

(** ... in their original order. *)
Lemma survivors_sorted documents failed_indices :
  StronglySorted lt (survivors documents failed_indices).*1.
Proof. apply list_filter_fst_sorted, enumerate_from_fst_sorted. Qed.


End Survivors.

Section Strings.

Lemma contains_append_r (needle a b : string) :
  contains needle b = true -> contains needle (String.append a b) = true.
Proof.
  intros Hb. induction a as [| c a IH]; simpl; [exact Hb |].
  rewrite IH. apply orb_true_r.
Qed.

Lemma contains_default_solutions (s : string) :
  contains solution_marker (String.append s default_solutions) = true.
Proof. apply contains_append_r. vm_compute. reflexivity. Qed.

Lemma contains_error_details (e : exn) :
  contains solution_marker (join nl (error_details e)) = true.
Proof.
  unfold error_details. cbn [join].
  do 8 (apply contains_append_r).
  vm_compute. reflexivity.
Qed.

End Strings.

(** The diagnostic of an [EmbeddingError] of the builder is actionable: it
    names solutions, and the provider's exception is its cause. *)
Lemma embedding_error_of_spec (e : exn) :
  exn_cls (embedding_error_of e) = EmbeddingErrorC /\
  contains solution_marker (exn_msg (embedding_error_of e)) = true /\
  exn_cause (embedding_error_of e) = Some e.
Proof.
  unfold embedding_error_of.
  destruct (isinstance e EmbeddingErrorC); cbn.
  - destruct (contains solution_marker (exn_msg e)) eqn:Hc; cbn.
    + auto.
    + split; [reflexivity |]. split; [apply contains_default_solutions | reflexivity].
  - split; [reflexivity |]. split; [apply contains_error_details | reflexivity].
Qed.

Section Builder.

Context (embeddings : GeminiAPIEmbeddings) (disk : Disk) (uuid4 : nat -> string).

Lemma generate_embeddings_result (documents : list Document) :
  result (_generate_embeddings embeddings documents) =
  match embed_documents embeddings (map page_content documents) with
  | Return (EmbedPair embeddings_data failed_indices) =>
    Return (embeddings_data, failed_indices)
  | Return EmbedOther => Raise (embedding_error_of bad_format)
  | Raise e => Raise (embedding_error_of e)
  end.
Proof.
  unfold _generate_embeddings. py_result.
  destruct (embed_documents embeddings (map page_content documents)) as [[embs failed |] | e];
    py_result.
  - reflexivity.
  - reflexivity.
  - unfold embedding_error_of. destruct (isinstance e EmbeddingErrorC); py_result; reflexivity.
Qed.

Lemma create_faiss_vector_store_result (documents : list Document) (embeddings_data : list vec) :
  result (_create_faiss_vector_store uuid4 documents embeddings_data) =
  match from_embeddings uuid4 (zip (map page_content documents) embeddings_data)
          (map metadata documents) with
  | Return vs => Return vs
  | Raise e => Raise (Py.new_from IndexingErrorC "벡터 스토어 생성 실패" e)
  end.
Proof.
  unfold _create_faiss_vector_store. py_result.
  destruct (from_embeddings _ _ _); py_result; reflexivity.
Qed.

Lemma save_index_result (vector_store : FAISS) (index_path : string) :
  result (_save_index disk vector_store index_path) =
  match ensure_directory_exists disk (dirname disk index_path) with
  | Raise e => Raise (Py.new_from IndexingErrorC "인덱스 저장 실패" e)
  | Return _ =>
    match save_local disk vector_store index_path with
    | Raise e => Raise (Py.new_from IndexingErrorC "인덱스 저장 실패" e)
    | Return _ => Return tt
    end
  end.
Proof.
  unfold _save_index. py_result.
  destruct (ensure_directory_exists disk (dirname disk index_path)); py_result; [| reflexivity].
  destruct (save_local disk vector_store index_path) as [[] |]; py_result; reflexivity.
Qed.

(** The outcome of the builder, step by step. *)
Lemma create_index_from_documents_result (documents : list Document)
    (index_path index_type : string) :
  result (create_index_from_documents embeddings disk uuid4 documents index_path index_type) =
  let wrap e := Raise (Py.new_from IndexingErrorC (build_failed index_type) e) in
  if is_empty documents then Return None
  else
    match result (_generate_embeddings embeddings documents) with
    | Raise e => wrap e
    | Return (embeddings_data, failed_indices) =>
      if is_empty embeddings_data then Return None
      else
        match result (_create_faiss_vector_store uuid4
                        (_filter_successful_documents documents failed_indices)
                        embeddings_data) with
        | Raise e => wrap e
        | Return vector_store =>
          match result (_save_index disk vector_store index_path) with
          | Raise e => wrap e
          | Return _ => Return (Some vector_store)
          end
        end
    end.
Proof.
  unfold create_index_from_documents. cbv zeta.
  destruct (is_empty documents); [reflexivity |].
  py_result.
  destruct (result (_generate_embeddings embeddings documents)) as [[embs failed] | e];
    py_result; [| reflexivity].
  destruct (is_empty embs); py_result; [reflexivity |].
  destruct (result (_create_faiss_vector_store uuid4 _ embs)) as [vs | e];
    py_result; [| reflexivity].
  destruct (result (_save_index disk vs index_path)) as [[] | e]; py_result; reflexivity.
Qed.

End Builder.

(** C3 (as amended). Whatever makes the builder fail, the exception that
    escapes it is an [IndexingError] with the message
    "<index_type> 인덱스 생성 실패".  The kind of failure shows in its cause:
    an [EmbeddingError] carrying actionable text (it names solutions) when
    the embedding step failed at the provider, an [IndexingError] of the
    assembly or of the persistence step otherwise. *)
Theorem build_failure_is_indexing_error :
  forall embeddings disk uuid4 documents index_path index_type e,
    result (create_index_from_documents embeddings disk uuid4 documents index_path index_type)
      = Raise e ->
    exn_cls e = IndexingErrorC /\
    exn_msg e = build_failed index_type /\
    exists cause,
      exn_cause e = Some cause /\
      ((result (_generate_embeddings embeddings documents) = Raise cause /\
        exn_cls cause = EmbeddingErrorC /\
        contains solution_marker (exn_msg cause) = true)
       \/
       (exists embeddings_data failed_indices,
          result (_generate_embeddings embeddings documents)
            = Return (embeddings_data, failed_indices) /\
          exn_cls cause = IndexingErrorC /\
          (exn_msg cause = "벡터 스토어 생성 실패" \/ exn_msg cause = "인덱스 저장 실패"))).
Proof.
  intros embeddings disk uuid4 documents index_path index_type e.
  rewrite create_index_from_documents_result. cbv zeta.
  destruct (is_empty documents); [discriminate |].
  destruct (result (_generate_embeddings embeddings documents)) as [[embs failed] | e0] eqn:Hgen.
  - destruct (is_empty embs); [discriminate |].
    rewrite create_faiss_vector_store_result.
    destruct (from_embeddings _ _ _) as [vs | e1].
    + rewrite save_index_result.
      destruct (ensure_directory_exists disk (dirname disk index_path)) as [[] | e2].
      * destruct (save_local disk vs index_path) as [[] | e3]; [discriminate |].
        intros [= <-]. repeat split. eexists. split; [reflexivity |].
        right. exists embs, failed. repeat split. now right.
      * intros [= <-]. repeat split. eexists. split; [reflexivity |].
        right. exists embs, failed. repeat split. now right.
    + intros [= <-]. repeat split. eexists. split; [reflexivity |].
      right. exists embs, failed. repeat split. now left.
  - intros [= <-]. repeat split. exists e0. split; [reflexivity |]. left.
    split; [reflexivity |].
    rewrite generate_embeddings_result in Hgen.
    destruct (embed_documents embeddings (map page_content documents)) as [[? ? |] | e1];
      try discriminate; injection Hgen as <-;
      destruct (embedding_error_of_spec bad_format) as (? & ? & ?);
      try destruct (embedding_error_of_spec e1) as (? & ? & ?); auto.
Qed.

Lemma build_failure_is_indexing_error_witness :
  (exists e cause,
     result (create_index_from_documents failing_embeddings blank_disk xs [foo_doc] "idx" "code")
       = Raise e /\
     exn_cls e = IndexingErrorC /\ exn_msg e = build_failed "code" /\
     exn_cause e = Some cause /\ exn_cls cause = EmbeddingErrorC) /\
  (exists e cause,
     result (create_index_from_documents constant_embeddings full_disk xs [foo_doc] "idx" "code")
       = Raise e /\
     exn_cls e = IndexingErrorC /\ exn_msg e = build_failed "code" /\
     exn_cause e = Some cause /\ exn_cls cause = IndexingErrorC).
Proof.
  split.
  - assert (H : exists e, result (create_index_from_documents failing_embeddings blank_disk xs
                                    [foo_doc] "idx" "code") = Raise e)
      by (eexists; vm_compute; reflexivity).
    destruct H as [e H].
    destruct (build_failure_is_indexing_error _ _ _ _ _ _ _ H)
      as (Hc & Hm & cause & Hcause & [(_ & Hk & _) | (embs & failed & Hgen & _)]).
    + exists e, cause. repeat split; assumption.
    + vm_compute in Hgen. discriminate.
  - assert (H : exists e, result (create_index_from_documents constant_embeddings full_disk xs
                                    [foo_doc] "idx" "code") = Raise e)
      by (eexists; vm_compute; reflexivity).
    destruct H as [e H].
    destruct (build_failure_is_indexing_error _ _ _ _ _ _ _ H)
      as (Hc & Hm & cause & Hcause & [(Hgen & _) | (_ & _ & _ & Hk & _)]).
    + vm_compute in Hgen. discriminate.
    + exists e, cause. repeat split; assumption.
Defined.

(** A provider out of quota: what escapes the builder is not an
    [EmbeddingError]. *)
Lemma build_raises_embedding_error_counterexample :
  ~ (exists e,
       result (create_index_from_documents failing_embeddings blank_disk xs
                 [foo_doc] "idx" "code") = Raise e /\
       exn_cls e = EmbeddingErrorC).
Proof.
  intros (e & H & Hc). vm_compute in H. injection H as <-. discriminate.
Qed.

(** ** The index store *)

(** C6. [load_index] returns [None] when nothing exists at the location and
    when what exists there cannot be loaded, logging which of the two it
    was; it never raises. *)
Theorem load_index_never_raises :
  forall disk index_path index_type,
    (path_exists disk index_path = false ->
     result (load_index disk index_path index_type) = Return None /\
     logged (load_index disk index_path index_type) = [IndexMissing index_type index_path]) /\
    (forall e,
       path_exists disk index_path = true ->
       load_local disk index_path = Raise e ->
       result (load_index disk index_path index_type) = Return None /\
       logged (load_index disk index_path index_type) =
         [IndexLoading index_type index_path; IndexLoadFailed index_type e]) /\
    (forall e, result (load_index disk index_path index_type) <> Raise e) /\
    (forall vs,
       result (load_index disk index_path index_type) = Return (Some vs) ->
       path_exists disk index_path = true /\ load_local disk index_path = Return vs).
Proof.
  intros disk index_path index_type.
  assert (Hres : result (load_index disk index_path index_type) =
                 if path_exists disk index_path then
                   match load_local disk index_path with
                   | Return vs => Return (Some vs)
                   | Raise _ => Return None
                   end
                 else Return None).
  { unfold load_index. destruct (path_exists disk index_path); cbn [negb]; [| reflexivity].
    py_result. destruct (load_local disk index_path); py_result; reflexivity. }
  split; [| split; [| split]].
  - intros Hp. unfold load_index. rewrite Hp. split; reflexivity.
  - intros e Hp Hload. unfold load_index. rewrite Hp. cbn [negb].
    split.
    + py_result. rewrite Hload. py_result. reflexivity.
    + rewrite logged_try_except, !logged_bind. py_result. rewrite Hload. reflexivity.
  - intros e. rewrite Hres.
    destruct (path_exists disk index_path); [| discriminate].
    destruct (load_local disk index_path); discriminate.
  - intros vs. rewrite Hres.
    destruct (path_exists disk index_path); [| discriminate].
    destruct (load_local disk index_path); [| discriminate].
    intros [= <-]. split; reflexivity.
Qed.

Lemma load_index_never_raises_witness :
  (path_exists blank_disk "idx" = false /\
   result (load_index blank_disk "idx" "code") = Return None) /\
  (path_exists corrupt_disk "idx" = true /\
   load_local corrupt_disk "idx" = Raise (Py.new RuntimeErrorC "could not read index.faiss") /\
   result (load_index corrupt_disk "idx" "code") = Return None).
Proof.
  split.
  - split; [reflexivity |].
    apply (proj1 (load_index_never_raises blank_disk "idx"%string "code"%string) eq_refl).
  - split; [reflexivity |]. split; [reflexivity |].
    apply (proj1 (proj2 (load_index_never_raises corrupt_disk "idx"%string "code"%string))
             _ eq_refl eq_refl).
Defined.

(** ** Assembling the vector store *)

Section Assembly.

Context (uuid4 : nat -> string).

(** Pairwise distinct draws give a duplicate-free list of identifiers. *)
Lemma uuid4_NoDup (n : nat) :
  (forall i j, uuid4 i = uuid4 j -> i = j) -> NoDup (map uuid4 (seq 0 n)).
Proof.
  intros Hinj. apply NoDup_fmap_2; [| apply NoDup_seq].
  intros i j. apply Hinj.
Qed.

Lemma rebuild_documents (l : list Document) :
  zip_with Build_Document (map page_content l) (map metadata l) = l.
Proof.
  induction l as [| [c m] l IH]; simpl; [reflexivity |]. now rewrite IH.
Qed.

Lemma forallb_length (embs : list vec) (dim : nat) :
  Forall (fun v => length v = dim) embs ->
  forallb (fun v : vec => Nat.eqb (length v) dim) embs = true.
Proof.
  induction 1 as [| v embs Hv Hembs IH]; simpl; [reflexivity |].
  rewrite IH, andb_true_r. now apply Nat.eqb_eq.
Qed.

Lemma from_embeddings_assembled (docs : list Document) (embs : list vec) (dim : nat) :
  length docs = length embs ->
  embs <> [] ->
  Forall (fun v => length v = dim) embs ->
  from_embeddings uuid4 (zip (map page_content docs) embs) (map metadata docs) =
  if bool_decide (NoDup (map uuid4 (seq 0 (length docs))))
  then Return (assembled uuid4 docs embs dim)
  else Raise (Py.new ValueErrorC "Duplicate ids found in the ids list.").
Proof.
  intros Hlen Hne Hdim.
  destruct embs as [| e0 embs]; [congruence |].
  destruct docs as [| d0 docs]; [discriminate |].
  assert (He0 : length e0 = dim) by (now inversion Hdim).
  unfold from_embeddings.
  change (zip (map page_content (d0 :: docs)) (e0 :: embs))
    with ((page_content d0, e0) :: zip (map page_content docs) embs).
  cbv beta iota zeta.
  set (te := (page_content d0, e0) :: zip (map page_content docs) embs).
  assert (Hte : te = zip (map page_content (d0 :: docs)) (e0 :: embs)) by reflexivity.
  assert (Htexts : te.*1 = map page_content (d0 :: docs)).
  { rewrite Hte. apply fst_zip. rewrite length_map. lia. }
  assert (Hembs : te.*2 = e0 :: embs).
  { rewrite Hte. apply snd_zip. rewrite length_map. lia. }
  rewrite Htexts, Hembs, !length_map, Nat.eqb_refl. cbn [negb].
  rewrite rebuild_documents.
  destruct (bool_decide (NoDup (map uuid4 (seq 0 (length (d0 :: docs)))))); cbn [negb];
    [| reflexivity].
  rewrite He0, (forallb_length _ _ Hdim). cbn [negb].
  rewrite length_seq. reflexivity.
Qed.

Lemma assembled_ntotal docs embs dim ix :
  index (assembled uuid4 docs embs dim) = Some ix -> ntotal ix = length embs /\ d ix = dim.
Proof. intros [= <-]. unfold ntotal. simpl. now rewrite length_map. Qed.

Lemma assembled_docstore_size docs embs dim :
  NoDup (map uuid4 (seq 0 (length docs))) ->
  size (docstore (assembled uuid4 docs embs dim)) = length docs.
Proof.
  intros Hids. simpl. rewrite map_size_list_to_map.
  - rewrite length_zip_with, length_map, length_seq. lia.
  - rewrite fst_zip; [exact Hids |]. rewrite length_map, length_seq. lia.
Qed.

(** Position [k] of the store: the k-th vector, and through the id table
    the k-th document. *)
Lemma assembled_lookup docs embs dim k doc v :
  NoDup (map uuid4 (seq 0 (length docs))) ->
  length docs = length embs ->
  docs !! k = Some doc ->
  embs !! k = Some v ->
  xb_of (assembled uuid4 docs embs dim) !! k = Some (Return v) /\
  index_to_docstore_id (assembled uuid4 docs embs dim) !! k = Some (uuid4 k) /\
  docstore (assembled uuid4 docs embs dim) !! uuid4 k = Some doc.
Proof.
  intros Hids Hlen Hdoc Hv.
  assert (Hk : k < length docs) by (eapply lookup_lt_Some; eassumption).
  assert (Hid : map uuid4 (seq 0 (length docs)) !! k = Some (uuid4 k)).
  { rewrite list_lookup_fmap, lookup_seq_lt by lia. reflexivity. }
  split; [| split].
  - unfold xb_of. simpl. now rewrite list_lookup_fmap, Hv.
  - simpl. apply elem_of_list_to_map_1.
    + rewrite fst_zip; [apply NoDup_seq |]. rewrite !length_map, !length_seq. lia.
    + apply list_elem_of_lookup. exists k.
      rewrite lookup_zip_with, lookup_seq_lt by lia.
      simpl. now rewrite Hid.
  - simpl. apply elem_of_list_to_map_1.
    + rewrite fst_zip; [exact Hids |]. rewrite length_map, length_seq. lia.
    + apply list_elem_of_lookup. exists k.
      rewrite lookup_zip_with, Hid. simpl. now rewrite Hdoc.
Qed.

End Assembly.

Lemma is_empty_true {A} (l : list A) : is_empty l = true <-> l = [].
Proof. destruct l; simpl; split; congruence. Qed.

Lemma is_empty_false {A} (l : list A) : is_empty l = false <-> l <> [].
Proof. destruct l; simpl; split; congruence. Qed.

Section BuilderWithReport.

Context (embeddings : GeminiAPIEmbeddings) (disk : Disk) (uuid4 : nat -> string).

(** The builder on a provider that answers with a per-item report holding
    at least one vector, of one dimension, for as many documents as
    survive. *)
Lemma build_with_report documents index_path index_type embs failed dim :
  embed_documents embeddings (map page_content documents) = Return (EmbedPair embs failed) ->
  length embs = length (survivors documents failed) ->
  embs <> [] ->
  Forall (fun v => length v = dim) embs ->
  let vs := assembled uuid4 (survivors documents failed).*2 embs dim in
  result (create_index_from_documents embeddings disk uuid4 documents index_path index_type) =
  if bool_decide (NoDup (map uuid4 (seq 0 (length (survivors documents failed).*2)))) then
    match result (_save_index disk vs index_path) with
    | Return _ => Return (Some vs)
    | Raise e => Raise (Py.new_from IndexingErrorC (build_failed index_type) e)
    end
  else
    Raise (Py.new_from IndexingErrorC (build_failed index_type)
             (Py.new_from IndexingErrorC "벡터 스토어 생성 실패"
                (Py.new ValueErrorC "Duplicate ids found in the ids list."))).
Proof.
  intros Hprov Hlen Hne Hdim vs.
  assert (Hdocs : documents <> []).
  { intros ->. destruct embs; [congruence | discriminate]. }
  rewrite create_index_from_documents_result. cbv zeta.
  apply is_empty_false in Hdocs. rewrite Hdocs.
  rewrite generate_embeddings_result, Hprov.
  apply is_empty_false in Hne. rewrite Hne. apply is_empty_false in Hne.
  rewrite create_faiss_vector_store_result, filter_successful_documents_survivors.
  rewrite (from_embeddings_assembled uuid4 _ embs dim); try assumption.
  - fold vs. destruct (bool_decide _); [| reflexivity].
    destruct (result (_save_index disk vs index_path)) as [[] |]; reflexivity.
  - rewrite length_fmap. lia.
Qed.

End BuilderWithReport.

(** C2. When the provider reports, in input order, exactly one vector of
    the declared dimension for each index that did not fail, and at least
    one document embedded, then: the surviving documents are those at the
    indices that did not fail, in original order; every index the builder
    returns has as many docstore entries as vectors, namely one per
    surviving document; the k-th surviving document (with its metadata) is
    stored under the k-th id, next to the k-th vector, which is its
    embedding; and all vectors have the declared dimension.  The builder
    does return such an index when the drawn ids are distinct and the index
    can be saved. *)
Theorem build_pairs_documents_with_embeddings :
  forall embeddings disk uuid4 documents index_path index_type
         embs failed (embedding_of : nat -> vec) dim,
    embed_documents embeddings (map page_content documents) = Return (EmbedPair embs failed) ->
    embs = map (fun p => embedding_of (fst p)) (survivors documents failed) ->
    embs <> [] ->
    (forall i, length (embedding_of i) = dim) ->
    (forall i doc,
       (i, doc) ∈ survivors documents failed <->
       documents !! i = Some doc /\ Z.of_nat i ∉ failed) /\
    StronglySorted lt (survivors documents failed).*1 /\
    (forall vs,
       result (create_index_from_documents embeddings disk uuid4 documents
                 index_path index_type) = Return (Some vs) ->
       exists ix,
         index vs = Some ix /\
         size (docstore vs) = ntotal ix /\
         ntotal ix = length (survivors documents failed) /\
         d ix = dim /\
         Forall (fun row => exists v, row = Return v /\ length v = dim) (xb ix) /\
         (forall k i doc,
            survivors documents failed !! k = Some (i, doc) ->
            documents !! i = Some doc /\
            xb ix !! k = Some (Return (embedding_of i)) /\
            exists id,
              index_to_docstore_id vs !! k = Some id /\ docstore vs !! id = Some doc)) /\
    ((forall i j, uuid4 i = uuid4 j -> i = j) ->
     ensure_directory_exists disk (dirname disk index_path) = Return tt ->
     (forall vs, save_local disk vs index_path = Return tt) ->
     exists vs,
       result (create_index_from_documents embeddings disk uuid4 documents
                 index_path index_type) = Return (Some vs)).
Proof.
  intros embeddings disk uuid4 documents index_path index_type embs failed embedding_of dim
         Hprov Hembs Hne Hdim.
  assert (Hlen : length embs = length (survivors documents failed))
    by (rewrite Hembs; apply length_map).
  assert (Hall : Forall (fun v => length v = dim) embs).
  { rewrite Hembs. apply Forall_fmap, Forall_forall. intros p _. apply Hdim. }
  pose proof (build_with_report embeddings disk uuid4 documents index_path index_type
                embs failed dim Hprov Hlen Hne Hall) as Hbuild.
  cbv zeta in Hbuild.
  set (sd := (survivors documents failed).*2) in *.
  assert (Hsd : length sd = length embs) by (unfold sd; rewrite length_fmap; lia).
  split; [intros i doc; apply survivors_elem |].
  split; [apply survivors_sorted |].
  split.
  - intros vs Hres. rewrite Hbuild in Hres.
    destruct (bool_decide (NoDup (map uuid4 (seq 0 (length sd))))) eqn:Hids; [| discriminate].
    apply bool_decide_eq_true in Hids.
    destruct (result (_save_index disk (assembled uuid4 sd embs dim) index_path));
      [| discriminate].
    injection Hres as <-.
    eexists. split; [reflexivity |].
    split; [| split; [| split; [| split]]].
    + rewrite (assembled_docstore_size uuid4 sd embs dim Hids).
      unfold ntotal. simpl. rewrite length_map. exact Hsd.
    + unfold ntotal. simpl. rewrite length_map. exact Hlen.
    + reflexivity.
    + simpl. apply Forall_fmap. eapply Forall_impl; [exact Hall |].
      intros v Hv. simpl. eauto.
    + intros k i doc Hk.
      assert (Hdoc : documents !! i = Some doc).
      { apply (survivors_elem documents failed i doc), list_elem_of_lookup. eauto. }
      assert (Hsdk : sd !! k = Some doc) by (unfold sd; now rewrite list_lookup_fmap, Hk).
      assert (Hek : embs !! k = Some (embedding_of i))
        by (rewrite Hembs, list_lookup_fmap, Hk; reflexivity).
      destruct (assembled_lookup uuid4 sd embs dim k doc _ Hids Hsd Hsdk Hek)
        as (Hrow & Hid & Hstore).
      split; [exact Hdoc |]. split; [exact Hrow |]. eauto.
  - intros Hinj Hdir Hsave. rewrite Hbuild.
    rewrite (bool_decide_eq_true_2 _ (uuid4_NoDup uuid4 (length sd) Hinj)).
    rewrite save_index_result, Hdir, Hsave. eauto.
Qed.

Lemma xs_length (n : nat) : String.length (xs n) = S n.
Proof. induction n as [| n IH]; [reflexivity |]. simpl. f_equal. exact IH. Qed.

Lemma xs_distinct (i j : nat) : xs i = xs j -> i = j.
Proof.
  intros H. apply (f_equal String.length) in H. rewrite !xs_length in H. lia.
Qed.

Lemma build_pairs_documents_with_embeddings_witness :
  embed_documents first_fails_embeddings (map page_content [foo_doc; bar_doc])
    = Return (EmbedPair [unit_x] [0%Z]) /\
  [unit_x] = map (fun _ => unit_x) (survivors [foo_doc; bar_doc] [0%Z]) /\
  exists vs ix,
    result (create_index_from_documents first_fails_embeddings blank_disk xs
              [foo_doc; bar_doc] "idx" "code") = Return (Some vs) /\
    index vs = Some ix /\ size (docstore vs) = ntotal ix /\ ntotal ix = 1 /\ d ix = 4.
Proof.
  assert (Hs : [unit_x] = map (fun _ : nat * Document => unit_x)
                              (survivors [foo_doc; bar_doc] [0%Z]))
    by (vm_compute; reflexivity).
  split; [reflexivity |]. split; [exact Hs |].
  destruct (build_pairs_documents_with_embeddings first_fails_embeddings blank_disk xs
              [foo_doc; bar_doc] "idx"%string "code"%string [unit_x] [0%Z]
              (fun _ => unit_x) 4 eq_refl Hs ltac:(discriminate) (fun _ => eq_refl))
    as (_ & _ & Hprops & Hreturns).
  destruct (Hreturns xs_distinct eq_refl (fun _ => eq_refl)) as [vs Hvs].
  destruct (Hprops vs Hvs) as (ix & Hix & Hsize & Hn & Hd & _).
  exists vs, ix. rewrite Hn in Hsize |- *.
  repeat split; assumption.
Defined.


(** ** The search orchestrator *)

Lemma forced_code (search_type : string) :
  (if negb (String.eqb search_type "code") then "code"%string else search_type) = "code"%string.
Proof.
  destruct (String.eqb search_type "code") eqn:H; [| reflexivity].
  now apply String.eqb_eq in H.
Qed.

(** C8. When no index can be loaded from the location derived from the
    repository key, a search request is answered 404 with the error code
    [INDEX_NOT_FOUND], and an issue analysis request (whose services
    initialise) is answered 404 without results; neither touches the job
    store or starts a pipeline.  The status request for a repository whose
    job is [indexing] is answered 202 with that status: a different
    outcome. *)
Theorem missing_index_is_not_found :
  (forall np embeddings disk core w data repo_name query search_type repo_key,
     validate_search_request core data = Return (repo_name, query, search_type) ->
     extract_repo_name_from_url core (String.append "https://github.com/" repo_name)
       = Return repo_key ->
     result (load_index disk (get_faiss_index_path core repo_key "code") "code")
       = Return None ->
     exists message,
       RepositorySearch_post np embeddings disk core w data =
       (error_response message "INDEX_NOT_FOUND" 404, w)) /\
  (forall disk core ext self w request_data repo_url repo_name embeddings,
     repoUrl request_data = Some repo_url ->
     repo_url <> ""%string ->
     extract_repo_name_from_url core repo_url = Return repo_name ->
     _initialize_services ext self = Return embeddings ->
     result (load_index disk (get_faiss_index_path core repo_name "code") "code")
       = Return None ->
     exists response self',
       analyze_issue disk core ext self w request_data = (response, self', w) /\
       status_code response = 404%Z /\
       relatedFiles response = [] /\ codeSnippets response = []) /\
  (forall w repo_name j,
     jobs w !! repo_name = Some j ->
     status j = indexing ->
     exists data message,
       RepositoryStatus_get w repo_name = (success_response (Some data) message 202, w) /\
       rd_status data = "indexing"%string).
Proof.
  split; [| split].
  - intros np embeddings disk core w data repo_name query search_type repo_key
           Hvalid Hkey Hload.
    unfold RepositorySearch_post, search_repository, search_service_search_repository.
    rewrite Hvalid, forced_code, Hkey, Hload. cbn. eauto.
  - intros disk core ext self w request_data repo_url repo_name embeddings
           Hurl Hne Hname Hinit Hload.
    unfold analyze_issue. rewrite Hurl.
    apply String.eqb_neq in Hne. rewrite Hne, Hname, Hinit.
    unfold _load_vector_stores. rewrite Hload.
    eexists _, _. repeat split.
  - intros w repo_name j Hj Hstatus.
    unfold RepositoryStatus_get, get_repository_status, get_repository_status_data.
    rewrite Hj, Hstatus. cbn. eauto.
Qed.

Lemma missing_index_is_not_found_witness :
  (exists message,
     RepositorySearch_post exact_np constant_embeddings blank_disk plain_core
       indexing_world flask_search_request =
     (error_response message "INDEX_NOT_FOUND" 404, indexing_world)) /\
  (exists response self',
     analyze_issue blank_disk plain_core plain_collaborators None indexing_world
       flask_issue_request = (response, self', indexing_world) /\
     status_code response = 404%Z) /\
  (exists data message,
     RepositoryStatus_get indexing_world flask =
     (success_response (Some data) message 202, indexing_world)).
Proof.
  destruct missing_index_is_not_found as (Hsearch & Hissue & Hstatus).
  split; [| split].
  - eapply (Hsearch exact_np constant_embeddings blank_disk plain_core indexing_world
              flask_search_request); reflexivity.
  - destruct (Hissue blank_disk plain_core plain_collaborators None indexing_world
                flask_issue_request flask flask constant_embeddings
                eq_refl ltac:(discriminate) eq_refl eq_refl eq_refl)
      as (response & self' & Hr & Hcode & _).
    eauto.
  - destruct (Hstatus indexing_world flask _ ltac:(vm_compute; reflexivity) eq_refl)
      as (data & message & Hr & _).
    eauto.
Defined.

(** ** The indexing job state machine *)

Section Jobs.

Lemma executions_app (w : World) (m : gmap string IndexingJob) (key k : string) :
  executions {| jobs := m; pipelines := pipelines w ++ [k] |} key =
  executions w key + (if bool_decide (k = key) then 1 else 0).
Proof.
  unfold executions. simpl. rewrite count_occ_app. simpl.
  destruct (String.string_dec k key); case_bool_decide; congruence.
Qed.

(** A request for a job in flight reflects it and changes nothing. *)
Lemma request_in_flight (w : World) now key cb user j :
  jobs w !! key = Some j ->
  status j = pending \/ status j = indexing ->
  prepare_and_start_indexing w now key cb user = (report j false, w).
Proof.
  intros Hj Hs. unfold prepare_and_start_indexing. rewrite Hj.
  destruct Hs as [-> | ->]; reflexivity.
Qed.

(** A request for an unknown repository creates the job and starts the
    pipeline. *)
Lemma request_unknown (w : World) now key cb user :
  jobs w !! key = None ->
  prepare_and_start_indexing w now key cb user =
  (report (new_job now cb user) true,
   {| jobs := <[key := new_job now cb user]> (jobs w); pipelines := pipelines w ++ [key] |}).
Proof. intros Hj. unfold prepare_and_start_indexing. now rewrite Hj. Qed.

(** Requests touch the record and the executions of their own key only. *)
Lemma request_other_key (w : World) now k key cb user :
  k <> key ->
  jobs (snd (prepare_and_start_indexing w now k cb user)) !! key = jobs w !! key /\
  executions (snd (prepare_and_start_indexing w now k cb user)) key = executions w key.
Proof.
  intros Hne. unfold prepare_and_start_indexing.
  assert (Hstart :
    jobs {| jobs := <[k := new_job now cb user]> (jobs w); pipelines := pipelines w ++ [k] |}
      !! key = jobs w !! key /\
    executions {| jobs := <[k := new_job now cb user]> (jobs w);
                  pipelines := pipelines w ++ [k] |} key = executions w key).
  { split; [simpl; now apply lookup_insert_ne |].
    rewrite executions_app, bool_decide_eq_false_2 by assumption. lia. }
  destruct (jobs w !! k) as [j |]; [| exact Hstart].
  destruct (status j); try exact Hstart; split; reflexivity.
Qed.

Lemma step_keeps_running (w : World) (key : string) (e : event) :
  in_flight w key -> keeps_running key e ->
  in_flight (step w e) key /\ executions (step w e) key = executions w key.
Proof.
  intros (j & Hj & Hs) Hquiet. destruct e as [k ev | now k cb user]; simpl.
  - unfold pipeline_step. destruct (decide (k = key)) as [-> | Hne].
    + rewrite Hj. specialize (Hquiet eq_refl).
      assert (Hup : status (update_job j ev) = indexing)
        by (destruct ev; simpl in *; congruence).
      destruct Hs as [-> | ->]; (split; [| reflexivity]);
        exists (update_job j ev); simpl; rewrite lookup_insert_eq; auto.
    + destruct (jobs w !! k) as [j' |]; [| split; [exists j; auto | reflexivity]].
      destruct (status j'); (split; [| reflexivity]); exists j; simpl;
        rewrite ?lookup_insert_ne by assumption; auto.
  - destruct (decide (k = key)) as [-> | Hne].
    + rewrite (request_in_flight w now key cb user j Hj Hs). simpl.
      split; [exists j; auto | reflexivity].
    + destruct (request_other_key w now k key cb user Hne) as [Hjobs Hex].
      split; [| exact Hex]. exists j. rewrite Hjobs. auto.
Qed.

Lemma run_keeps_running (key : string) (between : list event) :
  forall w,
    in_flight w key -> Forall (keeps_running key) between ->
    in_flight (run w between) key /\ executions (run w between) key = executions w key.
Proof.
  induction between as [| e between IH]; intros w Hw Hall; [now split |].
  inversion Hall as [| ? ? He Hrest]; subst.
  destruct (step_keeps_running w key e Hw He) as [Hw' Hex].
  destruct (IH (step w e) Hw' Hrest) as [Hw'' Hex'].
  unfold run in *. simpl. split; [exact Hw'' | congruence].
Qed.

End Jobs.

(** C4. Two requests for a repository without a job, the second arriving
    while the pipeline started by the first is still running (any requests
    and any non-terminal pipeline writes may come in between): the first
    creates the job in [pending], reports a new request and starts the one
    pipeline execution; the second finds the job in [pending] or [indexing],
    reports no new request, leaves job store and executions as they are and
    starts nothing.  [process_index_request] answers both with 202, the
    first as started, the second as already in progress. *)
Theorem simultaneous_requests_start_one_pipeline :
  forall core w now1 now2 data1 data2 cb1 cb2 user1 user2 url1 url2 key between,
    validate_repo_url core data1 = Return url1 ->
    validate_repo_url core data2 = Return url2 ->
    _get_repo_name_from_url core url1 = key ->
    _get_repo_name_from_url core url2 = key ->
    jobs w !! key = None ->
    Forall (keeps_running key) between ->
    exists i1 w1 i2 d1 d2,
      prepare_and_start_indexing w now1 key cb1 user1 = (i1, w1) /\
      r_is_new_request i1 = true /\
      r_status i1 = "pending"%string /\
      executions w1 key = S (executions w key) /\
      prepare_and_start_indexing (run w1 between) now2 key cb2 user2
        = (i2, run w1 between) /\
      r_is_new_request i2 = false /\
      (r_status i2 = "pending"%string \/ r_status i2 = "indexing"%string) /\
      executions (run w1 between) key = S (executions w key) /\
      process_index_request core w now1 data1 cb1 user1 =
        (Return {| res_status := "success"; res_data := Some d1;
                   res_message := started_message key; res_error_code := None;
                   res_status_code := 202 |}, w1) /\
      rd_status d1 = "pending"%string /\
      process_index_request core (run w1 between) now2 data2 cb2 user2 =
        (Return {| res_status := "success"; res_data := Some d2;
                   res_message := in_progress_message key; res_error_code := None;
                   res_status_code := 202 |}, run w1 between) /\
      (rd_status d2 = "pending"%string \/ rd_status d2 = "indexing"%string).
Proof.
  intros core w now1 now2 data1 data2 cb1 cb2 user1 user2 url1 url2 key between
         Hv1 Hv2 Hk1 Hk2 Hnew Hbetween.
  pose proof (request_unknown w now1 key cb1 user1 Hnew) as H1.
  set (w1 := {| jobs := <[key := new_job now1 cb1 user1]> (jobs w);
                pipelines := pipelines w ++ [key] |}) in *.
  assert (Hex1 : executions w1 key = S (executions w key)).
  { unfold w1. rewrite executions_app. rewrite bool_decide_eq_true_2 by reflexivity. lia. }
  assert (Hfl1 : in_flight w1 key).
  { exists (new_job now1 cb1 user1). split; [apply lookup_insert_eq | now left]. }
  destruct (run_keeps_running key between w1 Hfl1 Hbetween) as [(j & Hj & Hs) Hex2].
  pose proof (request_in_flight (run w1 between) now2 key cb2 user2 j Hj Hs) as H2.
  assert (Hname : r_status (report j false) = "pending"%string \/
                  r_status (report j false) = "indexing"%string).
  { simpl. destruct Hs as [-> | ->]; [now left | now right]. }
  exists (report (new_job now1 cb1 user1) true), w1, (report j false).
  eexists _,
    {| analysis_id := key; repo_name := key;
       rd_status := status_name (status j);
       rd_progress := progress j;
       rd_message := progress_message j;
       started_at := start_time j;
       estimated_completion := end_time j |}.
  split; [exact H1 |]. split; [reflexivity |]. split; [reflexivity |].
  split; [exact Hex1 |]. split; [exact H2 |]. split; [reflexivity |].
  split; [exact Hname |]. split; [congruence |].
  split; [| split; [| split]].
  - unfold process_index_request. rewrite Hv1, Hk1, H1. reflexivity.
  - reflexivity.
  - unfold process_index_request. rewrite Hv2, Hk2, H2.
    simpl in Hname. simpl r_status. simpl r_is_new_request.
    destruct Hs as [-> | ->]; reflexivity.
  - exact Hname.
Qed.

Lemma simultaneous_requests_start_one_pipeline_witness :
  let between := [PipelineEvent flask Begin; PipelineEvent flask (Progress 40 "embedding")] in
  Forall (keeps_running flask) between /\
  exists i1 w1 i2,
    prepare_and_start_indexing empty_world "t1" flask None (Some 1%Z) = (i1, w1) /\
    r_is_new_request i1 = true /\
    prepare_and_start_indexing (run w1 between) "t2" flask None (Some 2%Z)
      = (i2, run w1 between) /\
    r_is_new_request i2 = false /\
    executions (run w1 between) flask = 1.
Proof.
  intros between.
  assert (Hb : Forall (keeps_running flask) between)
    by (repeat constructor).
  split; [exact Hb |].
  destruct (simultaneous_requests_start_one_pipeline plain_core empty_world
              "t1"%string "t2"%string flask_index_request flask_index_request
              None None (Some 1%Z) (Some 2%Z) flask flask flask between
              eq_refl eq_refl eq_refl eq_refl eq_refl Hb)
    as (i1 & w1 & i2 & d1 & d2 & H1 & Hn1 & _ & _ & H2 & Hn2 & _ & Hex & _).
  exists i1, w1, i2. repeat split; assumption.
Defined.

(** * Further properties *)

(** ** Scoring *)

Section Scoring.

Context (np : NumPy).

Lemma normalize_vector_length (v : vec) : length (normalize_vector np v) = length v.
Proof. unfold normalize_vector. apply length_map. Qed.


Lemma cosine_similarity_eq (a b : vec) :
  cosine_similarity np a b =
  if Nat.eqb (length a) (length b) then Return (score np a b) else Raise shape_error.
Proof.
  unfold cosine_similarity, Np.dot, normalize_vector.
  rewrite !length_map. reflexivity.
Qed.

(** The scan as a comprehension: the rows that deliver, scored in index
    order, unless one of them has another dimension than the query. *)
Lemma scan_rows (vs : FAISS) (ix : FaissIndex) (q : vec) (idxs : list nat) :
  forall acc,
    result (scan np vs ix q idxs acc) =
    let rs := omap (row_of vs ix) idxs in
    if forallb (same_dimension q) rs then Return (acc ++ scored np q rs)
    else Raise shape_error.
Proof.
  induction idxs as [| idx rest IH]; intros acc; cbn [scan omap list_omap].
  - cbn. now rewrite app_nil_r.
  - destruct (index_to_docstore_id vs !! idx) as [id |] eqn:Hid.
    2:{ assert (Hr : row_of vs ix idx = None) by (unfold row_of; now rewrite Hid).
        rewrite Hr. py_result. apply IH. }
    destruct (docstore vs !! id) as [doc |] eqn:Hdoc.
    2:{ assert (Hr : row_of vs ix idx = None) by (unfold row_of; now rewrite Hid, Hdoc).
        rewrite Hr. py_result. apply IH. }
    destruct (reconstruct ix idx) as [v | e] eqn:Hv.
    2:{ assert (Hr : row_of vs ix idx = None) by (unfold row_of; now rewrite Hid, Hdoc, Hv).
        rewrite Hr. py_result. apply IH. }
    assert (Hr : row_of vs ix idx = Some (doc, v))
      by (unfold row_of; now rewrite Hid, Hdoc, Hv).
    rewrite Hr. py_result. rewrite cosine_similarity_eq. cbv zeta. cbn [forallb].
    unfold same_dimension at 1. cbn [snd].
    destruct (Nat.eqb (length q) (length v)); cbn [andb]; [| reflexivity].
    rewrite IH. cbv zeta.
    destruct (forallb (same_dimension q) (omap (row_of vs ix) rest)); [| reflexivity].
    cbn. now rewrite <- app_assoc.
Qed.

End Scoring.

(** ** Ranking, continued *)

Section Stable.

Context {A : Type}.

Lemma insert_desc_perm (x : A * Q) (l : list (A * Q)) : insert_desc x l ≡ₚ x :: l.
Proof.
  induction l as [| y l IH]; simpl; [reflexivity |].
  destruct (Np.gt (snd y) (snd x)); [| reflexivity].
  rewrite IH. apply Permutation_swap.
Qed.

Lemma sort_desc_perm (l : list (A * Q)) : sort_desc l ≡ₚ l.
Proof.
  induction l as [| x l IH]; simpl; [reflexivity |].
  now rewrite insert_desc_perm, IH.
Qed.

Lemma sort_desc_length (l : list (A * Q)) : length (sort_desc l) = length l.
Proof. apply Permutation_length, sort_desc_perm. Qed.

Lemma slice_to_prefix (l : list A) (k : Z) : slice_to l k `prefix_of` l.
Proof. unfold slice_to. destruct (0 <=? k)%Z; apply prefix_take. Qed.

Lemma list_filter_prefix (f : A -> bool) (l1 l2 : list A) :
  l1 `prefix_of` l2 -> List.filter f l1 `prefix_of` List.filter f l2.
Proof. intros [rest ->]. rewrite List.filter_app. now exists (List.filter f rest). Qed.

Lemma slice_to_nonneg_length (l : list A) (k : Z) :
  (0 <= k)%Z -> length (slice_to l k) = Nat.min (Z.to_nat k) (length l).
Proof.
  intros Hk. unfold slice_to. destruct (Z.leb_spec 0 k); [| lia]. apply length_take.
Qed.

End Stable.

(** ** Similarity search, continued *)

Section SearchRows.

Context (np : NumPy) (embeddings : GeminiAPIEmbeddings).

Lemma top_results_of_rows vs ix q k :
  result (top_results_of np vs ix q k) =
  if forallb (same_dimension q) (rows vs ix)
  then Return (slice_to (sort_desc (scored np q (rows vs ix))) k, length (rows vs ix))
  else Raise shape_error.
Proof.
  unfold top_results_of. py_result. rewrite scan_rows. cbv zeta. fold (rows vs ix).
  destruct (forallb (same_dimension q) (rows vs ix)); py_result; [| reflexivity].
  cbn [app]. rewrite sort_desc_length. unfold scored. now rewrite length_map.
Qed.

(** The candidate list of a search that embeds its query and finds an
    index with vectors. *)
Lemma top_k_candidates_rows vs query_text k q ix :
  has_embed_query embeddings = true ->
  embed_query embeddings query_text = Return q ->
  index vs = Some ix ->
  ntotal ix <> 0 ->
  top_k_candidates np embeddings vs query_text k =
  if forallb (same_dimension q) (rows vs ix)
  then Some (slice_to (sort_desc (scored np q (rows vs ix))) k)
  else None.
Proof.
  intros Hcap Hq Hix Hn. unfold top_k_candidates.
  rewrite Hcap, Hq, Hix. apply Nat.eqb_neq in Hn. rewrite Hn.
  rewrite top_results_of_rows.
  destruct (forallb (same_dimension q) (rows vs ix)); reflexivity.
Qed.

(** A candidate list exists only past the embedding and on an index with
    vectors. *)
Lemma top_k_candidates_inv vs query_text k top :
  top_k_candidates np embeddings vs query_text k = Some top ->
  exists q ix,
    has_embed_query embeddings = true /\
    embed_query embeddings query_text = Return q /\
    index vs = Some ix /\ ntotal ix <> 0 /\
    forallb (same_dimension q) (rows vs ix) = true /\
    top = slice_to (sort_desc (scored np q (rows vs ix))) k.
Proof.
  unfold top_k_candidates.
  destruct (has_embed_query embeddings) eqn:Hcap; [| discriminate].
  destruct (embed_query embeddings query_text) as [q | e] eqn:Hq; [| discriminate].
  destruct (index vs) as [ix |] eqn:Hix; [| discriminate].
  destruct (Nat.eqb (ntotal ix) 0) eqn:Hn; [discriminate |].
  rewrite top_results_of_rows.
  destruct (forallb (same_dimension q) (rows vs ix)) eqn:Hdim; [| discriminate].
  intros [= <-]. exists q, ix. apply Nat.eqb_neq in Hn. auto 10.
Qed.

Lemma rows_elem vs ix r :
  r ∈ rows vs ix <-> exists idx, idx < ntotal ix /\ row_of vs ix idx = Some r.
Proof.
  unfold rows. rewrite list_elem_of_omap. split.
  - intros (idx & Hidx & Hr). apply elem_of_seq in Hidx. exists idx. split; [lia | exact Hr].
  - intros (idx & Hidx & Hr). exists idx. split; [apply elem_of_seq; lia | exact Hr].
Qed.

Lemma row_of_Some vs ix idx doc v :
  row_of vs ix idx = Some (doc, v) <->
  exists docstore_id,
    index_to_docstore_id vs !! idx = Some docstore_id /\
    docstore vs !! docstore_id = Some doc /\
    reconstruct ix idx = Return v.
Proof.
  unfold row_of. split.
  - destruct (index_to_docstore_id vs !! idx) as [id |]; [| discriminate].
    destruct (docstore vs !! id) as [doc' |] eqn:Hdoc; [| discriminate].
    destruct (reconstruct ix idx) as [v' | e]; [| discriminate].
    intros [= <- <-]. exists id. auto.
  - intros (id & -> & -> & ->). reflexivity.
Qed.

End SearchRows.

Section SearchFacts.

Context (np : NumPy) (embeddings : GeminiAPIEmbeddings).

Lemma keep_ge_elem (top : list (Document * Q)) (u : Q) (p : Document * Q) :
  p ∈ keep_ge top u <-> p ∈ top /\ (u <= snd p)%Q.
Proof.
  unfold keep_ge. rewrite list_elem_of_In, List.filter_In, <- list_elem_of_In, ge_true.
  reflexivity.
Qed.

Lemma keep_ge_nil (top : list (Document * Q)) (u : Q) :
  keep_ge top u = [] <-> Forall (fun p => (snd p < u)%Q) top.
Proof.
  split; [| apply keep_ge_all_below].
  induction top as [| p top IH]; [constructor |].
  unfold keep_ge in *. simpl. destruct (Np.ge (snd p) u) eqn:Hge; [discriminate |].
  intros H. constructor; [| now apply IH].
  apply Qnot_le_lt. intros Hle. apply ge_true in Hle. congruence.
Qed.

(** A search on a store returns nothing for want of candidates, or its
    candidates filtered. *)
Lemma search_documents_cases vs query_text top_k t l :
  result (search_documents np embeddings (Some vs) query_text top_k t) = Return l ->
  (l = [] /\ top_k_candidates np embeddings vs query_text top_k = None) \/
  (exists top,
     top_k_candidates np embeddings vs query_text top_k = Some top /\
     l = if relaxes top t then keep_ge top float_0_1 else keep_ge top t).
Proof.
  rewrite search_documents_result. unfold top_k_candidates.
  destruct (has_embed_query embeddings); cbn [negb]; [| discriminate].
  destruct (embed_query embeddings query_text) as [q | e].
  2:{ destruct (isinstance e EmbeddingErrorC); [discriminate |]. intros [= <-]. now left. }
  destruct (index vs) as [ix |]; [| intros [= <-]; now left].
  destruct (Nat.eqb (ntotal ix) 0); [intros [= <-]; now left |].
  destruct (result (top_results_of np vs ix q top_k)) as [[top n] | e];
    [| intros [= <-]; now left].
  intros [= <-]. right. eauto.
Qed.

End SearchFacts.

(** X2. Whatever a search returns was stored: every returned pair is the
    document of a row of the index, found through the id table and the
    docstore, with the cosine score of the query embedding and that row's
    vector. *)
Theorem search_returns_stored_documents :
  forall np embeddings vs query_text top_k t l doc s,
    result (search_documents np embeddings (Some vs) query_text top_k t) = Return l ->
    (doc, s) ∈ l ->
    exists q ix idx docstore_id v,
      embed_query embeddings query_text = Return q /\
      index vs = Some ix /\
      idx < ntotal ix /\
      index_to_docstore_id vs !! idx = Some docstore_id /\
      docstore vs !! docstore_id = Some doc /\
      reconstruct ix idx = Return v /\
      cosine_similarity np q v = Return s.
Proof.
  intros np embeddings vs query_text top_k t l doc s Hres Hin.
  destruct (search_documents_cases _ _ _ _ _ _ _ Hres) as [[-> _] | (top & Hc & ->)];
    [inversion Hin |].
  assert (Htop : (doc, s) ∈ top).
  { destruct (relaxes top t); apply keep_ge_elem in Hin; tauto. }
  destruct (top_k_candidates_inv _ _ _ _ _ _ Hc) as (q & ix & _ & Hq & Hix & _ & Hdim & ->).
  assert (Hsc : (doc, s) ∈ scored np q (rows vs ix)).
  { rewrite <- (sort_desc_perm (scored np q (rows vs ix))).
    eapply elem_of_prefix; [exact Htop | apply slice_to_prefix]. }
  unfold scored in Hsc. apply list_elem_of_fmap in Hsc.
  destruct Hsc as ([doc' v] & [= -> ->] & Hr).
  rewrite forallb_forall in Hdim.
  assert (Hsame : same_dimension q (doc', v) = true)
    by (apply Hdim, list_elem_of_In, Hr).
  apply rows_elem in Hr. destruct Hr as (idx & Hidx & Hrow).
  apply row_of_Some in Hrow. destruct Hrow as (id & Hid & Hdoc & Hv).
  exists q, ix, idx, id, v. repeat split; try assumption.
  rewrite cosine_similarity_eq. unfold same_dimension in Hsame. simpl in *.
  now rewrite Hsame.
Qed.

Lemma search_returns_stored_documents_witness :
  exists idx docstore_id,
    idx < 3 /\
    index_to_docstore_id store3 !! idx = Some docstore_id /\
    docstore store3 !! docstore_id = Some (doc "three fifths").
Proof.
  assert (Hres : result (search_documents exact_np constant_embeddings (Some store3) "q" 1
                           float_0_5) = Return [(doc "three fifths", (375 # 625)%Q)])
    by (vm_compute; reflexivity).
  destruct (search_returns_stored_documents _ _ _ _ _ _ _ _ _ Hres ltac:(constructor))
    as (q & ix & idx & id & v & _ & Hix & Hidx & Hid & Hdoc & _).
  injection Hix as <-. exists idx, id. auto.
Defined.

(** X3. The results never mix scores above and below the caller's
    threshold: either every returned score reaches the threshold, or the
    threshold exceeds 0.1, the search fell back, and every returned score
    lies from 0.1 up to, but below, the threshold. *)
Theorem search_results_meet_threshold_or_fallback :
  forall np embeddings vector_store query_text top_k t l,
    result (search_documents np embeddings vector_store query_text top_k t) = Return l ->
    Forall (fun p => (t <= snd p)%Q) l \/
    ((float_0_1 < t)%Q /\ Forall (fun p => (float_0_1 <= snd p)%Q /\ (snd p < t)%Q) l).
Proof.
  intros np embeddings [vs |] query_text top_k t l Hres;
    [| injection Hres as <-; left; constructor].
  destruct (search_documents_cases _ _ _ _ _ _ _ Hres) as [[-> _] | (top & _ & ->)];
    [left; constructor |].
  destruct (relaxes top t) eqn:Hr.
  - right. unfold relaxes in Hr.
    apply andb_true_iff in Hr. destruct Hr as [Hr _].
    apply andb_true_iff in Hr. destruct Hr as [Hnone Hgt].
    apply is_empty_true, keep_ge_nil in Hnone. apply gt_true in Hgt.
    split; [exact Hgt |].
    rewrite Forall_forall in Hnone |- *. intros p Hp.
    apply keep_ge_elem in Hp. destruct Hp as [Hp Hge]. split; [exact Hge | now apply Hnone].
  - left. apply Forall_forall. intros p Hp. apply keep_ge_elem in Hp. tauto.
Qed.

Lemma search_results_meet_threshold_or_fallback_witness :
  exists l,
    result (search_documents exact_np constant_embeddings (Some store3) "q" 5 float_0_9)
      = Return l /\
    l <> [] /\
    Forall (fun p => (float_0_1 <= snd p)%Q /\ (snd p < float_0_9)%Q) l.
Proof.
  eexists.
  assert (Hres : result (search_documents exact_np constant_embeddings (Some store3) "q" 5
                           float_0_9) = Return _) by (vm_compute; reflexivity).
  split; [exact Hres |]. split; [discriminate |].
  destruct (search_results_meet_threshold_or_fallback _ _ _ _ _ _ _ Hres) as [H | [_ H]];
    [| exact H].
  exfalso. inversion H as [| ? ? Hle _]; subst. vm_compute in Hle. now apply Hle.
Defined.

(** X4. A threshold of 0.1 or less is never relaxed: the search returns
    exactly the candidates that reach it.  And a search with candidates
    comes back empty exactly when no candidate reaches the threshold nor,
    for a threshold above 0.1, the fallback 0.1. *)
Theorem search_empty_iff_no_candidate_reaches :
  forall np embeddings vs query_text top_k t top,
    top_k_candidates np embeddings vs query_text top_k = Some top ->
    ((t <= float_0_1)%Q ->
     result (search_documents np embeddings (Some vs) query_text top_k t)
       = Return (keep_ge top t)) /\
    (result (search_documents np embeddings (Some vs) query_text top_k t) = Return [] <->
     Forall (fun p => (snd p < t)%Q) top /\
     ((float_0_1 < t)%Q -> Forall (fun p => (snd p < float_0_1)%Q) top)).
Proof.
  intros np embeddings vs query_text top_k t top Hc.
  rewrite (search_documents_candidates _ _ _ _ _ _ _ Hc).
  split.
  - intros Hle. unfold relaxes.
    assert (Hgt : Np.gt t float_0_1 = false).
    { unfold Np.gt. apply negb_false_iff. now apply Qle_bool_iff. }
    rewrite Hgt, andb_false_r. reflexivity.
  - destruct (relaxes top t) eqn:Hr.
    + unfold relaxes in Hr.
      apply andb_true_iff in Hr. destruct Hr as [Hr _].
      apply andb_true_iff in Hr. destruct Hr as [Hnone Hgt].
      apply is_empty_true, keep_ge_nil in Hnone. apply gt_true in Hgt.
      split.
      * intros [= Hnil]. split; [exact Hnone | intros _; now apply keep_ge_nil].
      * intros [_ Hlow]. f_equal. apply keep_ge_nil. now apply Hlow.
    + split.
      * intros [= Hnil]. split; [now apply keep_ge_nil |].
        intros Hgt.
        unfold relaxes in Hr. rewrite Hnil in Hr. cbn [is_empty andb] in Hr.
        assert (Hg : Np.gt t float_0_1 = true).
        { unfold Np.gt. apply negb_true_iff. destruct (Qle_bool t float_0_1) eqn:Hle;
            [| reflexivity].
          apply Qle_bool_iff in Hle. exfalso. eapply Qlt_not_le; eassumption. }
        rewrite Hg in Hr. cbn [andb] in Hr. apply negb_false_iff, is_empty_true in Hr.
        subst top. constructor.
      * intros [Hnone _]. f_equal. now apply keep_ge_nil.
Qed.

Lemma search_empty_iff_no_candidate_reaches_witness :
  exists top,
    top_k_candidates exact_np constant_embeddings store3 "q" 2 = Some top /\
    result (search_documents exact_np constant_embeddings (Some store3) "q" 2 float_0_1)
      = Return (keep_ge top float_0_1).
Proof.
  eexists.
  assert (Hc : top_k_candidates exact_np constant_embeddings store3 "q" 2 = Some _)
    by (vm_compute; reflexivity).
  split; [exact Hc |].
  apply (proj1 (search_empty_iff_no_candidate_reaches _ _ _ _ _ float_0_1 _ Hc)).
  discriminate.
Defined.


Section SearchEffects.

Context (np : NumPy) (embeddings : GeminiAPIEmbeddings).



End SearchEffects.



(** X8. One stored vector of another dimension than the query embedding
    (an index built with another embedding model, say) silences the whole
    search: it returns the empty list, whatever the other rows score, and
    logs the [ValueError] of the scoring as an unexpected error.  When all
    rows that deliver have the dimension of the query, the search has its
    candidate list. *)
Theorem dimension_mismatch_silences_search :
  forall np embeddings vs query_text top_k t q ix,
    has_embed_query embeddings = true ->
    embed_query embeddings query_text = Return q ->
    index vs = Some ix ->
    ((exists idx docstore_id doc v,
        idx < ntotal ix /\
        index_to_docstore_id vs !! idx = Some docstore_id /\
        docstore vs !! docstore_id = Some doc /\
        reconstruct ix idx = Return v /\
        length v <> length q) ->
     result (search_documents np embeddings (Some vs) query_text top_k t) = Return [] /\
     last (logged (search_documents np embeddings (Some vs) query_text top_k t))
       = Some (SearchUnexpected shape_error)) /\
    (ntotal ix <> 0 ->
     Forall (fun r => length (snd r) = length q) (rows vs ix) ->
     exists top, top_k_candidates np embeddings vs query_text top_k = Some top).
Proof.
  intros np embeddings vs query_text top_k t q ix Hcap Hq Hix.
  split.
  - intros (idx & id & doc & v & Hidx & Hid & Hdoc & Hv & Hlen).
    assert (Hn : Nat.eqb (ntotal ix) 0 = false) by (apply Nat.eqb_neq; lia).
    assert (Hdim : forallb (same_dimension q) (rows vs ix) = false).
    { apply not_true_is_false. intros Hall. rewrite forallb_forall in Hall.
      specialize (Hall (doc, v)). unfold same_dimension in Hall. simpl in Hall.
      apply Hlen. symmetry. apply Nat.eqb_eq, Hall.
      apply list_elem_of_In, rows_elem. exists idx. split; [exact Hidx |].
      apply row_of_Some. eauto. }
    split.
    + rewrite search_documents_result, Hcap, Hq, Hix, Hn, top_results_of_rows, Hdim.
      reflexivity.
    + unfold search_documents. rewrite Hcap, Hq, Hix, Hn. cbn [negb].
      rewrite logged_try_except. py_result. rewrite top_results_of_rows, Hdim.
      py_result. unfold isinstance. cbn [exn_cls shape_error Py.new].
      rewrite bool_decide_eq_false_2 by discriminate.
      change (logged (log (SearchUnexpected (Exn ValueErrorC "shapes not aligned" None None)) ;;
                      ret (@nil (Document * Q))))
        with [SearchUnexpected (Exn ValueErrorC "shapes not aligned" None None)].
      apply last_snoc.
  - intros Hn Hall.
    rewrite (top_k_candidates_rows np embeddings vs query_text top_k q ix Hcap Hq Hix Hn).
    assert (Hdim : forallb (same_dimension q) (rows vs ix) = true).
    { apply forallb_forall. intros r Hr. unfold same_dimension.
      rewrite Forall_forall in Hall. apply Nat.eqb_eq. symmetry.
      apply Hall, list_elem_of_In, Hr. }
    rewrite Hdim. eauto.
Qed.

Lemma dimension_mismatch_silences_search_witness :
  result (search_documents exact_np constant_embeddings (Some mixed_store) "q" 5 float_0_1)
    = Return [].
Proof.
  apply (proj1 (dimension_mismatch_silences_search exact_np constant_embeddings mixed_store
                  "q"%string 5%Z float_0_1 unit_x _ eq_refl eq_refl eq_refl)).
  exists 1, "b"%string, (doc "short"), [1; 1]%Q.
  split; [unfold ntotal; cbn; lia |]. repeat split; try reflexivity. discriminate.
Defined.

(** ** The index builder, continued *)

Section AssemblyInverse.

Context (uuid4 : nat -> string).

Lemma forallb_length_inv (embs : list vec) (dim : nat) :
  forallb (fun v : vec => Nat.eqb (length v) dim) embs = true ->
  Forall (fun v => length v = dim) embs.
Proof.
  induction embs as [| v embs IH]; simpl; [constructor |].
  intros H. apply andb_true_iff in H. destruct H as [Hv H].
  constructor; [now apply Nat.eqb_eq | now apply IH].
Qed.

(** [from_embeddings] returns only for documents that all have a vector;
    it then pairs each with the vector at its position and drops the
    vectors beyond. *)
Lemma from_embeddings_returns (docs : list Document) (embs : list vec) (vs : FAISS) :
  from_embeddings uuid4 (zip (map page_content docs) embs) (map metadata docs) = Return vs ->
  docs <> [] /\
  length docs <= length embs /\
  NoDup (map uuid4 (seq 0 (length docs))) /\
  exists dim,
    Forall (fun v => length v = dim) (take (length docs) embs) /\
    vs = assembled uuid4 docs (take (length docs) embs) dim.
Proof.
  intros Hret.
  assert (Hdocs : docs <> []).
  { intros ->. discriminate Hret. }
  assert (Hlen : length docs <= length embs).
  { destruct (le_lt_dec (length docs) (length embs)) as [| Hlt]; [assumption |].
    exfalso. unfold from_embeddings in Hret.
    destruct (zip (map page_content docs) embs) as [| [t0 e0] te] eqn:Hte;
      [discriminate |].
    cbv zeta in Hret. rewrite <- Hte in Hret.
    rewrite !length_fmap, length_zip_with, length_map in Hret.
    replace (Nat.min (length docs) (length embs)) with (length embs) in Hret by lia.
    assert (Hne : Nat.eqb (length embs) (length docs) = false)
      by (apply Nat.eqb_neq; lia).
    rewrite Hne in Hret. discriminate. }
  set (embs' := take (length docs) embs).
  assert (Hzip : zip (map page_content docs) embs = zip (map page_content docs) embs').
  { unfold embs'. symmetry. apply zip_with_take_r'. rewrite length_map. lia. }
  assert (Hlen' : length docs = length embs').
  { unfold embs'. rewrite length_take. lia. }
  assert (Hne : embs' <> []).
  { intros Hnil. rewrite Hnil in Hlen'. destruct docs; [congruence | discriminate]. }
  rewrite Hzip in Hret.
  destruct embs' as [| e0 rest] eqn:He; [congruence |].
  destruct docs as [| d0 docs']; [congruence |].
  unfold from_embeddings in Hret.
  change (zip (map page_content (d0 :: docs')) (e0 :: rest))
    with ((page_content d0, e0) :: zip (map page_content docs') rest) in Hret.
  cbv beta iota zeta in Hret.
  set (te := (page_content d0, e0) :: zip (map page_content docs') rest) in Hret.
  assert (Hte : te = zip (map page_content (d0 :: docs')) (e0 :: rest)) by reflexivity.
  assert (Htexts : te.*1 = map page_content (d0 :: docs')).
  { rewrite Hte. apply fst_zip. rewrite length_map. lia. }
  assert (Hembs : te.*2 = e0 :: rest).
  { rewrite Hte. apply snd_zip. rewrite length_map. lia. }
  rewrite Htexts, Hembs, !length_map, Nat.eqb_refl in Hret. cbn [negb] in Hret.
  rewrite rebuild_documents in Hret.
  destruct (bool_decide (NoDup (map uuid4 (seq 0 (length (d0 :: docs')))))) eqn:Hids;
    cbn [negb] in Hret; [| discriminate].
  apply bool_decide_eq_true in Hids.
  destruct (forallb (fun v : vec => Nat.eqb (length v) (length e0)) (e0 :: rest)) eqn:Hall;
    cbn [negb] in Hret; [| discriminate].
  injection Hret as <-.
  split; [discriminate |]. split; [exact Hlen |]. split; [exact Hids |].
  exists (length e0). split; [now apply forallb_length_inv |].
  unfold assembled. rewrite length_seq. reflexivity.
Qed.

Lemma assembled_id_table_size docs embs dim :
  size (index_to_docstore_id (assembled uuid4 docs embs dim)) = length docs.
Proof.
  simpl. rewrite map_size_list_to_map.
  - rewrite length_zip_with, length_map, !length_seq. lia.
  - rewrite fst_zip; [apply NoDup_seq |]. rewrite length_map, !length_seq. lia.
Qed.

End AssemblyInverse.

Section BuilderInverse.

Context (embeddings : GeminiAPIEmbeddings) (disk : Disk) (uuid4 : nat -> string).

(** How the builder comes to return an index. *)
Lemma build_returns documents index_path index_type vs :
  result (create_index_from_documents embeddings disk uuid4 documents index_path index_type)
    = Return (Some vs) ->
  exists embs failed,
    embed_documents embeddings (map page_content documents) = Return (EmbedPair embs failed) /\
    embs <> [] /\
    from_embeddings uuid4
      (zip (map page_content (survivors documents failed).*2) embs)
      (map metadata (survivors documents failed).*2) = Return vs /\
    result (_save_index disk vs index_path) = Return tt.
Proof.
  rewrite create_index_from_documents_result. cbv zeta.
  destruct (is_empty documents); [discriminate |].
  rewrite generate_embeddings_result.
  destruct (embed_documents embeddings (map page_content documents))
    as [[embs failed |] | e]; try discriminate.
  destruct (is_empty embs) eqn:He; [discriminate |].
  rewrite create_faiss_vector_store_result, filter_successful_documents_survivors.
  destruct (from_embeddings _ _ _) as [vs' | e] eqn:Hfrom; [| discriminate].
  destruct (result (_save_index disk vs' index_path)) as [[] | e] eqn:Hsave; [| discriminate].
  intros [= <-]. exists embs, failed. apply is_empty_false in He. auto.
Qed.

End BuilderInverse.

(** X9. Every index the builder returns is consistent, whatever the
    provider reported: it has one vector, one id and one docstore entry per
    surviving document and at least one of them; row k holds the k-th
    surviving document next to the k-th vector of the report (vectors
    beyond the surviving documents are dropped), and all rows have the
    dimension of the index. *)
Theorem built_index_is_consistent :
  forall embeddings disk uuid4 documents index_path index_type vs,
    result (create_index_from_documents embeddings disk uuid4 documents index_path index_type)
      = Return (Some vs) ->
    exists embs failed ix,
      embed_documents embeddings (map page_content documents)
        = Return (EmbedPair embs failed) /\
      index vs = Some ix /\
      0 < ntotal ix /\
      ntotal ix = length (survivors documents failed) /\
      ntotal ix <= length embs /\
      size (docstore vs) = ntotal ix /\
      size (index_to_docstore_id vs) = ntotal ix /\
      (forall k i doc,
         survivors documents failed !! k = Some (i, doc) ->
         exists v docstore_id,
           embs !! k = Some v /\
           length v = d ix /\
           reconstruct ix k = Return v /\
           index_to_docstore_id vs !! k = Some docstore_id /\
           docstore vs !! docstore_id = Some doc).
Proof.
  intros embeddings disk uuid4 documents index_path index_type vs Hres.
  destruct (build_returns _ _ _ _ _ _ _ Hres) as (embs & failed & Hprov & _ & Hfrom & _).
  set (sd := (survivors documents failed).*2) in *.
  destruct (from_embeddings_returns uuid4 sd embs vs Hfrom)
    as (Hne & Hlen & Hids & dim & Hdim & ->).
  assert (Hsd : length sd = length (survivors documents failed))
    by (unfold sd; apply length_fmap).
  assert (Htake : length sd = length (take (length sd) embs))
    by (rewrite length_take; lia).
  exists embs, failed, {| d := dim; xb := map Return (take (length sd) embs) |}.
  split; [exact Hprov |]. split; [reflexivity |].
  unfold ntotal. cbn [xb]. rewrite length_map, <- Htake.
  split; [destruct sd; [congruence | simpl; lia] |].
  split; [exact Hsd |]. split; [exact Hlen |].
  split; [now apply assembled_docstore_size |].
  split; [apply assembled_id_table_size |].
  intros k i doc Hk.
  assert (Hdoc : sd !! k = Some doc) by (unfold sd; now rewrite list_lookup_fmap, Hk).
  assert (Hlt : k < length sd) by (eapply lookup_lt_Some; eassumption).
  destruct (lookup_lt_is_Some_2 embs k ltac:(lia)) as [v Hv].
  assert (Hv' : take (length sd) embs !! k = Some v) by (rewrite lookup_take_lt; assumption).
  destruct (assembled_lookup uuid4 sd _ dim k doc v Hids Htake Hdoc Hv')
    as (Hrow & Hid & Hstore).
  exists v, (uuid4 k). split; [exact Hv |].
  split; [| split; [| split; assumption]].
  - cbn [d]. rewrite Forall_forall in Hdim. apply Hdim.
    apply list_elem_of_lookup. eauto.
  - unfold reconstruct. cbn [xb]. unfold xb_of in Hrow. cbn in Hrow. now rewrite Hrow.
Qed.

Lemma built_index_is_consistent_witness :
  exists vs ix,
    result (create_index_from_documents generous_embeddings blank_disk xs
              [foo_doc; bar_doc] "idx" "code") = Return (Some vs) /\
    index vs = Some ix /\
    ntotal ix = 2 /\ size (docstore vs) = 2.
Proof.
  assert (H : exists vs,
            result (create_index_from_documents generous_embeddings blank_disk xs
                      [foo_doc; bar_doc] "idx" "code") = Return (Some vs))
    by (eexists; vm_compute; reflexivity).
  destruct H as [vs H].
  destruct (built_index_is_consistent _ _ _ _ _ _ _ H)
    as (embs & failed & ix & Hprov & Hix & _ & Hn & _ & Hsize & _).
  injection Hprov as <- <-.
  assert (Hs : length (survivors [foo_doc; bar_doc] []) = 2) by (vm_compute; reflexivity).
  exists vs, ix. rewrite Hs in Hn. rewrite Hn in Hsize. auto.
Defined.

(** X10. A report that holds vectors, but fewer than there are surviving
    documents, never yields an index: the builder raises, the length check
    of [FAISS.from_embeddings] being the cause, rather than pair documents
    with the vectors of others.  (A report without any vector gives [None].) *)
Theorem too_few_vectors_fail_the_build :
  forall embeddings disk uuid4 documents index_path index_type embs failed,
    embed_documents embeddings (map page_content documents) = Return (EmbedPair embs failed) ->
    embs <> [] ->
    length embs < length (survivors documents failed) ->
    exists e cause root,
      result (create_index_from_documents embeddings disk uuid4 documents
                index_path index_type) = Raise e /\
      exn_cls e = IndexingErrorC /\
      exn_cause e = Some cause /\
      exn_cls cause = IndexingErrorC /\
      exn_msg cause = "벡터 스토어 생성 실패"%string /\
      exn_cause cause = Some root /\
      exn_cls root = ValueErrorC.
Proof.
  intros embeddings disk uuid4 documents index_path index_type embs failed Hprov Hne Hlt.
  assert (Hdocs : is_empty documents = false).
  { apply is_empty_false. intros ->. simpl in Hlt. lia. }
  rewrite create_index_from_documents_result, Hdocs. cbv zeta.
  rewrite generate_embeddings_result, Hprov.
  apply is_empty_false in Hne. rewrite Hne.
  rewrite create_faiss_vector_store_result, filter_successful_documents_survivors.
  destruct (from_embeddings _ _ _) as [vs | e0] eqn:Hfrom.
  - exfalso. apply from_embeddings_returns in Hfrom.
    destruct Hfrom as (_ & Hle & _). rewrite length_fmap in Hle. lia.
  - assert (Hcls : exn_cls e0 = ValueErrorC).
    { unfold from_embeddings in Hfrom.
      destruct (zip _ _) as [| [t0 e1] te]; [injection Hfrom as <-; reflexivity |].
      cbv zeta in Hfrom.
      repeat (match type of Hfrom with
              | (if ?c then _ else _) = _ => destruct c
              end; try (injection Hfrom as <-; reflexivity)).
      discriminate. }
    eexists _, _, e0. repeat split. exact Hcls.
Qed.

Lemma too_few_vectors_fail_the_build_witness :
  exists e,
    result (create_index_from_documents stingy_embeddings blank_disk xs
              [foo_doc; bar_doc] "idx" "code") = Raise e /\
    exn_cls e = IndexingErrorC.
Proof.
  destruct (too_few_vectors_fail_the_build stingy_embeddings blank_disk xs
              [foo_doc; bar_doc] "idx"%string "code"%string [unit_x] [] eq_refl
              ltac:(discriminate) ltac:(vm_compute; lia))
    as (e & cause & root & Hres & Hcls & _).
  exists e. auto.
Defined.

Section FilterFacts.

Lemma enumerate_from_snd {A} (l : list A) : forall i, (enumerate_from i l).*2 = l.
Proof. induction l as [| x l IH]; intros i; simpl; [reflexivity | now rewrite IH]. Qed.

Lemma enumerate_from_bound {A} (l : list A) i n x :
  (n, x) ∈ enumerate_from i l -> n < i + length l.
Proof.
  intros H. apply enumerate_from_elem in H. destruct H as [Hle Hx].
  apply lookup_lt_Some in Hx. lia.
Qed.

End FilterFacts.

(** X11. [_filter_successful_documents] only removes documents: its result
    is a sublist of the batch, the batch itself when no index failed, and
    it depends on the failed indices only through which positions of the
    batch they name; negative, out-of-range and repeated indices change
    nothing. *)
Theorem filter_successful_documents_ignores_stray_indices :
  forall (documents : list Document) (failed failed' : list Z),
    sublist (_filter_successful_documents documents failed) documents /\
    _filter_successful_documents documents [] = documents /\
    ((forall i, i < length documents -> (Z.of_nat i ∈ failed <-> Z.of_nat i ∈ failed')) ->
     _filter_successful_documents documents failed =
     _filter_successful_documents documents failed').
Proof.
  intros documents failed failed'. split; [| split].
  - unfold _filter_successful_documents.
    rewrite <- (enumerate_from_snd documents 0) at 2.
    apply fmap_sublist, list_filter_sublist.
  - unfold _filter_successful_documents.
    rewrite <- (enumerate_from_snd documents 0) at 2. f_equal.
    apply forallb_filter_id. apply forallb_forall. intros p _.
    apply negb_true_iff, bool_decide_eq_false. set_solver.
  - intros Hsame. unfold _filter_successful_documents. f_equal.
    apply List.filter_ext_in. intros [i doc] Hin. cbn [fst].
    apply list_elem_of_In in Hin. apply enumerate_from_bound in Hin.
    specialize (Hsame i ltac:(lia)). f_equal.
    apply bool_decide_ext. rewrite !elem_of_list_to_set. exact Hsame.
Qed.

Lemma filter_successful_documents_ignores_stray_indices_witness :
  _filter_successful_documents [foo_doc; bar_doc] [0; 7; -1; 0]%Z =
  _filter_successful_documents [foo_doc; bar_doc] [0]%Z.
Proof.
  apply (proj2 (proj2 (filter_successful_documents_ignores_stray_indices
                         [foo_doc; bar_doc] [0; 7; -1; 0]%Z [0]%Z))).
  intros i Hi. simpl in Hi.
  assert (Hi' : i = 0 \/ i = 1) by lia.
  destruct Hi' as [-> | ->]; split; intros H.
  - constructor.
  - constructor.
  - exfalso. apply list_elem_of_In in H. simpl in H.
    repeat (destruct H as [H | H]; [discriminate |]). exact H.
  - exfalso. apply list_elem_of_In in H. simpl in H.
    repeat (destruct H as [H | H]; [discriminate |]). exact H.
Defined.

Section MessageFacts.

Lemma prefix_append (a b : string) : String.prefix a (String.append a b) = true.
Proof.
  induction a as [| c a IH]; simpl; [now destruct b |].
  destruct (Ascii.ascii_dec c c); [exact IH | congruence].
Qed.

Lemma prefix_refl (a : string) : String.prefix a a = true.
Proof. induction a as [| c a IH]; simpl; [reflexivity |]. destruct (Ascii.ascii_dec c c); [exact IH | congruence]. Qed.

Lemma contains_prefix (needle hay : string) :
  String.prefix needle hay = true -> contains needle hay = true.
Proof. intros H. destruct hay; cbn [contains]; rewrite H; reflexivity. Qed.

Lemma append_assoc (a b c : string) :
  String.append (String.append a b) c = String.append a (String.append b c).
Proof.
  induction a as [| x a IH]; [reflexivity |].
  change (String x (String.append (String.append a b) c) =
          String x (String.append a (String.append b c))).
  now rewrite IH.
Qed.

End MessageFacts.

(** X12. [_generate_embeddings] hands a per-item report through unchanged
    and turns every failure of the provider into an [EmbeddingError] whose
    cause is the provider's exception.  The message of a provider's
    [EmbeddingError] is kept as the beginning of the new message, and is the
    whole of it when it already names solutions; the message of any other
    exception is quoted inside the generic diagnostic. *)
Theorem generate_embeddings_keeps_the_provider_message :
  forall embeddings documents,
    (forall embs failed,
       embed_documents embeddings (map page_content documents)
         = Return (EmbedPair embs failed) ->
       result (_generate_embeddings embeddings documents) = Return (embs, failed)) /\
    (forall e0,
       embed_documents embeddings (map page_content documents) = Raise e0 ->
       exists e,
         result (_generate_embeddings embeddings documents) = Raise e /\
         exn_cls e = EmbeddingErrorC /\
         exn_cause e = Some e0 /\
         (isinstance e0 EmbeddingErrorC = true ->
          String.prefix (exn_msg e0) (exn_msg e) = true /\
          (contains solution_marker (exn_msg e0) = true -> exn_msg e = exn_msg e0)) /\
         (isinstance e0 EmbeddingErrorC = false ->
          contains (exn_msg e0) (exn_msg e) = true)) /\
    (embed_documents embeddings (map page_content documents) = Return EmbedOther ->
     exists e,
       result (_generate_embeddings embeddings documents) = Raise e /\
       exn_cls e = EmbeddingErrorC /\
       exn_cause e = Some bad_format).
Proof.
  intros embeddings documents. split; [| split].
  - intros embs failed Hprov. now rewrite generate_embeddings_result, Hprov.
  - intros e0 Hprov. exists (embedding_error_of e0).
    rewrite generate_embeddings_result, Hprov.
    destruct (embedding_error_of_spec e0) as (Hcls & _ & Hcause).
    split; [reflexivity |]. split; [exact Hcls |]. split; [exact Hcause |].
    unfold embedding_error_of. split.
    + intros ->. cbn [exn_msg Py.new_from].
      destruct (contains solution_marker (exn_msg e0)); cbn [negb].
      * split; [apply prefix_refl | reflexivity].
      * split; [apply prefix_append | discriminate].
    + intros ->. cbn [exn_msg Py.new_from]. unfold error_details. cbn [join].
      rewrite append_assoc. apply contains_append_r, contains_prefix, prefix_append.
  - intros Hprov. exists (embedding_error_of bad_format).
    rewrite generate_embeddings_result, Hprov.
    destruct (embedding_error_of_spec bad_format) as (Hcls & _ & Hcause). auto.
Qed.

Lemma generate_embeddings_keeps_the_provider_message_witness :
  exists e,
    result (_generate_embeddings failing_embeddings [foo_doc]) = Raise e /\
    exn_cause e = Some quota_error /\
    String.prefix "429 quota exceeded" (exn_msg e) = true.
Proof.
  destruct (proj1 (proj2 (generate_embeddings_keeps_the_provider_message
                            failing_embeddings [foo_doc])) quota_error eq_refl)
    as (e & Hres & _ & Hcause & Hpre & _).
  exists e. split; [exact Hres |]. split; [exact Hcause |].
  apply (Hpre eq_refl).
Defined.

(** X13. The original error is never lost when the builder fails: the
    [IndexingError] that escapes has as cause the error of the failing step
    (an [EmbeddingError] or an [IndexingError]), whose cause in turn is the
    exception of the external call that failed (the provider, langchain's
    [from_embeddings], the creation of the directory or [save_local]) or the
    builder's own objection to a malformed report. *)
Theorem build_failure_keeps_the_original_error :
  forall embeddings disk uuid4 documents index_path index_type e,
    result (create_index_from_documents embeddings disk uuid4 documents index_path index_type)
      = Raise e ->
    exists step root,
      exn_cause e = Some step /\
      exn_cause step = Some root /\
      (embed_documents embeddings (map page_content documents) = Raise root \/
       (embed_documents embeddings (map page_content documents) = Return EmbedOther /\
        root = bad_format) \/
       (exists embs failed,
          embed_documents embeddings (map page_content documents)
            = Return (EmbedPair embs failed) /\
          from_embeddings uuid4
            (zip (map page_content (_filter_successful_documents documents failed)) embs)
            (map metadata (_filter_successful_documents documents failed)) = Raise root) \/
       ensure_directory_exists disk (dirname disk index_path) = Raise root \/
       (exists vs, save_local disk vs index_path = Raise root)).
Proof.
  intros embeddings disk uuid4 documents index_path index_type e.
  rewrite create_index_from_documents_result. cbv zeta.
  destruct (is_empty documents); [discriminate |].
  rewrite generate_embeddings_result.
  destruct (embed_documents embeddings (map page_content documents))
    as [[embs failed |] | e0] eqn:Hprov.
  - destruct (is_empty embs); [discriminate |].
    rewrite create_faiss_vector_store_result.
    destruct (from_embeddings _ _ _) as [vs | e1] eqn:Hfrom.
    + rewrite save_index_result.
      destruct (ensure_directory_exists disk (dirname disk index_path)) as [[] | e2] eqn:Hdir.
      * destruct (save_local disk vs index_path) as [[] | e3] eqn:Hsave; [discriminate |].
        intros [= <-]. eexists _, e3. split; [reflexivity |]. split; [reflexivity |].
        do 4 right. eauto.
      * intros [= <-]. eexists _, e2. split; [reflexivity |]. split; [reflexivity |].
        do 3 right. now left.
    + intros [= <-]. eexists _, e1. split; [reflexivity |]. split; [reflexivity |].
      do 2 right. left. eauto.
  - intros [= <-]. exists (embedding_error_of bad_format), bad_format.
    destruct (embedding_error_of_spec bad_format) as (_ & _ & Hcause).
    split; [reflexivity |]. split; [exact Hcause |]. right. left. auto.
  - intros [= <-]. exists (embedding_error_of e0), e0.
    destruct (embedding_error_of_spec e0) as (_ & _ & Hcause).
    split; [reflexivity |]. split; [exact Hcause |]. now left.
Qed.

Lemma build_failure_keeps_the_original_error_witness :
  exists e step,
    result (create_index_from_documents constant_embeddings full_disk xs [foo_doc] "idx" "code")
      = Raise e /\
    exn_cause e = Some step /\
    exn_cause step = Some (Py.new OSErrorC "No space left on device").
Proof.
  assert (H : exists e, result (create_index_from_documents constant_embeddings full_disk xs
                                  [foo_doc] "idx" "code") = Raise e)
    by (eexists; vm_compute; reflexivity).
  destruct H as [e H].
  destruct (build_failure_keeps_the_original_error _ _ _ _ _ _ _ H)
    as (step & root & He & Hstep & Hroot).
  exists e, step. split; [exact H |]. split; [exact He |].
  rewrite Hstep. f_equal.
  destruct Hroot as [Hr | [[Hr _] | [(embs & failed & Hp & Hr) | [Hr | [vs Hr]]]]].
  - discriminate Hr.
  - discriminate Hr.
  - injection Hp as <- <-. vm_compute in Hr. discriminate Hr.
  - discriminate Hr.
  - simpl in Hr. now injection Hr as <-.
Defined.

Section BuiltStore.

Context (uuid4 : nat -> string).

Lemma omap_length_all {A B} (g : A -> option B) (l : list A) :
  (forall x, x ∈ l -> is_Some (g x)) -> length (omap g l) = length l.
Proof.
  induction l as [| x l IH]; intros H; simpl; [reflexivity |].
  destruct (H x ltac:(constructor)) as [y Hy]. rewrite Hy. simpl.
  f_equal. apply IH. intros z Hz. apply H. now constructor.
Qed.

Lemma omap_Forall {A B} (g : A -> option B) (P : B -> Prop) (l : list A) :
  (forall x y, x ∈ l -> g x = Some y -> P y) -> Forall P (omap g l).
Proof.
  intros H. apply Forall_forall. intros y Hy.
  apply list_elem_of_omap in Hy. destruct Hy as (x & Hx & Hg). eauto.
Qed.

(** Every row of an assembled store delivers its document and vector. *)
Lemma assembled_row_of docs embs dim k doc v :
  NoDup (map uuid4 (seq 0 (length docs))) ->
  length docs = length embs ->
  docs !! k = Some doc ->
  embs !! k = Some v ->
  row_of (assembled uuid4 docs embs dim) {| d := dim; xb := map Return embs |} k
    = Some (doc, v).
Proof.
  intros Hids Hlen Hdoc Hv.
  destruct (assembled_lookup uuid4 docs embs dim k doc v Hids Hlen Hdoc Hv)
    as (Hrow & Hid & Hstore).
  apply row_of_Some. exists (uuid4 k). split; [exact Hid |]. split; [exact Hstore |].
  unfold reconstruct. cbn [xb]. unfold xb_of in Hrow. cbn in Hrow. now rewrite Hrow.
Qed.

Lemma assembled_rows_complete docs embs dim :
  NoDup (map uuid4 (seq 0 (length docs))) ->
  length docs = length embs ->
  Forall (fun v => length v = dim) embs ->
  let vs := assembled uuid4 docs embs dim in
  let ix := {| d := dim; xb := map Return embs |} in
  length (rows vs ix) = length docs /\
  Forall (fun r => length (snd r) = dim) (rows vs ix).
Proof.
  intros Hids Hlen Hdim vs ix.
  assert (Hn : ntotal ix = length docs).
  { unfold ntotal, ix. cbn [xb]. rewrite length_map. lia. }
  assert (Hrow : forall k, k ∈ seq 0 (ntotal ix) ->
                 exists doc v, docs !! k = Some doc /\ embs !! k = Some v /\
                               row_of vs ix k = Some (doc, v)).
  { intros k Hk. apply elem_of_seq in Hk.
    destruct (lookup_lt_is_Some_2 docs k ltac:(lia)) as [doc Hdoc].
    destruct (lookup_lt_is_Some_2 embs k ltac:(lia)) as [v Hv].
    exists doc, v. split; [exact Hdoc |]. split; [exact Hv |].
    now apply assembled_row_of. }
  split.
  - unfold rows. rewrite omap_length_all, length_seq; [exact Hn |].
    intros k Hk. destruct (Hrow k Hk) as (doc & v & _ & _ & ->). eauto.
  - unfold rows. apply omap_Forall. intros k r Hk Hr.
    destruct (Hrow k Hk) as (doc & v & _ & Hv & Hr'). rewrite Hr' in Hr.
    injection Hr as <-. cbn [snd]. rewrite Forall_forall in Hdim.
    apply Hdim, list_elem_of_lookup. eauto.
Qed.

End BuiltStore.

Section BuilderAssembled.

Context (embeddings : GeminiAPIEmbeddings) (disk : Disk) (uuid4 : nat -> string).

(** What the builder returns is the store assembled from the surviving
    documents and as many vectors of the report. *)
Lemma build_returns_assembled documents index_path index_type vs :
  result (create_index_from_documents embeddings disk uuid4 documents index_path index_type)
    = Return (Some vs) ->
  exists embs failed dim,
    embed_documents embeddings (map page_content documents) = Return (EmbedPair embs failed) /\
    let sd := (survivors documents failed).*2 in
    sd <> [] /\
    length sd <= length embs /\
    NoDup (map uuid4 (seq 0 (length sd))) /\
    Forall (fun v => length v = dim) (take (length sd) embs) /\
    vs = assembled uuid4 sd (take (length sd) embs) dim.
Proof.
  intros Hres.
  destruct (build_returns _ _ _ _ _ _ _ Hres) as (embs & failed & Hprov & _ & Hfrom & _).
  destruct (from_embeddings_returns uuid4 _ embs vs Hfrom)
    as (Hne & Hlen & Hids & dim & Hdim & Hvs).
  exists embs, failed, dim. cbv zeta. auto 10.
Qed.

End BuilderAssembled.

(** X14. A search over an index the builder returned scores every stored
    document, provided the query embeds to the dimension of the index: no
    row is skipped, the candidate list exists and has [top_k] entries, or
    as many as there are documents in the index if these are fewer. *)
Theorem search_over_built_index_scores_every_document :
  forall np embeddings disk uuid4 documents index_path index_type vs
         searcher query_text q ix top_k,
    result (create_index_from_documents embeddings disk uuid4 documents index_path index_type)
      = Return (Some vs) ->
    has_embed_query searcher = true ->
    embed_query searcher query_text = Return q ->
    index vs = Some ix ->
    length q = d ix ->
    (0 <= top_k)%Z ->
    length (rows vs ix) = ntotal ix /\
    exists top,
      top_k_candidates np searcher vs query_text top_k = Some top /\
      length top = Nat.min (Z.to_nat top_k) (ntotal ix).
Proof.
  intros np embeddings disk uuid4 documents index_path index_type vs searcher query_text
         q ix top_k Hres Hcap Hq Hix Hlen Hk.
  destruct (build_returns_assembled _ _ _ _ _ _ _ Hres)
    as (embs & failed & dim & _ & Hne & Hle & Hids & Hdim & ->).
  set (sd := (survivors documents failed).*2) in *.
  assert (Htake : length sd = length (take (length sd) embs))
    by (rewrite length_take; lia).
  injection Hix as <-.
  destruct (assembled_rows_complete uuid4 sd _ dim Hids Htake Hdim) as [Hrows Hall].
  assert (Hn : ntotal {| d := dim; xb := map Return (take (length sd) embs) |} = length sd).
  { unfold ntotal. cbn [xb]. rewrite length_map. lia. }
  split; [now rewrite Hn |].
  assert (Hpos : ntotal {| d := dim; xb := map Return (take (length sd) embs) |} <> 0).
  { rewrite Hn. destruct sd; [congruence | discriminate]. }
  rewrite (top_k_candidates_rows np searcher
             (assembled uuid4 sd (take (length sd) embs) dim) query_text top_k q
             {| d := dim; xb := map Return (take (length sd) embs) |}
             Hcap Hq eq_refl Hpos).
  assert (Hsame : forallb (same_dimension q)
                    (rows (assembled uuid4 sd (take (length sd) embs) dim)
                          {| d := dim; xb := map Return (take (length sd) embs) |}) = true).
  { apply forallb_forall. intros r Hr. unfold same_dimension. apply Nat.eqb_eq.
    rewrite Forall_forall in Hall. apply list_elem_of_In in Hr.
    specialize (Hall r Hr). cbn in Hall, Hlen. exact (eq_trans Hlen (eq_sym Hall)). }
  rewrite Hsame. eexists. split; [reflexivity |].
  rewrite slice_to_nonneg_length by exact Hk.
  rewrite sort_desc_length. unfold scored. rewrite length_map.
  f_equal. exact (eq_trans Hrows (eq_sym Hn)).
Qed.

Lemma search_over_built_index_scores_every_document_witness :
  exists vs ix top,
    result (create_index_from_documents constant_embeddings blank_disk xs
              [foo_doc; bar_doc] "idx" "code") = Return (Some vs) /\
    index vs = Some ix /\
    top_k_candidates exact_np constant_embeddings vs "function foo" 1 = Some top /\
    length top = 1.
Proof.
  assert (H : exists vs,
            result (create_index_from_documents constant_embeddings blank_disk xs
                      [foo_doc; bar_doc] "idx" "code") = Return (Some vs))
    by (eexists; vm_compute; reflexivity).
  destruct H as [vs H].
  assert (Hix : exists ix, index vs = Some ix /\ d ix = 4 /\ ntotal ix = 2).
  { vm_compute in H. injection H as <-. eexists. repeat split. }
  destruct Hix as (ix & Hix & Hd & Hn).
  destruct (search_over_built_index_scores_every_document exact_np constant_embeddings
              blank_disk xs [foo_doc; bar_doc] "idx"%string "code"%string vs
              constant_embeddings "function foo"%string unit_x ix 1%Z
              H eq_refl eq_refl Hix ltac:(rewrite Hd; reflexivity) ltac:(discriminate))
    as (_ & top & Hc & Hlen).
  exists vs, ix, top. rewrite Hn in Hlen. auto.
Defined.

(** X15. The statistics of an index the builder returned report its
    content: [total_vectors] is the number of documents that survived
    embedding, and [dimension] the common length of the vectors stored for
    them. *)
Theorem stats_of_built_index :
  forall embeddings disk uuid4 documents index_path index_type vs attrs,
    result (create_index_from_documents embeddings disk uuid4 documents index_path index_type)
      = Return (Some vs) ->
    exists embs failed dim,
      embed_documents embeddings (map page_content documents)
        = Return (EmbedPair embs failed) /\
      fst (get_index_stats attrs vs) !! "total_vectors"%string
        = Some (SInt (length (survivors documents failed))) /\
      fst (get_index_stats attrs vs) !! "dimension"%string = Some (SInt dim) /\
      (forall k v, k < length (survivors documents failed) -> embs !! k = Some v ->
                   length v = dim).
Proof.
  intros embeddings disk uuid4 documents index_path index_type vs attrs Hres.
  destruct (build_returns_assembled _ _ _ _ _ _ _ Hres)
    as (embs & failed & dim & Hprov & Hne & Hle & Hids & Hdim & ->).
  exists embs, failed, dim. split; [exact Hprov |].
  set (sd := (survivors documents failed).*2) in *.
  assert (Hsd : length sd = length (survivors documents failed))
    by (unfold sd; apply length_fmap).
  split; [| split].
  - unfold get_index_stats, assembled. cbn [index fst].
    unfold ntotal. cbn [xb]. rewrite length_map, length_take.
    replace (Nat.min (length sd) (length embs)) with (length sd) by lia.
    rewrite Hsd. reflexivity.
  - reflexivity.
  - intros k v Hk Hv. rewrite Forall_forall in Hdim. apply Hdim.
    apply list_elem_of_lookup. exists k. rewrite lookup_take_lt by lia. exact Hv.
Qed.

Lemma stats_of_built_index_witness :
  exists vs,
    result (create_index_from_documents constant_embeddings blank_disk xs
              [foo_doc; bar_doc] "idx" "code") = Return (Some vs) /\
    fst (get_index_stats flat_attributes vs) !! "total_vectors"%string = Some (SInt 2).
Proof.
  assert (H : exists vs,
            result (create_index_from_documents constant_embeddings blank_disk xs
                      [foo_doc; bar_doc] "idx" "code") = Return (Some vs))
    by (eexists; vm_compute; reflexivity).
  destruct H as [vs H]. exists vs. split; [exact H |].
  destruct (stats_of_built_index _ _ _ _ _ _ _ flat_attributes H)
    as (embs & failed & dim & Hprov & Htotal & _).
  injection Hprov as <- <-. exact Htotal.
Defined.

(** ** Deleting an index *)

Section Directories.

Lemma outside_lookup_below (p k : path) (m : gmap path (outcome FAISS)) :
  p `prefix_of` k -> outside p m !! k = None.
Proof.
  intros Hp. unfold outside. apply map_lookup_filter_None. right.
  intros x _ Hnot. now apply Hnot.
Qed.

Lemma outside_lookup_apart (p k : path) (m : gmap path (outcome FAISS)) :
  ~ p `prefix_of` k -> outside p m !! k = m !! k.
Proof.
  intros Hp. unfold outside. apply option_eq. intros x.
  rewrite map_lookup_filter_Some. cbn. tauto.
Qed.

Lemma inside_lookup_apart (p k : path) (m : gmap path (outcome FAISS)) :
  ~ p `prefix_of` k -> inside p m !! k = None.
Proof.
  intros Hp. unfold inside. apply map_lookup_filter_None. right.
  intros x _ Hin. now apply Hp.
Qed.

End Directories.

(** X16. [delete_index] reports [True] exactly when the index directory
    existed and could be removed.  After that the directory is gone with
    everything below it, a second deletion reports [False] and [load_index]
    finds nothing there.  When the directory does not exist nothing changes,
    and in every case the directories that are neither the index directory
    nor below it are as they were. *)
Theorem delete_index_removes_the_index_once :
  forall (t : Tree) (index_path : string),
    let '(deleted, _, t') := delete_index t index_path in
    let p := locate t index_path in
    (deleted = true <->
     tree_exists t index_path = true /\ rmtree_fails t !! p = None) /\
    (deleted = true ->
     (forall k, p `prefix_of` k -> entries t' !! k = None) /\
     fst (fst (delete_index t' index_path)) = false /\
     (forall disk index_type,
        path_exists disk index_path = tree_exists t' index_path ->
        result (load_index disk index_path index_type) = Return None)) /\
    (tree_exists t index_path = false -> t' = t) /\
    (forall k, ~ p `prefix_of` k -> entries t' !! k = entries t !! k).
Proof.
  intros t index_path. unfold delete_index, rmtree. cbv zeta.
  set (p := locate t index_path).
  destruct (tree_exists t index_path) eqn:Hex.
  - destruct (rmtree_fails t !! p) as [[e rest] |] eqn:Hfail.
    + split; [split; [discriminate | intros [_ ?]; discriminate] |].
      split; [discriminate |]. split; [discriminate |].
      intros k Hk. cbn [entries].
      rewrite lookup_union_l by now apply inside_lookup_apart.
      now apply outside_lookup_apart.
    + split; [split; auto |].
      assert (Hgone : tree_exists {| locate := locate t;
                                     entries := outside p (entries t);
                                     rmtree_fails := rmtree_fails t |} index_path = false).
      { unfold tree_exists. cbn [entries locate]. fold p.
        rewrite outside_lookup_below by reflexivity.
        apply bool_decide_eq_false. intros [? ?]. discriminate. }
      split; [| split; [discriminate |]].
      * intros _. split; [| split].
        -- intros k Hk. cbn [entries]. now apply outside_lookup_below.
        -- rewrite Hgone. reflexivity.
        -- intros disk index_type Hdisk. unfold load_index. rewrite Hdisk, Hgone.
           reflexivity.
      * intros k Hk. cbn [entries]. now apply outside_lookup_apart.
  - split; [split; [discriminate | intros [? _]; discriminate] |].
    split; [discriminate |]. split; [reflexivity | reflexivity].
Qed.

Lemma delete_index_removes_the_index_once_witness :
  fst (fst (delete_index two_index_tree "faiss/flask")) = true /\
  entries (snd (delete_index two_index_tree "faiss/flask")) !! ["faiss"; "flask"; "code"]
    = None /\
  entries (snd (delete_index two_index_tree "faiss/flask")) !! ["faiss"; "django"; "code"]
    = Some (Return store3).
Proof.
  pose proof (delete_index_removes_the_index_once two_index_tree "faiss/flask"%string) as H.
  destruct (delete_index two_index_tree "faiss/flask") as [[deleted evs] t'] eqn:Hdel.
  cbv zeta in H. destruct H as (Hiff & Hafter & _ & Hapart).
  assert (Hd : deleted = true).
  { apply Hiff. split; reflexivity. }
  cbn [fst snd]. split; [exact Hd |]. split.
  - apply (Hafter Hd). now exists ["code"%string].
  - rewrite Hapart; [reflexivity |]. intros [rest Hrest]. discriminate.
Defined.

(** ** Issue analysis *)

Section IssueAnalysisFacts.

Context (disk : Disk) (core : Core).

Lemma on_error_failure (e : exn) :
  status_code (on_error e) = 500%Z /\
  relatedFiles (on_error e) = [] /\ codeSnippets (on_error e) = [].
Proof.
  unfold on_error.
  destruct (isinstance e RAGErrorC); [repeat split |].
  destruct (isinstance e ServiceErrorC); repeat split.
Qed.

(** The outcome of loading, read off the disk. *)
Lemma load_index_result_disk (index_path index_type : string) :
  result (load_index disk index_path index_type) =
  if path_exists disk index_path then
    match load_local disk index_path with
    | Return vs => Return (Some vs)
    | Raise _ => Return None
    end
  else Return None.
Proof.
  unfold load_index. destruct (path_exists disk index_path); cbn [negb]; [| reflexivity].
  py_result. destruct (load_local disk index_path); py_result; reflexivity.
Qed.

Lemma load_vector_stores_disk (repo_name : string) :
  _load_vector_stores disk core repo_name =
  let p := get_faiss_index_path core repo_name "code" in
  if path_exists disk p then
    match load_local disk p with
    | Return vs => Some {[ "code"%string := vs ]}
    | Raise _ => None
    end
  else None.
Proof.
  unfold _load_vector_stores. rewrite load_index_result_disk. cbv zeta.
  destruct (path_exists disk _); [| reflexivity].
  destruct (load_local disk _); reflexivity.
Qed.

(** A request past the URL checks and the initialisation. *)
Lemma analyze_issue_initialised ext self w request_data repo_url repo_name embeddings :
  repoUrl request_data = Some repo_url ->
  repo_url <> ""%string ->
  extract_repo_name_from_url core repo_url = Return repo_name ->
  _initialize_services ext self = Return embeddings ->
  analyze_issue disk core ext self w request_data =
  match _load_vector_stores disk core repo_name with
  | None =>
    (failure (join "" ["'"; repo_name; "' 저장소의 분석 데이터를 찾을 수 없습니다."])
             "저장소가 아직 인덱싱되지 않았습니다. 먼저 저장소를 분석해주세요." 404,
     Some embeddings, w)
  | Some vector_stores =>
    match issue_analyzer ext embeddings vector_stores request_data
            (default_branch_of request_data) with
    | Raise e => (on_error e, Some embeddings, w)
    | Return (s, files, snippets, suggestion) =>
      ({| summary := s; relatedFiles := files; codeSnippets := snippets;
          solutionSuggestion := suggestion; status_code := 200 |}, Some embeddings, w)
    end
  end.
Proof.
  intros Hurl Hne Hname Hinit. unfold analyze_issue.
  apply String.eqb_neq in Hne. rewrite Hurl, Hne, Hname, Hinit. reflexivity.
Qed.

End IssueAnalysisFacts.

(** X18. [analyze_issue] answers every request with a response, whose
    status code is 200, 400, 404 or 500.  Every response other than 200
    has no related files and no code snippets.  A 400 response leaves the
    service object as it was (the services are not constructed for a request
    without a usable URL); a 200 or 404 response leaves it initialised.  The
    job store is never changed. *)
Theorem analyze_issue_answers_every_request :
  forall disk core ext self w request_data,
    let '(response, self', w') := analyze_issue disk core ext self w request_data in
    w' = w /\
    (status_code response = 200 \/ status_code response = 400 \/
     status_code response = 404 \/ status_code response = 500)%Z /\
    (status_code response <> 200%Z ->
     relatedFiles response = [] /\ codeSnippets response = []) /\
    (status_code response = 400%Z -> self' = self) /\
    (status_code response = 200%Z \/ status_code response = 404%Z -> is_Some self').
Proof.
  intros disk core ext self w request_data. unfold analyze_issue.
  assert (Herr : forall e s,
            w = w /\
            (status_code (on_error e) = 200 \/ status_code (on_error e) = 400 \/
             status_code (on_error e) = 404 \/ status_code (on_error e) = 500)%Z /\
            (status_code (on_error e) <> 200%Z ->
             relatedFiles (on_error e) = [] /\ codeSnippets (on_error e) = []) /\
            (status_code (on_error e) = 400%Z -> s = self) /\
            (status_code (on_error e) = 200%Z \/ status_code (on_error e) = 404%Z ->
             is_Some s)).
  { intros e s. destruct (on_error_failure e) as (Hc & Hf & Hs). rewrite Hc, Hf, Hs.
    repeat split; auto; try discriminate. intros [? | ?]; discriminate. }
  assert (Hbad : forall a b,
            w = w /\
            (status_code (failure a b 400) = 200 \/ status_code (failure a b 400) = 400 \/
             status_code (failure a b 400) = 404 \/ status_code (failure a b 400) = 500)%Z /\
            (status_code (failure a b 400) <> 200%Z ->
             relatedFiles (failure a b 400) = [] /\ codeSnippets (failure a b 400) = []) /\
            (status_code (failure a b 400) = 400%Z -> self = self) /\
            (status_code (failure a b 400) = 200%Z \/ status_code (failure a b 400) = 404%Z ->
             is_Some self)).
  { intros a b. cbn. repeat split; auto. intros [? | ?]; discriminate. }
  destruct (repoUrl request_data) as [repo_url |]; [| apply Hbad].
  destruct (String.eqb repo_url ""); [apply Hbad |].
  destruct (extract_repo_name_from_url core repo_url) as [repo_name | e].
  2:{ destruct (isinstance e ValueErrorC); [apply Hbad | apply Herr]. }
  destruct (_initialize_services ext self) as [embeddings | e]; [| apply Herr].
  destruct (_load_vector_stores disk core repo_name) as [vector_stores |].
  - destruct (issue_analyzer ext embeddings vector_stores request_data _)
      as [[[[s files] snippets] suggestion] | e]; [| apply Herr].
    cbn. repeat split; auto; try congruence; try discriminate; eauto.
  - cbn. repeat split; auto; try discriminate; eauto.
Qed.

Lemma analyze_issue_answers_every_request_witness :
  relatedFiles (fst (fst (analyze_issue blank_disk plain_core plain_collaborators None
                            empty_world flask_issue_request))) = [] /\
  snd (analyze_issue blank_disk plain_core plain_collaborators None empty_world
         flask_issue_request) = empty_world.
Proof.
  pose proof (analyze_issue_answers_every_request blank_disk plain_core plain_collaborators
                None empty_world flask_issue_request) as H.
  assert (Hstatus : status_code (fst (fst (analyze_issue blank_disk plain_core
                      plain_collaborators None empty_world flask_issue_request))) = 404%Z)
    by reflexivity.
  destruct (analyze_issue blank_disk plain_core plain_collaborators None empty_world
              flask_issue_request) as [[response self'] w'].
  destruct H as (Hw & _ & Hne & _). cbn [fst snd] in *.
  split; [| exact Hw]. apply Hne. rewrite Hstatus. discriminate.
Defined.

(** X19. The services are constructed at most once.  On an initialised
    service object, [analyze_issue] never calls the constructor (its answer
    is the same whatever the constructor would do) and leaves the object as
    it is; on a fresh one, the object it leaves initialised holds what the
    constructor returned. *)
Theorem analyze_issue_constructs_services_once :
  forall disk core ext w request_data,
    (forall embeddings ctor,
       analyze_issue disk core (with_constructor ext ctor) (Some embeddings) w request_data
         = analyze_issue disk core ext (Some embeddings) w request_data /\
       snd (fst (analyze_issue disk core ext (Some embeddings) w request_data))
         = Some embeddings) /\
    (forall embeddings,
       snd (fst (analyze_issue disk core ext None w request_data)) = Some embeddings ->
       new_embeddings ext = Return embeddings).
Proof.
  intros disk core ext w request_data. split.
  - intros embeddings ctor. unfold analyze_issue, with_constructor.
    cbn [_initialize_services issue_analyzer].
    destruct (repoUrl request_data) as [repo_url |]; [| split; reflexivity].
    destruct (String.eqb repo_url ""); [split; reflexivity |].
    destruct (extract_repo_name_from_url core repo_url) as [repo_name | e].
    2:{ destruct (isinstance e ValueErrorC); split; reflexivity. }
    destruct (_load_vector_stores disk core repo_name) as [vector_stores |];
      [| split; reflexivity].
    destruct (issue_analyzer ext embeddings vector_stores request_data _)
      as [[[[s files] snippets] suggestion] | e]; split; reflexivity.
  - intros embeddings. unfold analyze_issue. cbn [_initialize_services].
    destruct (repoUrl request_data) as [repo_url |]; [| discriminate].
    destruct (String.eqb repo_url ""); [discriminate |].
    destruct (extract_repo_name_from_url core repo_url) as [repo_name | e].
    2:{ destruct (isinstance e ValueErrorC); discriminate. }
    destruct (new_embeddings ext) as [created | e]; [| discriminate].
    destruct (_load_vector_stores disk core repo_name) as [vector_stores |];
      [| now intros [= ->]].
    destruct (issue_analyzer ext created vector_stores request_data _)
      as [[[[s files] snippets] suggestion] | e]; now intros [= ->].
Qed.

Lemma analyze_issue_constructs_services_once_witness :
  analyze_issue stocked_disk plain_core
    (with_constructor plain_collaborators (Raise quota_error)) (Some constant_embeddings)
    empty_world flask_issue_request
  = analyze_issue stocked_disk plain_core plain_collaborators (Some constant_embeddings)
      empty_world flask_issue_request /\
  new_embeddings plain_collaborators = Return constant_embeddings.
Proof.
  destruct (analyze_issue_constructs_services_once stocked_disk plain_core
              plain_collaborators empty_world flask_issue_request) as (Hsame & Hfresh).
  split.
  - apply (Hsame constant_embeddings (Raise quota_error)).
  - apply Hfresh. reflexivity.
Defined.

(** X20. For a request with a usable URL on a service that initialises,
    the answer is 404 exactly when the code index directory is missing or
    cannot be read: an index that fails to load is reported like one that
    was never built.  It is 200 exactly when the index loads and the
    analyzer returns, and then the analyzer was given the loaded store under
    the key [code] and the requested branch, [main] by default. *)
Theorem analyze_issue_not_found_iff_index_does_not_load :
  forall disk core ext self w request_data repo_url repo_name embeddings,
    repoUrl request_data = Some repo_url ->
    repo_url <> ""%string ->
    extract_repo_name_from_url core repo_url = Return repo_name ->
    _initialize_services ext self = Return embeddings ->
    let p := get_faiss_index_path core repo_name "code" in
    let response := fst (fst (analyze_issue disk core ext self w request_data)) in
    (status_code response = 404%Z <->
     path_exists disk p = false \/ exists e, load_local disk p = Raise e) /\
    (status_code response = 200%Z <->
     exists vs out,
       path_exists disk p = true /\ load_local disk p = Return vs /\
       issue_analyzer ext embeddings {[ "code"%string := vs ]} request_data
         (default_branch_of request_data) = Return out).
Proof.
  intros disk core ext self w request_data repo_url repo_name embeddings
         Hurl Hne Hname Hinit p response. subst response.
  rewrite (analyze_issue_initialised disk core ext self w request_data repo_url repo_name
             embeddings Hurl Hne Hname Hinit).
  rewrite load_vector_stores_disk. cbv zeta. fold p.
  destruct (path_exists disk p) eqn:Hex.
  - destruct (load_local disk p) as [vs | e] eqn:Hload.
    + destruct (issue_analyzer ext embeddings {[ "code"%string := vs ]} request_data _)
        as [[[[s files] snippets] suggestion] | e] eqn:Han.
      * cbn. split; split; try discriminate.
        -- intros [? | [e He]]; discriminate.
        -- intros _. exists vs, (s, files, snippets, suggestion). auto.
        -- reflexivity.
      * cbn [fst]. destruct (on_error_failure e) as (Hc & _). rewrite Hc.
        split; split; try discriminate.
        -- intros [? | [e' He]]; discriminate.
        -- intros (vs' & out & _ & [= <-] & Hout). rewrite Han in Hout. discriminate.
    + cbn. split; split; try discriminate; eauto.
      intros (vs' & out & _ & ? & _). discriminate.
  - cbn. split; split; try discriminate; auto.
    intros (vs' & out & ? & _). discriminate.
Qed.

Lemma analyze_issue_not_found_iff_index_does_not_load_witness :
  status_code (fst (fst (analyze_issue corrupt_disk plain_core plain_collaborators None
                           empty_world flask_issue_request))) = 404%Z /\
  status_code (fst (fst (analyze_issue stocked_disk plain_core plain_collaborators None
                           empty_world flask_issue_request))) = 200%Z.
Proof.
  split.
  - apply (analyze_issue_not_found_iff_index_does_not_load corrupt_disk plain_core
             plain_collaborators None empty_world flask_issue_request flask flask
             constant_embeddings eq_refl ltac:(discriminate) eq_refl eq_refl).
    right. eexists. reflexivity.
  - apply (analyze_issue_not_found_iff_index_does_not_load stocked_disk plain_core
             plain_collaborators None empty_world flask_issue_request flask flask
             constant_embeddings eq_refl ltac:(discriminate) eq_refl eq_refl).
    exists store1, ("summary"%string, [], [], "suggestion"%string).
    repeat split.
Defined.

(** ** The repository resources *)

Section Boundary.

Lemma at_boundary_unexpected (message : string) (e : exn) :
  isinstance e ValidationErrorC = false ->
  isinstance e ServiceErrorC = false ->
  at_boundary message e = Py.new ServiceErrorC message.
Proof. intros Hv Hs. unfold at_boundary. now rewrite Hv, Hs. Qed.

Lemma at_boundary_class (message : string) (e : exn) :
  isinstance (at_boundary message e) ValidationErrorC = true \/
  isinstance (at_boundary message e) ServiceErrorC = true.
Proof.
  unfold at_boundary.
  destruct (isinstance e ValidationErrorC) eqn:Hv; [now left |].
  destruct (isinstance e ServiceErrorC) eqn:Hs; [now right |].
  right. reflexivity.
Qed.

Lemma isinstance_exclusive (e : exn) (c c' : exn_class) :
  isinstance e c = true -> c <> c' -> isinstance e c' = false.
Proof.
  unfold isinstance. intros H Hne. apply bool_decide_eq_true in H.
  apply bool_decide_eq_false. congruence.
Qed.

Lemma error_code_or_not_found (e : exn) (fallback : string) :
  fallback <> "INDEX_NOT_FOUND"%string ->
  error_code_or e fallback = "INDEX_NOT_FOUND"%string <->
  exn_code e = Some "INDEX_NOT_FOUND"%string.
Proof.
  intros Hf. unfold error_code_or. destruct (exn_code e) as [c |].
  - destruct (String.eqb c "") eqn:Hc.
    + apply String.eqb_eq in Hc. subst c. split; [congruence | discriminate].
    + split; congruence.
  - split; [congruence | discriminate].
Qed.

End Boundary.

(** X21. An error during a search that is neither a validation error nor
    a service error (a quota error while embedding the query, say) is
    answered 500 with the code [SERVICE_ERROR] and a fixed message: the
    text of the original error is not part of the response. *)
Theorem search_hides_unexpected_errors :
  forall np embeddings disk core w data repo_name query search_type e,
    validate_search_request core data = Return (repo_name, query, search_type) ->
    search_service_search_repository np embeddings disk core
      (String.append "https://github.com/" repo_name) query "code" = Raise e ->
    isinstance e ValidationErrorC = false ->
    isinstance e ServiceErrorC = false ->
    RepositorySearch_post np embeddings disk core w data =
    (error_response "Repository search failed due to unexpected error" "SERVICE_ERROR" 500, w).
Proof.
  intros np embeddings disk core w data repo_name query search_type e Hvalid Hraise Hv Hs.
  unfold RepositorySearch_post, search_repository.
  rewrite Hvalid, forced_code, Hraise, at_boundary_unexpected by assumption.
  reflexivity.
Qed.

Lemma search_hides_unexpected_errors_witness :
  search_service_search_repository exact_np failing_embeddings stocked_disk plain_core
    "https://github.com/pallets/flask" "request object" "code" = Raise quota_error /\
  RepositorySearch_post exact_np failing_embeddings stocked_disk plain_core empty_world
    flask_search_request =
  (error_response "Repository search failed due to unexpected error" "SERVICE_ERROR" 500,
   empty_world).
Proof.
  assert (H : search_service_search_repository exact_np failing_embeddings stocked_disk
                plain_core "https://github.com/pallets/flask" "request object" "code"
              = Raise quota_error) by (vm_compute; reflexivity).
  split; [exact H |].
  apply (search_hides_unexpected_errors exact_np failing_embeddings stocked_disk plain_core
           empty_world flask_search_request flask "request object"%string "code"%string
           quota_error eq_refl H eq_refl eq_refl).
Defined.

(** X22. The search resource answers 200 with data, or an error with
    status 400, 404 or 500; it answers 404 exactly when the error code is
    [INDEX_NOT_FOUND], and a 400 answer carries the code
    [VALIDATION_ERROR].  It never changes the job store. *)
Theorem search_resource_status_codes :
  forall np embeddings disk core w data,
    let '(response, w') := RepositorySearch_post np embeddings disk core w data in
    w' = w /\
    match response with
    | success_response d _ c => c = 200%Z /\ is_Some d
    | error_response _ code c =>
      (c = 400 \/ c = 404 \/ c = 500)%Z /\
      (c = 404%Z <-> code = "INDEX_NOT_FOUND"%string) /\
      (c = 400%Z -> code = "VALIDATION_ERROR"%string)
    end.
Proof.
  intros np embeddings disk core w data. unfold RepositorySearch_post.
  destruct (search_repository np embeddings disk core data) as [r | e] eqn:Hres.
  - split; [reflexivity |]. split; [reflexivity |].
    unfold search_repository in Hres.
    destruct (validate_search_request core data) as [[[n q] t] | e]; [| discriminate].
    destruct (search_service_search_repository _ _ _ _ _ _ _); [| discriminate].
    injection Hres as <-. cbn. eauto.
  - destruct (isinstance e ValidationErrorC) eqn:Hv.
    + split; [reflexivity |]. split; [auto |]. split; [| reflexivity].
      split; discriminate.
    + destruct (isinstance e ServiceErrorC) eqn:Hs.
      * split; [reflexivity |]. cbv zeta.
        destruct (bool_decide (exn_code e = Some "INDEX_NOT_FOUND"%string)) eqn:Hcode.
        -- apply bool_decide_eq_true in Hcode. split; [auto |]. split; [| discriminate].
           split; [| reflexivity]. intros _.
           now apply error_code_or_not_found.
        -- apply bool_decide_eq_false in Hcode. split; [auto |]. split; [| discriminate].
           split; [discriminate |]. intros Hc. exfalso. apply Hcode.
           now apply (error_code_or_not_found e "SERVICE_ERROR").
      * split; [reflexivity |]. split; [auto |]. split; [| discriminate].
        split; discriminate.
Qed.

Lemma search_resource_status_codes_witness :
  exists message code,
    RepositorySearch_post exact_np constant_embeddings blank_disk plain_core empty_world
      flask_search_request = (error_response message code 404, empty_world) /\
    code = "INDEX_NOT_FOUND"%string.
Proof.
  pose proof (search_resource_status_codes exact_np constant_embeddings blank_disk
                plain_core empty_world flask_search_request) as H.
  assert (Hpost : exists message code,
            RepositorySearch_post exact_np constant_embeddings blank_disk plain_core
              empty_world flask_search_request
            = (error_response message code 404, empty_world))
    by (eexists _, _; reflexivity).
  destruct Hpost as (message & code & Hpost). rewrite Hpost in H.
  destruct H as (_ & _ & Hcode & _).
  exists message, code. split; [exact Hpost |]. now apply Hcode.
Defined.

(** X23. An index request that fails validation starts nothing: the job
    store and the started pipelines are as before.  A validation error is
    answered 400 with the validator's message and the code
    [VALIDATION_ERROR]; an unexpected error of the validator is answered 500
    with the code [SERVICE_ERROR] and a fixed message. *)
Theorem invalid_index_request_starts_nothing :
  forall core w now data callback_url user_id e,
    validate_repo_url core data = Raise e ->
    exists response,
      RepositoryIndex_post core w now data callback_url user_id = (response, w) /\
      (isinstance e ValidationErrorC = true ->
       response = error_response (exn_msg e) "VALIDATION_ERROR" 400) /\
      (isinstance e ValidationErrorC = false ->
       isinstance e ServiceErrorC = false ->
       response = error_response "Repository indexing failed due to unexpected error"
                    "SERVICE_ERROR" 500).
Proof.
  intros core w now data callback_url user_id e Hvalid.
  unfold RepositoryIndex_post, process_index_request. rewrite Hvalid.
  unfold at_boundary.
  destruct (isinstance e ValidationErrorC) eqn:Hv; cbn [orb].
  - rewrite Hv. eexists. split; [reflexivity |]. split; [reflexivity | discriminate].
  - destruct (isinstance e ServiceErrorC) eqn:Hs.
    + rewrite Hv, Hs. eexists. split; [reflexivity |]. split; discriminate.
    + eexists. split; [reflexivity |]. split; [discriminate |]. reflexivity.
Qed.

Lemma invalid_index_request_starts_nothing_witness :
  RepositoryIndex_post strict_core indexing_world "2024-07-22T11:20:00Z" flask_index_request
    None None =
  (error_response "유효하지 않은 저장소 URL입니다." "VALIDATION_ERROR" 400, indexing_world).
Proof.
  destruct (invalid_index_request_starts_nothing strict_core indexing_world
              "2024-07-22T11:20:00Z"%string flask_index_request None None
              (Py.new ValidationErrorC "유효하지 않은 저장소 URL입니다.") eq_refl)
    as (response & Hpost & Hvalid & _).
  rewrite Hpost, (Hvalid eq_refl). reflexivity.
Defined.

(** X24. The status resource answers 200 or 202 with data that names the
    repository and repeats the status of its job, 200 exactly for a
    completed job; or an error with status 404, 409 or 500 and no data.  It
    never changes the job store. *)
Theorem status_resource_status_codes :
  forall w repo,
    let '(response, w') := RepositoryStatus_get w repo in
    w' = w /\
    match response with
    | success_response d _ c =>
      (c = 200 \/ c = 202)%Z /\
      exists data,
        d = Some data /\ analysis_id data = repo /\ repo_name data = repo /\
        rd_status data = sd_status (get_repository_status_data w repo) /\
        (c = 200%Z <-> rd_status data = "completed"%string)
    | error_response _ _ c => (c = 404 \/ c = 409 \/ c = 500)%Z
    end.
Proof.
  intros w repo. unfold RepositoryStatus_get, get_repository_status.
  set (st := sd_status (get_repository_status_data w repo)).
  destruct (String.eqb st "not_indexed") eqn:H1; [cbn; auto |].
  destruct (String.eqb st "failed") eqn:H2; [cbn; auto |].
  destruct (String.eqb st "pending" || String.eqb st "indexing") eqn:H3.
  - cbn. split; [reflexivity |]. split; [auto |]. eexists.
    split; [reflexivity |]. cbn. split; [reflexivity |]. split; [reflexivity |].
    split; [reflexivity |]. split; [discriminate |].
    fold st. intros Hc. exfalso. apply orb_prop in H3.
    destruct H3 as [H3 | H3]; apply String.eqb_eq in H3; rewrite H3 in Hc; discriminate.
  - destruct (String.eqb st "completed") eqn:H4; [| cbn; auto].
    cbn. split; [reflexivity |]. split; [auto |]. eexists.
    split; [reflexivity |]. cbn. split; [reflexivity |]. split; [reflexivity |].
    split; [reflexivity |]. split; [| reflexivity].
    intros _. fold st. now apply String.eqb_eq.
Qed.

Lemma status_resource_status_codes_witness :
  exists data message,
    RepositoryStatus_get indexing_world flask
      = (success_response (Some data) message 202, indexing_world) /\
    repo_name data = flask.
Proof.
  pose proof (status_resource_status_codes indexing_world flask) as H.
  assert (Hget : exists d message,
            RepositoryStatus_get indexing_world flask
            = (success_response d message 202, indexing_world))
    by (eexists _, _; reflexivity).
  destruct Hget as (d & message & Hget). rewrite Hget in H.
  destruct H as (_ & _ & data & -> & _ & Hname & _).
  exists data, message. split; [exact Hget | exact Hname].
Defined.

(** ** The text methods *)

Section TextFacts.

Lemma truthy_Some (o : option string) :
  truthy o = true <-> exists s, o = Some s /\ s <> ""%string.
Proof.
  destruct o as [s |]; cbn.
  - rewrite negb_true_iff, String.eqb_neq. split; [eauto |]. now intros (s' & [= ->] & H).
  - split; [discriminate | now intros (s & ? & _)].
Qed.

Lemma text_error_status {D} (internal_message : string) (e : exn) :
  let r := @text_error D internal_message e in
  (http_status r = 400 \/ http_status r = 500)%Z /\
  (isinstance e ValidationErrorC = true ->
   r = error_response (exn_msg e) "VALIDATION_ERROR" 400) /\
  (isinstance e ValidationErrorC = false -> http_status r = 500%Z).
Proof.
  unfold text_error. destruct (isinstance e ValidationErrorC); cbn.
  - repeat split; auto. discriminate.
  - destruct (isinstance e ServiceErrorC); cbn; repeat split; auto; discriminate.
Qed.

End TextFacts.

(** X25. A README whose summarisation yields nothing is not an error:
    for a request with a repository name and a content, when the summariser
    returns (a summary, an empty one or none) and the fallback description
    is available, the resource answers 200.  The response reports the length
    of the content and the length of the summary it carries; it is marked
    [is_fallback] exactly when the summariser returned no text, and then
    carries the fallback description. *)
Theorem readme_summary_falls_back_instead_of_failing :
  forall texts data name content s fallback,
    rr_repo_name data = Some name -> name <> ""%string ->
    rr_readme_content data = Some content -> content <> ""%string ->
    readme_summarizer_summarize_readme texts name content = Return s ->
    create_fallback_description texts name = Return fallback ->
    exists d message,
      ReadmeSummary_post texts data = success_response (Some d) message 200 /\
      rs_repo_name d = name /\
      rs_original_length d = len texts content /\
      rs_summary_length d = len texts (rs_summary d) /\
      (rs_is_fallback d = false <-> s = Some (rs_summary d) /\ rs_summary d <> ""%string) /\
      (rs_is_fallback d = true -> rs_summary d = fallback).
Proof.
  intros texts data name content s fallback Hname Hn Hcontent Hc Hsum Hfb.
  unfold ReadmeSummary_post, summarize_readme. rewrite Hname, Hcontent.
  apply String.eqb_neq in Hn, Hc. cbn. rewrite Hn, Hc. cbn. rewrite Hsum.
  destruct (truthy s) eqn:Ht.
  - apply truthy_Some in Ht. destruct Ht as (text & -> & Htext).
    eexists _, _. split; [reflexivity |]. cbn. repeat split; auto. discriminate.
  - rewrite Hfb. eexists _, _. split; [reflexivity |]. cbn.
    repeat split; auto; try discriminate.
    intros [-> Hne]. cbn in Ht. apply negb_false_iff, String.eqb_eq in Ht. contradiction.
Qed.

Lemma readme_summary_falls_back_instead_of_failing_witness :
  exists d message,
    ReadmeSummary_post silent_texts flask_readme_request
      = success_response (Some d) message 200 /\
    rs_is_fallback d = true /\ rs_summary d = "pallets/flask repository"%string.
Proof.
  destruct (readme_summary_falls_back_instead_of_failing silent_texts flask_readme_request
              flask "# Flask"%string None "pallets/flask repository"%string
              eq_refl ltac:(discriminate) eq_refl ltac:(discriminate) eq_refl eq_refl)
    as (d & message & Hpost & _ & _ & _ & Hfalse & Htrue).
  exists d, message. split; [exact Hpost |].
  assert (Hfb : rs_is_fallback d = true).
  { destruct (rs_is_fallback d); [reflexivity |].
    destruct (proj1 Hfalse eq_refl) as [Hs _]. discriminate. }
  split; [exact Hfb | exact (Htrue Hfb)].
Defined.

(** X26. The translation resource answers 200 only with a translation
    that is not empty, of the stripped text, which is not empty either, in
    the requested languages ([auto] and [ko] by default).  A text that is
    empty after stripping is answered 400 with [VALIDATION_ERROR], whatever
    the translator would do; a translator that returns nothing is answered
    500 with [TRANSLATION_FAILED]. *)
Theorem translation_succeeds_only_with_text :
  forall texts data,
    let text := strip texts (default "" (tr_text data)) in
    let source := default "auto"%string (tr_source_language data) in
    let target := default "ko"%string (tr_target_language data) in
    match Translation_post texts data with
    | success_response d _ c =>
      c = 200%Z /\ text <> ""%string /\
      exists translated,
        translated <> ""%string /\
        translator_translate_text texts text source target = Return (Some translated) /\
        d = Some {| td_original_text := text; td_translated_text := translated;
                    td_source_language := source; td_target_language := target |}
    | error_response _ code c =>
      (c = 400 \/ c = 500)%Z /\
      (text = ""%string -> c = 400%Z /\ code = "VALIDATION_ERROR"%string) /\
      (text <> ""%string ->
       forall o, translator_translate_text texts text source target = Return o ->
                 truthy o = false ->
                 c = 500%Z /\ code = "TRANSLATION_FAILED"%string)
    end.
Proof.
  intros texts data text source target.
  unfold Translation_post, translate_text. fold text source target.
  destruct (String.eqb text "") eqn:Htext.
  - apply String.eqb_eq in Htext. cbn. repeat split; auto; contradiction.
  - apply String.eqb_neq in Htext.
    destruct (translator_translate_text texts text source target) as [o | e] eqn:Htr.
    + destruct (truthy o) eqn:Ht.
      * apply truthy_Some in Ht. destruct Ht as (translated & -> & Hne).
        cbn. repeat split; auto. exists translated. auto.
      * cbn. repeat split; auto; contradiction.
    + pose proof (at_boundary_class "Translation failed due to unexpected error" e) as Hcls.
      unfold text_error.
      destruct (isinstance (at_boundary _ e) ValidationErrorC) eqn:Hv.
      * repeat split; auto; try contradiction; discriminate.
      * destruct Hcls as [Hcls | Hcls]; [congruence |]. rewrite Hcls.
        repeat split; auto; try contradiction; discriminate.
Qed.

Lemma translation_succeeds_only_with_text_witness :
  exists message code,
    Translation_post silent_texts hello_translation_request
      = error_response message code 500 /\
    code = "TRANSLATION_FAILED"%string.
Proof.
  pose proof (translation_succeeds_only_with_text silent_texts hello_translation_request)
    as H.
  assert (Hpost : exists message code c,
            Translation_post silent_texts hello_translation_request
            = error_response message code c)
    by (eexists _, _, _; reflexivity).
  destruct Hpost as (message & code & c & Hpost). rewrite Hpost in H.
  destruct H as (_ & _ & Hfailed).
  destruct (Hfailed ltac:(discriminate) None eq_refl eq_refl) as [-> ->].
  exists message, "TRANSLATION_FAILED"%string. split; [exact Hpost | reflexivity].
Defined.

(** ** The chatbot *)

Section ChatFacts.

Context {R : Type} (strip : string -> string).
Context (answer_question_with_context :
           string -> string -> option string -> option string -> option string ->
           list message -> chat_outcome R).

(** The checks of one round of the loop of [validate_messages]. *)
Lemma validate_from_cons (i : nat) (m : message) (rest : list message) :
  (well_formed m /\ validate_from (S i) rest = validate_from i (m :: rest)) \/
  (~ well_formed m /\
   exists what,
     validate_from i (m :: rest) =
     Raise (Py.new ValidationErrorC
              (String.append "Message " (String.append (str i) what)))).
Proof.
  destruct m as [fields |].
  2:{ right. split; [intros (f & [=] & _) |]. eexists. reflexivity. }
  cbn [validate_from].
  destruct (fields !! "role"%string) as [role |] eqn:Hrole.
  2:{ right. split.
      - intros (f & [= <-] & _ & [H | H]); rewrite Hrole in H; discriminate.
      - rewrite bool_decide_eq_false_2 by (intros [? ?]; discriminate).
        eexists. reflexivity. }
  rewrite bool_decide_eq_true_2 by eauto. cbn [negb].
  destruct (fields !! "content"%string) as [content |] eqn:Hcontent.
  2:{ right. split.
      - intros (f & [= <-] & [? H] & _). rewrite Hcontent in H. discriminate.
      - rewrite bool_decide_eq_false_2 by (intros [? ?]; discriminate).
        eexists. reflexivity. }
  rewrite bool_decide_eq_true_2 by eauto. cbn [negb].
  change (default PNone (Some role)) with role.
  destruct (bool_decide (role ∈ [PStr "user"; PStr "assistant"])) eqn:Hin.
  - left. apply bool_decide_eq_true in Hin. split; [| reflexivity].
    exists fields. split; [reflexivity |]. split; [eauto |].
    rewrite Hrole. apply elem_of_cons in Hin. destruct Hin as [-> | Hin]; [now left |].
    apply elem_of_cons in Hin. destruct Hin as [-> | Hin]; [now right |].
    inversion Hin.
  - right. apply bool_decide_eq_false in Hin. split.
    + intros (f & [= <-] & _ & [H | H]); rewrite Hrole in H; injection H as ->;
        apply Hin; repeat constructor.
    + eexists. reflexivity.
Qed.

Lemma validate_from_spec (ms : list message) :
  forall i,
    (validate_from i ms = Return true <-> Forall well_formed ms) /\
    validate_from i ms <> Return false /\
    (forall e,
       validate_from i ms = Raise e ->
       isinstance e ValidationErrorC = true /\
       exists k m what,
         ms !! k = Some m /\ ~ well_formed m /\ Forall well_formed (take k ms) /\
         exn_msg e = String.append "Message " (String.append (str (i + k)) what)).
Proof.
  induction ms as [| m rest IH]; intros i.
  - cbn. repeat split; auto; discriminate.
  - destruct (IH (S i)) as (IHok & IHfalse & IHraise).
    destruct (validate_from_cons i m rest) as [[Hm Heq] | [Hm [what Heq]]].
    + rewrite <- Heq. split; [| split].
      * rewrite IHok. split; [now constructor | now inversion 1].
      * exact IHfalse.
      * intros e He. destruct (IHraise e He) as (Hcls & k & m' & what & Hk & Hbad & Hgood & Hmsg).
        split; [exact Hcls |]. exists (S k), m', what.
        split; [exact Hk |]. split; [exact Hbad |]. split; [now constructor |].
        now replace (i + S k) with (S i + k) by lia.
    + rewrite Heq. split; [| split].
      * split; [discriminate | now inversion 1].
      * discriminate.
      * intros e [= <-]. split; [reflexivity |]. exists 0, m, what.
        split; [reflexivity |]. split; [exact Hm |]. split; [constructor |].
        now rewrite Nat.add_0_r.
Qed.

(** The service raises validation and service errors only. *)
Lemma ask_repository_question_failure (data : ChatRequest) (e : chat_exn) :
  ask_repository_question strip answer_question_with_context data = Failed e ->
  exists e',
    e = PyExn e' /\
    (isinstance e' ValidationErrorC = true \/ isinstance e' ServiceErrorC = true).
Proof.
  unfold ask_repository_question, validation.
  destruct (cr_repo_name data) as [repo |]; [| intros [= <-]; eauto].
  destruct (cr_messages data) as [ms |]; [| intros [= <-]; eauto].
  destruct (String.eqb repo "" || is_empty ms); [intros [= <-]; eauto |].
  destruct (forallb is_dict ms); cbn [negb]; [| intros [= <-]; eauto].
  destruct (last (List.filter is_user ms)) as [[fields |] |];
    [| intros [= <-]; eauto | intros [= <-]; eauto].
  destruct (default (PStr "") (fields !! "content"%string)) as [| question |];
    [intros [= <-]; eauto | | intros [= <-]; eauto].
  destruct (String.eqb (strip question) ""); [intros [= <-]; eauto |].
  destruct (answer_question_with_context _ _ _ _ _ _) as [r | [msg | e']];
    [discriminate | |]; intros [= <-]; cbn [chat_boundary].
  - eexists. split; [reflexivity |]. now right.
  - eexists. split; [reflexivity |]. apply at_boundary_class.
Qed.

Lemma filter_is_user_last (before after : list message) (m : message) :
  is_user m = true ->
  forallb (fun m' => negb (is_user m')) after = true ->
  last (List.filter is_user (before ++ m :: after)) = Some m.
Proof.
  intros Hm Hafter. rewrite List.filter_app. cbn [List.filter]. rewrite Hm.
  assert (Hnone : List.filter is_user after = []).
  { induction after as [| a after IH]; [reflexivity |].
    cbn in Hafter. apply andb_prop in Hafter. destruct Hafter as [Ha Hafter].
    cbn. apply negb_true_iff in Ha. rewrite Ha. now apply IH. }
  rewrite Hnone. apply last_snoc.
Qed.

(** The question of a request whose last user message has a text. *)
Lemma ask_repository_question_last_user data repo before fields after question :
  cr_repo_name data = Some repo -> repo <> ""%string ->
  cr_messages data = MList (before ++ MDict fields :: after) ->
  forallb is_dict (before ++ after) = true ->
  fields !! "role"%string = Some (PStr "user") ->
  fields !! "content"%string = Some (PStr question) ->
  strip question <> ""%string ->
  forallb (fun m => negb (is_user m)) after = true ->
  ask_repository_question strip answer_question_with_context data =
  match answer_question_with_context repo question (cr_readme_filename data)
          (cr_license_filename data) (cr_contributing_filename data)
          (before ++ MDict fields :: after) with
  | Answered result => Answered (result, 200%Z)
  | Failed e => Failed (chat_boundary e)
  end.
Proof.
  intros Hrepo Hne Hms Hdict Hrole Hcontent Hq Hafter.
  unfold ask_repository_question. rewrite Hrepo, Hms.
  apply String.eqb_neq in Hne, Hq. rewrite Hne.
  assert (Hnonempty : is_empty (before ++ MDict fields :: after) = false)
    by (now destruct before).
  rewrite Hnonempty. cbn [orb].
  assert (Hall : forallb is_dict (before ++ MDict fields :: after) = true).
  { rewrite forallb_app in *. cbn. apply andb_prop in Hdict. destruct Hdict as [-> ->].
    reflexivity. }
  rewrite Hall. cbn [negb].
  rewrite (filter_is_user_last before after (MDict fields)); [| | exact Hafter].
  2:{ cbn. now rewrite Hrole, bool_decide_eq_true_2. }
  rewrite Hcontent.
  change (default (PStr "") (Some (PStr question))) with (PStr question).
  cbv beta iota. rewrite Hq. reflexivity.
Qed.

End ChatFacts.

(** X27. [validate_messages] accepts a list exactly when every message is
    an object with a [content] field and the role [user] or [assistant].
    Otherwise it raises a [ValidationError] whose text names the position
    of the first message that is not; it never returns [False]. *)
Theorem validate_messages_names_first_invalid_message :
  forall ms,
    (validate_messages (MList ms) = Return true <-> Forall well_formed ms) /\
    validate_messages (MList ms) <> Return false /\
    (forall e,
       validate_messages (MList ms) = Raise e ->
       isinstance e ValidationErrorC = true /\
       exists k m what,
         ms !! k = Some m /\ ~ well_formed m /\ Forall well_formed (take k ms) /\
         exn_msg e = String.append "Message " (String.append (str k) what)).
Proof. intros ms. exact (validate_from_spec ms 0). Qed.

(** X28. The chatbot resource never answers 404.  Every answer is 200,
    400 or 500; when the context service does not find a file, the
    [FileNotFoundError] reaches the resource as a service error and is
    answered 500 with its text. *)
Theorem chatbot_resource_never_answers_not_found :
  forall (R : Type) strip
         (answer_question_with_context :
            string -> string -> option string -> option string -> option string ->
            list message -> chat_outcome R) data,
    let answer := AskRepositoryQuestion_post strip answer_question_with_context data in
    (answer_status answer = 200 \/ answer_status answer = 400 \/
     answer_status answer = 500)%Z /\
    (forall repo before fields after question msg,
       cr_repo_name data = Some repo -> repo <> ""%string ->
       cr_messages data = MList (before ++ MDict fields :: after) ->
       forallb is_dict (before ++ after) = true ->
       fields !! "role"%string = Some (PStr "user") ->
       fields !! "content"%string = Some (PStr question) ->
       strip question <> ""%string ->
       forallb (fun m => negb (is_user m)) after = true ->
       answer_question_with_context repo question (cr_readme_filename data)
         (cr_license_filename data) (cr_contributing_filename data)
         (before ++ MDict fields :: after) = Failed (FileNotFoundError msg) ->
       answer = abort 500 msg).
Proof.
  intros R strip ctx data answer. subst answer. unfold AskRepositoryQuestion_post. split.
  - destruct (ask_repository_question strip ctx data) as [[r c] | e] eqn:Hask;
      [now left |].
    destruct (ask_repository_question_failure strip ctx data e Hask) as (e' & -> & Hcls).
    destruct (isinstance e' ValidationErrorC); [cbn; auto |].
    destruct (isinstance e' ServiceErrorC); cbn; auto.
  - intros repo before fields after question msg
           Hrepo Hne Hms Hdict Hrole Hcontent Hq Hafter Hctx.
    rewrite (ask_repository_question_last_user strip ctx data repo before fields after
               question Hrepo Hne Hms Hdict Hrole Hcontent Hq Hafter), Hctx.
    reflexivity.
Qed.

Lemma chatbot_resource_never_answers_not_found_witness :
  AskRepositoryQuestion_post (fun s => s) missing_file_context flask_chat_request
    = abort 500 "README.md not found".
Proof.
  apply (chatbot_resource_never_answers_not_found string (fun s => s) missing_file_context
           flask_chat_request)
    with (repo := flask)
         (before := [user_says "what is flask?"; assistant_says "a framework"])
         (fields := list_to_map [("role"%string, PStr "user");
                                 ("content"%string, PStr "who wrote it?")])
         (after := [assistant_says "..."]) (question := "who wrote it?"%string);
    solve [reflexivity | discriminate].
Defined.

Lemma validate_messages_names_first_invalid_message_witness :
  validate_messages (MList conversation) = Return true /\
  exists e, validate_messages (MList [user_says "hello"; MOther]) = Raise e /\
            isinstance e ValidationErrorC = true.
Proof.
  split.
  - apply (validate_messages_names_first_invalid_message conversation).
    repeat constructor; eexists; (split; [reflexivity |]);
      (split; [eexists; reflexivity |]); (now left) || (now right).
  - assert (H : exists e, validate_messages (MList [user_says "hello"; MOther]) = Raise e)
      by (eexists; reflexivity).
    destruct H as [e He]. exists e. split; [exact He |].
    apply (validate_messages_names_first_invalid_message [user_says "hello"; MOther]).
    exact He.
Defined.

(** X29. The question is the most recent user message: for a request
    with a repository name and a list of message objects in which a user
    message with a non-blank text is followed by no other user message, the
    context service is asked that text, with the whole conversation, and its
    answer is returned with the status 200; a missing file becomes a service
    error with the code [FILE_NOT_FOUND] and the same text. *)
Theorem chatbot_asks_the_last_user_message :
  forall (R : Type) strip
         (answer_question_with_context :
            string -> string -> option string -> option string -> option string ->
            list message -> chat_outcome R)
         data repo before fields after question,
    cr_repo_name data = Some repo -> repo <> ""%string ->
    cr_messages data = MList (before ++ MDict fields :: after) ->
    forallb is_dict (before ++ after) = true ->
    fields !! "role"%string = Some (PStr "user") ->
    fields !! "content"%string = Some (PStr question) ->
    strip question <> ""%string ->
    forallb (fun m => negb (is_user m)) after = true ->
    ask_repository_question strip answer_question_with_context data =
    match answer_question_with_context repo question (cr_readme_filename data)
            (cr_license_filename data) (cr_contributing_filename data)
            (before ++ MDict fields :: after) with
    | Answered result => Answered (result, 200%Z)
    | Failed (FileNotFoundError msg) =>
      Failed (PyExn (Exn ServiceErrorC msg None (Some "FILE_NOT_FOUND"%string)))
    | Failed (PyExn e) => Failed (PyExn (at_boundary unexpected_message e))
    end.
Proof.
  intros R strip ctx data repo before fields after question
         Hrepo Hne Hms Hdict Hrole Hcontent Hq Hafter.
  rewrite (ask_repository_question_last_user strip ctx data repo before fields after
             question Hrepo Hne Hms Hdict Hrole Hcontent Hq Hafter).
  destruct (ctx repo question _ _ _ _) as [r | [msg | e]]; reflexivity.
Qed.

Lemma chatbot_asks_the_last_user_message_witness :
  ask_repository_question (fun s => s) echo_context flask_chat_request
    = Answered ("who wrote it?"%string, 200%Z) /\
  ask_repository_question (fun s => s) missing_file_context flask_chat_request
    = Failed (PyExn (Exn ServiceErrorC "README.md not found" None
                       (Some "FILE_NOT_FOUND"%string))).
Proof.
  split.
  - apply (chatbot_asks_the_last_user_message string (fun s => s) echo_context
             flask_chat_request flask
             [user_says "what is flask?"; assistant_says "a framework"]
             (list_to_map [("role"%string, PStr "user");
                           ("content"%string, PStr "who wrote it?")])
             [assistant_says "..."] "who wrote it?"%string
             eq_refl ltac:(discriminate) eq_refl eq_refl eq_refl eq_refl
             ltac:(discriminate) eq_refl).
  - apply (chatbot_asks_the_last_user_message string (fun s => s) missing_file_context
             flask_chat_request flask
             [user_says "what is flask?"; assistant_says "a framework"]
             (list_to_map [("role"%string, PStr "user");
                           ("content"%string, PStr "who wrote it?")])
             [assistant_says "..."] "who wrote it?"%string
             eq_refl ltac:(discriminate) eq_refl eq_refl eq_refl eq_refl
             ltac:(discriminate) eq_refl).
Defined.

(** ** Ranking with floating-point scores *)

Section FloatOrder.

Lemma float_le_numbers (x y : Ieee.float) :
  Ieee.le x y = true -> Ieee.is_nan x = false /\ Ieee.is_nan y = false.
Proof. destruct x, y; cbn; intros H; try discriminate; auto. Qed.

Lemma float_le_trans (x y z : Ieee.float) :
  Ieee.le x y = true -> Ieee.le y z = true -> Ieee.le x z = true.
Proof.
  destruct x as [a | | |], y as [b | | |], z as [c | | |]; cbn; intros H1 H2;
    try discriminate; try reflexivity.
  apply Qle_bool_iff in H1, H2. apply Qle_bool_iff. now apply Qle_trans with b.
Qed.

Lemma float_le_total (x y : Ieee.float) :
  Ieee.is_nan x = false -> Ieee.is_nan y = false ->
  Ieee.le x y = true \/ Ieee.le y x = true.
Proof.
  destruct x as [a | | |], y as [b | | |]; cbn; intros Hx Hy; try discriminate; auto.
  destruct (Qle_bool a b) eqn:Hab; [now left |]. right.
  apply Qle_bool_iff. apply Qlt_le_weak, Qnot_le_lt. intros Hle.
  apply Qle_bool_iff in Hle. congruence.
Qed.

(** NaN is never at or above anything. *)
Lemma float_ge_number (x y : Ieee.float) : Ieee.ge x y = true -> Ieee.is_nan x = false.
Proof. unfold Ieee.ge. intros H. now apply float_le_numbers in H. Qed.

Lemma float_gt_true (x y : Ieee.float) :
  Ieee.gt x y = true -> Ieee.le y x = true /\ Ieee.le x y = false.
Proof.
  unfold Ieee.gt, Ieee.lt. intros H.
  apply andb_prop in H. destruct H as [H Hle]. apply andb_prop in H. destruct H as [Hy Hx].
  apply negb_true_iff in Hx, Hy, Hle. split; [| exact Hle].
  destruct (float_le_total x y Hx Hy) as [H | H]; [congruence | exact H].
Qed.

Lemma float_gt_false (x y : Ieee.float) :
  Ieee.is_nan x = false -> Ieee.is_nan y = false ->
  Ieee.gt x y = false -> Ieee.le x y = true.
Proof.
  unfold Ieee.gt, Ieee.lt. intros Hx Hy. rewrite Hx, Hy. cbn.
  now intros H%negb_false_iff.
Qed.

End FloatOrder.

Section FloatSort.

Context {A : Type}.

Lemma float_insert_desc_perm (x : A * Ieee.float) (l : list (A * Ieee.float)) :
  Ieee.insert_desc x l ≡ₚ x :: l.
Proof.
  induction l as [| y l IH]; simpl; [reflexivity |].
  destruct (Ieee.gt (snd y) (snd x)); [| reflexivity].
  rewrite IH. apply Permutation_swap.
Qed.

Lemma float_sort_desc_perm (l : list (A * Ieee.float)) : Ieee.sort_desc l ≡ₚ l.
Proof.
  induction l as [| x l IH]; simpl; [reflexivity |].
  now rewrite float_insert_desc_perm, IH.
Qed.

Lemma float_insert_desc_sorted (x : A * Ieee.float) (l : list (A * Ieee.float)) :
  Ieee.is_nan (snd x) = false -> Forall (fun p => Ieee.is_nan (snd p) = false) l ->
  StronglySorted Ieee.desc l -> StronglySorted Ieee.desc (Ieee.insert_desc x l).
Proof.
  intros Hx Hl Hs. induction Hs as [| y l Hs IH Hy]; simpl.
  - repeat constructor.
  - apply Forall_cons in Hl. destruct Hl as [Hyn Hl].
    destruct (Ieee.gt (snd y) (snd x)) eqn:Hgt.
    + constructor; [now apply IH |].
      rewrite float_insert_desc_perm. constructor; [| exact Hy].
      unfold Ieee.desc, Ieee.ge. now apply float_gt_true in Hgt.
    + assert (Hyx : Ieee.le (snd y) (snd x) = true) by now apply float_gt_false.
      constructor; [now constructor |].
      constructor; [exact Hyx |].
      eapply Forall_impl; [exact Hy |]. intros z Hz.
      unfold Ieee.desc, Ieee.ge in *. now apply float_le_trans with (snd y).
Qed.

Lemma float_sort_desc_sorted (l : list (A * Ieee.float)) :
  Forall (fun p => Ieee.is_nan (snd p) = false) l -> StronglySorted Ieee.desc (Ieee.sort_desc l).
Proof.
  induction l as [| x l IH]; intros Hl; simpl; [constructor |].
  apply Forall_cons in Hl. destruct Hl as [Hx Hl].
  apply float_insert_desc_sorted; [exact Hx | | now apply IH].
  now rewrite float_sort_desc_perm.
Qed.

(** Insertion leaves a list alone in which no element is less than its
    successor. *)
Lemma float_sort_desc_run (l : list (A * Ieee.float)) :
  Ieee.ascends l = false -> Ieee.sort_desc l = l.
Proof.
  induction l as [| x l IH]; [reflexivity |].
  destruct l as [| y l]; [reflexivity |].
  intros H. change (Ieee.ascends (x :: y :: l))
    with (Ieee.lt (snd x) (snd y) || Ieee.ascends (y :: l)) in H.
  apply orb_false_iff in H. destruct H as [Hxy H].
  change (Ieee.sort_desc (x :: y :: l))
    with (Ieee.insert_desc x (Ieee.sort_desc (y :: l))).
  rewrite (IH H). cbn [Ieee.insert_desc]. unfold Ieee.gt. now rewrite Hxy.
Qed.

Lemma float_firstn_sorted n (l : list (A * Ieee.float)) :
  StronglySorted Ieee.desc l -> StronglySorted Ieee.desc (firstn n l).
Proof.
  intros Hs. revert n. induction Hs as [| x l Hs IH Hx]; intros [| n]; simpl;
    try constructor.
  - apply IH.
  - now apply Forall_take.
Qed.

Lemma float_slice_to_sorted k (l : list (A * Ieee.float)) :
  StronglySorted Ieee.desc l -> StronglySorted Ieee.desc (slice_to l k).
Proof.
  intros Hs. unfold slice_to. destruct (0 <=? k)%Z; now apply float_firstn_sorted.
Qed.

Lemma float_filter_sorted (f : A * Ieee.float -> bool) (l : list (A * Ieee.float)) :
  StronglySorted Ieee.desc l -> StronglySorted Ieee.desc (List.filter f l).
Proof.
  intros Hs. induction Hs as [| x l Hs IH Hx]; simpl; [constructor |].
  destruct (f x); [| exact IH]. constructor; [exact IH |].
  rewrite Forall_forall in Hx |- *. intros y Hy. apply Hx.
  apply list_elem_of_In. apply list_elem_of_In in Hy.
  now apply List.filter_In in Hy.
Qed.

(** Insertion passes only entries that score strictly higher: entries of
    the score of [x] stay behind it. *)
Lemma float_insert_desc_tied (f : Ieee.float -> bool) (x : A * Ieee.float)
    (l : list (A * Ieee.float)) :
  (forall a b, f a = true -> f b = true -> Ieee.gt a b = false) ->
  List.filter (fun p => f (snd p)) (Ieee.insert_desc x l) =
  List.filter (fun p => f (snd p)) (x :: l).
Proof.
  intros Hf. induction l as [| y l IH]; [reflexivity |].
  cbn [Ieee.insert_desc]. destruct (Ieee.gt (snd y) (snd x)) eqn:Hgt; [| reflexivity].
  cbn [List.filter] in *. rewrite IH.
  destruct (f (snd x)) eqn:Hx; [| reflexivity].
  destruct (f (snd y)) eqn:Hy; [| reflexivity].
  rewrite (Hf _ _ Hy Hx) in Hgt. discriminate.
Qed.

Lemma float_sort_desc_tied (f : Ieee.float -> bool) (l : list (A * Ieee.float)) :
  (forall a b, f a = true -> f b = true -> Ieee.gt a b = false) ->
  List.filter (fun p => f (snd p)) (Ieee.sort_desc l) = List.filter (fun p => f (snd p)) l.
Proof.
  intros Hf. induction l as [| x l IH]; [reflexivity |].
  cbn [Ieee.sort_desc]. rewrite float_insert_desc_tied by exact Hf.
  cbn [List.filter]. now rewrite IH.
Qed.

(** What a prefix of a ranking leaves out scores no higher than anything in
    the prefix. *)
Lemma float_sorted_prefix_best (l top : list (A * Ieee.float)) :
  StronglySorted Ieee.desc l -> top `prefix_of` l ->
  exists rest, l = top ++ rest /\
    Forall (fun r => Forall (fun t => Ieee.le (snd r) (snd t) = true) top) rest.
Proof.
  intros Hs [rest ->]. exists rest. split; [reflexivity |].
  induction top as [| t top IH]; simpl in *.
  - apply Forall_forall. intros r _. constructor.
  - apply StronglySorted_inv in Hs. destruct Hs as [Hs Ht].
    specialize (IH Hs). apply Forall_app in Ht. destruct Ht as [_ Ht].
    rewrite Forall_forall in IH, Ht |- *. intros r Hr.
    constructor; [apply Ht, Hr | apply IH, Hr].
Qed.

Lemma slice_to_mono (l : list A) (k k' : Z) :
  (0 <= k <= k')%Z -> slice_to l k `prefix_of` slice_to l k'.
Proof.
  intros [Hk Hk']. unfold slice_to.
  destruct (Z.leb_spec 0 k); [| lia]. destruct (Z.leb_spec 0 k'); [| lia].
  replace (firstn (Z.to_nat k) l) with (take (Z.to_nat k) (take (Z.to_nat k') l))
    by (rewrite take_take; f_equal; lia).
  apply prefix_take.
Qed.

(** On scores that are numbers, this sort is the sort of the embedding in
    rationals. *)
Lemma float_insert_desc_num (x : A * Q) (l : list (A * Q)) :
  Ieee.insert_desc (Ieee.num x) (map Ieee.num l) = map Ieee.num (insert_desc x l).
Proof.
  induction l as [| y l IH]; [reflexivity |].
  cbn [map Ieee.insert_desc insert_desc].
  assert (Hgt : Ieee.gt (snd (Ieee.num y)) (snd (Ieee.num x)) = Np.gt (snd y) (snd x)).
  { unfold Ieee.gt, Ieee.lt, Np.gt. reflexivity. }
  rewrite Hgt. destruct (Np.gt (snd y) (snd x)); [| reflexivity].
  cbn [map]. now rewrite IH.
Qed.

Lemma float_sort_desc_num (l : list (A * Q)) :
  Ieee.sort_desc (map Ieee.num l) = map Ieee.num (sort_desc l).
Proof.
  induction l as [| x l IH]; [reflexivity |].
  cbn [map Ieee.sort_desc sort_desc]. now rewrite IH, float_insert_desc_num.
Qed.

End FloatSort.

(** The stable insertion sort meets what is known of Python's sort. *)
Lemma sort_desc_python_sort : Ieee.python_sort Ieee.sort_desc.
Proof.
  split.
  - apply float_sort_desc_perm.
  - reflexivity.
  - apply float_sort_desc_run.
Qed.

Section FloatSearch.

Context (np : Ieee.NumPy) (sort : Ieee.list_sort) (embeddings : GeminiAPIEmbeddings).

Lemma float_array_length (v : vec) : length (Ieee.array np v) = length v.
Proof. apply length_map. Qed.

Lemma float_cosine_similarity_eq (q v : vec) :
  Ieee.cosine_similarity np (Ieee.array np q) (Ieee.array np v) =
  if Nat.eqb (length q) (length v) then Return (Ieee.score np q v) else Raise shape_error.
Proof.
  unfold Ieee.cosine_similarity, Ieee.dot, Ieee.normalize_vector, Ieee.array.
  rewrite !length_map. reflexivity.
Qed.

(** The scan as a comprehension: the rows that deliver, scored in index
    order, unless one of them has another dimension than the query. *)
Lemma float_scan_rows (vs : FAISS) (ix : FaissIndex) (q : vec) (idxs : list nat) :
  forall acc,
    result (Ieee.scan np vs ix (Ieee.array np q) idxs acc) =
    let rs := omap (row_of vs ix) idxs in
    if forallb (same_dimension q) rs then Return (acc ++ Ieee.scored np q rs)
    else Raise shape_error.
Proof.
  induction idxs as [| idx rest IH]; intros acc; cbn [Ieee.scan omap list_omap].
  - cbn. now rewrite app_nil_r.
  - destruct (index_to_docstore_id vs !! idx) as [id |] eqn:Hid.
    2:{ assert (Hr : row_of vs ix idx = None) by (unfold row_of; now rewrite Hid).
        rewrite Hr. py_result. apply IH. }
    destruct (docstore vs !! id) as [doc |] eqn:Hdoc.
    2:{ assert (Hr : row_of vs ix idx = None) by (unfold row_of; now rewrite Hid, Hdoc).
        rewrite Hr. py_result. apply IH. }
    destruct (reconstruct ix idx) as [v | e] eqn:Hv.
    2:{ assert (Hr : row_of vs ix idx = None) by (unfold row_of; now rewrite Hid, Hdoc, Hv).
        rewrite Hr. py_result. apply IH. }
    assert (Hr : row_of vs ix idx = Some (doc, v))
      by (unfold row_of; now rewrite Hid, Hdoc, Hv).
    rewrite Hr. cbv zeta. py_result. rewrite float_cosine_similarity_eq. cbn [forallb].
    unfold same_dimension at 1. cbn [snd].
    destruct (Nat.eqb (length q) (length v)); cbn [andb]; [| reflexivity].
    rewrite IH. cbv zeta.
    destruct (forallb (same_dimension q) (omap (row_of vs ix) rest)); [| reflexivity].
    cbn. now rewrite <- app_assoc.
Qed.

Lemma float_top_results_of_rows vs ix q k :
  result (Ieee.top_results_of np sort vs ix (Ieee.array np q) k) =
  if forallb (same_dimension q) (rows vs ix)
  then Return (slice_to (sort (Ieee.scored np q (rows vs ix))) k,
               length (sort (Ieee.scored np q (rows vs ix))))
  else Raise shape_error.
Proof.
  unfold Ieee.top_results_of. py_result. rewrite float_scan_rows. cbv zeta.
  fold (rows vs ix).
  destruct (forallb (same_dimension q) (rows vs ix)); py_result; reflexivity.
Qed.

Lemma float_filter_results_result top t :
  result (Ieee.filter_results top t) =
  Return (if Ieee.relaxes top t then Ieee.keep_ge top float_0_1 else Ieee.keep_ge top t).
Proof.
  unfold Ieee.filter_results, Ieee.relaxes.
  destruct (is_empty (Ieee.keep_ge top t) && Np.gt t float_0_1 && negb (is_empty top));
    reflexivity.
Qed.

(** The candidate list of a search. *)
Lemma float_top_k_candidates_rows vs query_text k :
  Ieee.top_k_candidates np sort embeddings vs query_text k =
  if has_embed_query embeddings then
    match embed_query embeddings query_text, index vs with
    | Return q, Some ix =>
      if Nat.eqb (ntotal ix) 0 then None
      else if forallb (same_dimension q) (rows vs ix)
           then Some (slice_to (sort (Ieee.scored np q (rows vs ix))) k)
           else None
    | _, _ => None
    end
  else None.
Proof.
  unfold Ieee.top_k_candidates.
  destruct (has_embed_query embeddings); [| reflexivity].
  destruct (embed_query embeddings query_text) as [q | e]; [| reflexivity].
  destruct (index vs) as [ix |]; [| reflexivity].
  destruct (Nat.eqb (ntotal ix) 0); [reflexivity |].
  rewrite float_top_results_of_rows.
  destruct (forallb (same_dimension q) (rows vs ix)); reflexivity.
Qed.

(** The outcome of a search, step by step. *)
Lemma float_search_documents_result vs query_text top_k t :
  result (Ieee.search_documents np sort embeddings (Some vs) query_text top_k t) =
  if negb (has_embed_query embeddings) then Raise no_embed_query
  else
    match embed_query embeddings query_text with
    | Raise e => if isinstance e EmbeddingErrorC then Raise e else Return []
    | Return q =>
      match index vs with
      | None => Return []
      | Some ix =>
        if Nat.eqb (ntotal ix) 0 then Return []
        else if forallb (same_dimension q) (rows vs ix) then
          let top := slice_to (sort (Ieee.scored np q (rows vs ix))) top_k in
          Return (if Ieee.relaxes top t then Ieee.keep_ge top float_0_1
                  else Ieee.keep_ge top t)
        else Return []
      end
    end.
Proof.
  unfold Ieee.search_documents.
  destruct (negb (has_embed_query embeddings)); [reflexivity |].
  py_result.
  destruct (embed_query embeddings query_text) as [q | e].
  - cbv zeta. destruct (index vs) as [ix |]; [| reflexivity].
    destruct (Nat.eqb (ntotal ix) 0); [reflexivity |].
    py_result. rewrite float_top_results_of_rows.
    destruct (forallb (same_dimension q) (rows vs ix)).
    + py_result. rewrite float_filter_results_result. reflexivity.
    + reflexivity.
  - destruct (isinstance e EmbeddingErrorC); reflexivity.
Qed.

(** A search returns nothing for want of candidates, or its candidates
    filtered. *)
Lemma float_search_documents_cases vs query_text top_k t l :
  result (Ieee.search_documents np sort embeddings (Some vs) query_text top_k t) = Return l ->
  (l = [] /\ Ieee.top_k_candidates np sort embeddings vs query_text top_k = None) \/
  (exists q ix,
     embed_query embeddings query_text = Return q /\
     index vs = Some ix /\
     let top := slice_to (sort (Ieee.scored np q (rows vs ix))) top_k in
     Ieee.top_k_candidates np sort embeddings vs query_text top_k = Some top /\
     l = if Ieee.relaxes top t then Ieee.keep_ge top float_0_1 else Ieee.keep_ge top t).
Proof.
  rewrite float_search_documents_result, float_top_k_candidates_rows.
  destruct (has_embed_query embeddings); cbn [negb]; [| discriminate].
  destruct (embed_query embeddings query_text) as [q | e].
  2:{ destruct (isinstance e EmbeddingErrorC); [discriminate |]. intros [= <-]. now left. }
  destruct (index vs) as [ix |]; [| intros [= <-]; now left].
  destruct (Nat.eqb (ntotal ix) 0); [intros [= <-]; now left |].
  destruct (forallb (same_dimension q) (rows vs ix)); [| intros [= <-]; now left].
  cbv zeta. intros [= <-]. right. exists q, ix. auto.
Qed.

Lemma float_keep_ge_numbers (top : list (Document * Ieee.float)) (u : Q) :
  Forall (fun p => Ieee.is_nan (snd p) = false) (Ieee.keep_ge top u).
Proof.
  apply Forall_forall. intros p Hp. unfold Ieee.keep_ge in Hp.
  apply list_elem_of_In, List.filter_In in Hp. destruct Hp as [_ Hp].
  now apply float_ge_number in Hp.
Qed.

Lemma float_scored_numbers (q : vec) (rs : list (Document * vec)) :
  Ieee.numeric np q rs ->
  Forall (fun p => Ieee.is_nan (snd p) = false) (Ieee.scored np q rs).
Proof.
  unfold Ieee.numeric, Ieee.scored. intros H. apply Forall_forall. intros p Hp.
  apply list_elem_of_In, in_map_iff in Hp. destruct Hp as (r & <- & Hr).
  rewrite Forall_forall in H. apply H. now apply list_elem_of_In.
Qed.

(** When no score is NaN, the ranking is the stable descending one. *)
Lemma float_ranking_sorted (q : vec) (rs : list (Document * vec)) :
  Ieee.python_sort sort -> Ieee.numeric np q rs ->
  sort (Ieee.scored np q rs) = Ieee.sort_desc (Ieee.scored np q rs) /\
  StronglySorted Ieee.desc (sort (Ieee.scored np q rs)).
Proof.
  intros Hsort Hnum. apply float_scored_numbers in Hnum.
  rewrite (Ieee.sort_orders _ Hsort _ Hnum). split; [reflexivity |].
  now apply float_sort_desc_sorted.
Qed.

(** On a ranking in descending order, the threshold step of a longer
    prefix extends that of a shorter one. *)
Lemma float_threshold_step_prefix (top top' : list (Document * Ieee.float)) (t : Q) :
  StronglySorted Ieee.desc top' ->
  top `prefix_of` top' ->
  (if Ieee.relaxes top t then Ieee.keep_ge top float_0_1 else Ieee.keep_ge top t)
    `prefix_of`
  (if Ieee.relaxes top' t then Ieee.keep_ge top' float_0_1 else Ieee.keep_ge top' t).
Proof.
  intros Hs Hp.
  assert (Hfilter : forall u, Ieee.keep_ge top u `prefix_of` Ieee.keep_ge top' u)
    by (intros u; now apply list_filter_prefix).
  destruct (Ieee.relaxes top t) eqn:Hr.
  - assert (Hr' : Ieee.relaxes top' t = true).
    { unfold Ieee.relaxes in *.
      apply andb_prop in Hr. destruct Hr as [Hr Hne].
      apply andb_prop in Hr. destruct Hr as [Hnone Hgt].
      rewrite Hgt. apply is_empty_true in Hnone.
      destruct top as [| p top]; [discriminate |].
      destruct Hp as [rest ->]. cbn [app is_empty negb andb].
      rewrite !andb_true_r. apply is_empty_true.
      unfold Ieee.keep_ge in Hnone. cbn [List.filter] in Hnone.
      destruct (Ieee.ge (snd p) (Ieee.Num t)) eqn:Hp; [discriminate |].
      cbn [app] in Hs. apply StronglySorted_inv in Hs. destruct Hs as [_ Hall].
      unfold Ieee.keep_ge. cbn [List.filter]. rewrite Hp.
      change (List.filter (fun p0 => Ieee.ge (snd p0) (Ieee.Num t)) (top ++ rest) = []).
      assert (Hbelow : Forall (fun r => Ieee.ge (snd r) (Ieee.Num t) = false) (top ++ rest)).
      { eapply Forall_impl; [exact Hall |]. intros r Hd.
        destruct (Ieee.ge (snd r) (Ieee.Num t)) eqn:Hr; [| reflexivity].
        unfold Ieee.desc, Ieee.ge in *.
        rewrite (float_le_trans _ _ _ Hr Hd) in Hp. discriminate. }
      clear -Hbelow. induction Hbelow as [| r l Hr Hl IH]; [reflexivity |].
      cbn [List.filter]. now rewrite Hr. }
    rewrite Hr'. apply Hfilter.
  - destruct (Ieee.relaxes top' t) eqn:Hr'; [| apply Hfilter].
    assert (Hnone : Ieee.keep_ge top' t = []).
    { unfold Ieee.relaxes in Hr'. apply andb_prop in Hr'. destruct Hr' as [Hr' _].
      apply andb_prop in Hr'. destruct Hr' as [Hnone _]. now apply is_empty_true. }
    specialize (Hfilter t). rewrite Hnone in Hfilter.
    apply prefix_nil_inv in Hfilter. rewrite Hfilter. apply prefix_nil.
Qed.

End FloatSearch.

(** ** The two embeddings of the search

    With primitives that stay within the numbers, the search on floats is
    the search on rationals: the embedding in rationals describes the
    searches in which every score is a number. *)

Section Numbers.

Context (np : Np.NumPy) (sort : Ieee.list_sort) (embeddings : GeminiAPIEmbeddings).

Lemma map_number_num (v : vec) : map Ieee.number (map Ieee.Num v) = v.
Proof. induction v as [| x v IH]; [reflexivity |]. cbn. now rewrite IH. Qed.

Lemma normalize_vector_numbers (v : vec) :
  Ieee.normalize_vector (Ieee.of_numbers np) (map Ieee.Num v)
  = map Ieee.Num (normalize_vector np v).
Proof.
  unfold Ieee.normalize_vector, normalize_vector. cbn. rewrite map_number_num.
  rewrite !map_map. reflexivity.
Qed.

Lemma score_numbers (q v : vec) :
  Ieee.score (Ieee.of_numbers np) q v = Ieee.Num (score np q v).
Proof.
  unfold Ieee.score, score, Ieee.array. cbn [Ieee.float32 Ieee.of_numbers].
  rewrite !normalize_vector_numbers. cbn. now rewrite !map_number_num.
Qed.

Lemma scored_numbers (q : vec) (rs : list (Document * vec)) :
  Ieee.scored (Ieee.of_numbers np) q rs = map Ieee.num (scored np q rs).
Proof.
  unfold Ieee.scored, scored. rewrite map_map. apply map_ext. intros r.
  unfold Ieee.num. cbn [fst snd]. now rewrite score_numbers.
Qed.

Lemma slice_to_map {A B} (f : A -> B) (l : list A) (k : Z) :
  slice_to (map f l) k = map f (slice_to l k).
Proof.
  unfold slice_to. rewrite length_map. destruct (0 <=? k)%Z; apply firstn_map.
Qed.

Lemma keep_ge_numbers (top : list (Document * Q)) (t : Q) :
  Ieee.keep_ge (map Ieee.num top) t = map Ieee.num (keep_ge top t).
Proof.
  induction top as [| p top IH]; [reflexivity |].
  unfold Ieee.keep_ge, keep_ge in *. cbn [map List.filter].
  change (Ieee.ge (snd (Ieee.num p)) (Ieee.Num t)) with (Np.ge (snd p) t).
  destruct (Np.ge (snd p) t); cbn [map]; now rewrite IH.
Qed.

Lemma relaxes_numbers (top : list (Document * Q)) (t : Q) :
  Ieee.relaxes (map Ieee.num top) t = relaxes top t.
Proof.
  unfold Ieee.relaxes, relaxes. rewrite keep_ge_numbers.
  destruct top, (keep_ge _ t); reflexivity.
Qed.

Lemma search_documents_numbers (vs : FAISS) (query_text : string) (top_k : Z) (t : Q) :
  Ieee.python_sort sort ->
  result (Ieee.search_documents (Ieee.of_numbers np) sort embeddings (Some vs)
            query_text top_k t) =
  match result (search_documents np embeddings (Some vs) query_text top_k t) with
  | Return l => Return (map Ieee.num l)
  | Raise e => Raise e
  end.
Proof.
  intros Hsort. rewrite float_search_documents_result, search_documents_result.
  destruct (negb (has_embed_query embeddings)); [reflexivity |].
  destruct (embed_query embeddings query_text) as [q | e];
    [| destruct (isinstance e EmbeddingErrorC); reflexivity].
  destruct (index vs) as [ix |]; [| reflexivity].
  destruct (Nat.eqb (ntotal ix) 0); [reflexivity |].
  rewrite top_results_of_rows.
  destruct (forallb (same_dimension q) (rows vs ix)); [| reflexivity].
  cbv zeta. rewrite scored_numbers.
  rewrite (Ieee.sort_orders _ Hsort).
  2:{ apply Forall_forall. intros p Hp.
      apply list_elem_of_In, in_map_iff in Hp. now destruct Hp as (r & <- & _). }
  rewrite float_sort_desc_num, slice_to_map, relaxes_numbers, !keep_ge_numbers.
  destruct (relaxes _ t); reflexivity.
Qed.

End Numbers.

(** C7 (as amended). Whatever a search returns holds no NaN score, is a
    sublist of the top-k candidates (the filters remove entries without
    adding or reordering any) and has at most [top_k] entries when [top_k]
    is not negative.  It is in descending order of score when no row of the
    index scores NaN against the query: only then does Python's sort rank
    the rows. *)
Theorem search_result_sorted_and_bounded :
  forall np sort embeddings vector_store query_text top_k t l,
    result (Ieee.search_documents np sort embeddings vector_store query_text top_k t)
      = Return l ->
    Forall (fun p => Ieee.is_nan (snd p) = false) l /\
    ((0 <= top_k)%Z -> (Z.of_nat (length l) <= top_k)%Z) /\
    (forall vs top,
       vector_store = Some vs ->
       Ieee.top_k_candidates np sort embeddings vs query_text top_k = Some top ->
       sublist l top) /\
    (Ieee.python_sort sort ->
     (forall vs ix q,
        vector_store = Some vs -> index vs = Some ix ->
        embed_query embeddings query_text = Return q ->
        Ieee.numeric np q (rows vs ix)) ->
     StronglySorted Ieee.desc l).
Proof.
  intros np sort embeddings [vs |] query_text top_k t l Hres.
  2:{ injection Hres as <-. split; [constructor |]. split; [simpl; lia |].
      split; [discriminate | intros _ _; constructor]. }
  destruct (float_search_documents_cases _ _ _ _ _ _ _ _ Hres)
    as [[-> Hnone] | (q & ix & Hq & Hix & Htop & ->)].
  - split; [constructor |]. split; [simpl; lia |].
    split; [| intros _ _; constructor].
    intros vs' top [= <-] Hc. congruence.
  - cbv zeta in Htop.
    set (top := slice_to (sort (Ieee.scored np q (rows vs ix))) top_k) in *.
    assert (Hl : exists u,
              (if Ieee.relaxes top t then Ieee.keep_ge top float_0_1
               else Ieee.keep_ge top t) = Ieee.keep_ge top u)
      by (destruct (Ieee.relaxes top t); eauto).
    destruct Hl as [u ->].
    split; [apply float_keep_ge_numbers |]. split; [| split].
    + intros Hk.
      pose proof (slice_to_length top_k (sort (Ieee.scored np q (rows vs ix))) Hk).
      pose proof (filter_length_le (fun p => Ieee.ge (snd p) (Ieee.Num u)) top).
      unfold Ieee.keep_ge. fold top in H. lia.
    + intros vs' top' [= <-] Hc. rewrite Htop in Hc. injection Hc as <-.
      apply list_filter_sublist.
    + intros Hsort Hnum. apply float_filter_sorted, float_slice_to_sorted.
      now apply float_ranking_sorted, (Hnum vs ix q).
Qed.

Lemma search_result_sorted_and_bounded_witness :
  exists l,
    result (Ieee.search_documents ieee_np Ieee.sort_desc constant_embeddings (Some store3)
              "q" 2 float_0_5) = Return l /\
    length l = 2 /\ StronglySorted Ieee.desc l.
Proof.
  assert (H : exists l,
            result (Ieee.search_documents ieee_np Ieee.sort_desc constant_embeddings
                      (Some store3) "q" 2 float_0_5) = Return l /\ length l = 2)
    by (eexists; split; vm_compute; reflexivity).
  destruct H as (l & H & Hlen). exists l. split; [exact H |]. split; [exact Hlen |].
  apply (search_result_sorted_and_bounded ieee_np Ieee.sort_desc constant_embeddings
           (Some store3) "q"%string 2%Z float_0_5 l H).
  - exact sort_desc_python_sort.
  - intros vs ix q [= <-] [= <-] [= <-]. repeat constructor.
Defined.

(** A stored vector with a component beyond float32 scores NaN, and
    Python's sort leaves the scores 3/5, NaN, 1 as they are, whatever it
    does on other lists: the search returns the row at 3/5 before the row
    at 1. *)
Lemma overflow_ranking (sort : Ieee.list_sort) :
  Ieee.python_sort sort ->
  result (Ieee.search_documents ieee_np sort constant_embeddings (Some overflow_store)
            "q" 3 float_0_5)
  = Return [(doc "three fifths", Ieee.Num (375 # 625)); (doc "one", Ieee.Num 1)].
Proof.
  intros Hsort. rewrite float_search_documents_result.
  change (has_embed_query constant_embeddings) with true.
  change (embed_query constant_embeddings "q") with (@Return vec unit_x).
  cbn [negb index overflow_store].
  set (ix := {| d := 4; xb := _ |}).
  assert (Hn : Nat.eqb (ntotal ix) 0 = false) by reflexivity.
  assert (Hdim : forallb (same_dimension unit_x) (rows overflow_store ix) = true)
    by reflexivity.
  assert (Hscored : Ieee.scored ieee_np unit_x (rows overflow_store ix) =
                    [(doc "three fifths", Ieee.Num (375 # 625));
                     (doc "overflow", Ieee.NaN); (doc "one", Ieee.Num 1)])
    by (vm_compute; reflexivity).
  rewrite Hn, Hdim, Hscored. cbv zeta.
  rewrite (Ieee.sort_keeps_runs _ Hsort) by reflexivity.
  vm_compute. reflexivity.
Qed.

Lemma search_nan_score_counterexample :
  ~ (forall sort l,
       Ieee.python_sort sort ->
       result (Ieee.search_documents ieee_np sort constant_embeddings (Some overflow_store)
                 "q" 3 float_0_5) = Return l ->
       StronglySorted Ieee.desc l).
Proof.
  intros H.
  specialize (H Ieee.sort_desc _ sort_desc_python_sort
                (overflow_ranking _ sort_desc_python_sort)).
  apply StronglySorted_inv in H. destruct H as [_ H].
  apply Forall_cons in H. destruct H as [H _]. vm_compute in H. discriminate.
Qed.

(** X5. When no row scores NaN, the candidates of a search are the best:
    nothing that the cut leaves out scores higher than any candidate.  In
    every case the candidates and what the cut leaves out are a
    rearrangement of all scored rows, and for a [top_k] that is not negative
    there are [top_k] candidates, or all rows if there are fewer. *)
Theorem top_k_candidates_are_the_best :
  forall np sort embeddings vs query_text top_k top,
    Ieee.python_sort sort ->
    Ieee.top_k_candidates np sort embeddings vs query_text top_k = Some top ->
    exists q ix rest,
      embed_query embeddings query_text = Return q /\
      index vs = Some ix /\
      top ++ rest ≡ₚ Ieee.scored np q (rows vs ix) /\
      ((0 <= top_k)%Z -> length top = Nat.min (Z.to_nat top_k) (length (rows vs ix))) /\
      (Ieee.numeric np q (rows vs ix) ->
       Forall (fun r => Forall (fun c => Ieee.le (snd r) (snd c) = true) top) rest).
Proof.
  intros np sort embeddings vs query_text top_k top Hsort.
  rewrite float_top_k_candidates_rows.
  destruct (has_embed_query embeddings); [| discriminate].
  destruct (embed_query embeddings query_text) as [q | e]; [| discriminate].
  destruct (index vs) as [ix |]; [| discriminate].
  destruct (Nat.eqb (ntotal ix) 0); [discriminate |].
  destruct (forallb (same_dimension q) (rows vs ix)); [| discriminate].
  intros [= <-].
  set (ranking := sort (Ieee.scored np q (rows vs ix))).
  destruct (slice_to_prefix ranking top_k) as [rest Hrest].
  exists q, ix, rest. split; [reflexivity |]. split; [reflexivity |].
  split; [| split].
  - rewrite <- Hrest. apply (Ieee.sort_permutes _ Hsort).
  - intros Hk. rewrite slice_to_nonneg_length by exact Hk.
    unfold ranking.
    rewrite (Permutation_length (Ieee.sort_permutes _ Hsort _)).
    unfold Ieee.scored. now rewrite length_map.
  - intros Hnum.
    destruct (float_ranking_sorted np sort q (rows vs ix) Hsort Hnum) as [_ Hs].
    fold ranking in Hs.
    destruct (float_sorted_prefix_best ranking (slice_to ranking top_k) Hs
                (slice_to_prefix _ _)) as (rest' & Hsplit & Hbest).
    rewrite Hrest in Hsplit at 1. apply app_inv_head in Hsplit. now subst rest'.
Qed.

Lemma top_k_candidates_are_the_best_witness :
  exists top rest,
    Ieee.top_k_candidates ieee_np Ieee.sort_desc constant_embeddings store3 "q" 2
      = Some top /\
    length top = 2 /\
    Forall (fun r => Forall (fun c => Ieee.le (snd r) (snd c) = true) top) rest /\
    length (top ++ rest) = 3.
Proof.
  assert (Hc : exists top,
             Ieee.top_k_candidates ieee_np Ieee.sort_desc constant_embeddings store3 "q" 2
             = Some top)
    by (eexists; vm_compute; reflexivity).
  destruct Hc as [top Hc].
  destruct (top_k_candidates_are_the_best _ _ _ _ _ _ _ sort_desc_python_sort Hc)
    as (q & ix & rest & Hq & Hix & Hperm & Hlen & Hbest).
  injection Hix as <-. injection Hq as <-.
  exists top, rest. split; [exact Hc |]. split; [| split].
  - rewrite Hlen by discriminate. reflexivity.
  - apply Hbest. repeat constructor.
  - rewrite Hperm. reflexivity.
Defined.

(** X6. When no row scores NaN, ties are ranked in index order: among the
    candidates of one score, the order is that of their rows in the index. *)
Theorem tied_candidates_keep_index_order :
  forall np sort embeddings vs query_text top_k top,
    Ieee.python_sort sort ->
    Ieee.top_k_candidates np sort embeddings vs query_text top_k = Some top ->
    exists q ix,
      embed_query embeddings query_text = Return q /\
      index vs = Some ix /\
      (Ieee.numeric np q (rows vs ix) ->
       forall s,
         List.filter (Ieee.tied s) top
           `prefix_of` List.filter (Ieee.tied s) (Ieee.scored np q (rows vs ix))).
Proof.
  intros np sort embeddings vs query_text top_k top Hsort.
  rewrite float_top_k_candidates_rows.
  destruct (has_embed_query embeddings); [| discriminate].
  destruct (embed_query embeddings query_text) as [q | e]; [| discriminate].
  destruct (index vs) as [ix |]; [| discriminate].
  destruct (Nat.eqb (ntotal ix) 0); [discriminate |].
  destruct (forallb (same_dimension q) (rows vs ix)); [| discriminate].
  intros [= <-]. exists q, ix. split; [reflexivity |]. split; [reflexivity |].
  intros Hnum s.
  destruct (float_ranking_sorted np sort q (rows vs ix) Hsort Hnum) as [-> _].
  unfold Ieee.tied.
  rewrite <- (float_sort_desc_tied (fun x => Ieee.ge x s && Ieee.ge s x)
                (Ieee.scored np q (rows vs ix))).
  - apply list_filter_prefix, slice_to_prefix.
  - intros a b Ha Hb. apply andb_prop in Ha, Hb.
    destruct Ha as [_ Has], Hb as [Hsb _]. unfold Ieee.ge in *.
    pose proof (float_le_trans _ _ _ Has Hsb) as Hab.
    unfold Ieee.gt, Ieee.lt. rewrite Hab. cbn. now rewrite andb_false_r.
Qed.

Lemma tied_candidates_keep_index_order_witness :
  exists top q ix,
    Ieee.top_k_candidates ieee_np Ieee.sort_desc constant_embeddings tied_store "q" 2
      = Some top /\
    embed_query constant_embeddings "q" = Return q /\
    index tied_store = Some ix /\
    List.filter (Ieee.tied (Ieee.Num (1 # 2))) top
      `prefix_of`
    List.filter (Ieee.tied (Ieee.Num (1 # 2))) (Ieee.scored ieee_np q (rows tied_store ix)).
Proof.
  assert (Hc : exists top,
             Ieee.top_k_candidates ieee_np Ieee.sort_desc constant_embeddings tied_store
               "q" 2 = Some top)
    by (eexists; vm_compute; reflexivity).
  destruct Hc as [top Hc].
  destruct (tied_candidates_keep_index_order _ _ _ _ _ _ _ sort_desc_python_sort Hc)
    as (q & ix & Hq & Hix & Htied).
  exists top, q, ix. split; [exact Hc |]. split; [exact Hq |]. split; [exact Hix |].
  apply Htied. injection Hq as <-. injection Hix as <-. repeat constructor.
Defined.

(** X17. When no row scores NaN, asking for more results keeps the ones
    already returned: for [0 <= top_k <= top_k'] and the same query and
    threshold, the search with [top_k'] returns as well, and its result
    starts with the result of the search with [top_k]. *)
Theorem search_larger_top_k_extends_result :
  forall np sort embeddings vs query_text top_k top_k' t l,
    Ieee.python_sort sort ->
    (forall ix q,
       index vs = Some ix -> embed_query embeddings query_text = Return q ->
       Ieee.numeric np q (rows vs ix)) ->
    (0 <= top_k <= top_k')%Z ->
    result (Ieee.search_documents np sort embeddings (Some vs) query_text top_k t)
      = Return l ->
    exists l',
      result (Ieee.search_documents np sort embeddings (Some vs) query_text top_k' t)
        = Return l' /\
      l `prefix_of` l'.
Proof.
  intros np sort embeddings vs query_text top_k top_k' t l Hsort Hnum Hk.
  rewrite !float_search_documents_result.
  destruct (has_embed_query embeddings); cbn [negb]; [| discriminate].
  destruct (embed_query embeddings query_text) as [q | e].
  2:{ destruct (isinstance e EmbeddingErrorC); [discriminate |].
      intros [= <-]. exists []. split; [reflexivity | apply prefix_nil]. }
  destruct (index vs) as [ix |];
    [| intros [= <-]; exists []; split; [reflexivity | apply prefix_nil]].
  destruct (Nat.eqb (ntotal ix) 0);
    [intros [= <-]; exists []; split; [reflexivity | apply prefix_nil] |].
  destruct (forallb (same_dimension q) (rows vs ix));
    [| intros [= <-]; exists []; split; [reflexivity | apply prefix_nil]].
  cbv zeta. intros [= <-]. eexists. split; [reflexivity |].
  apply float_threshold_step_prefix.
  - apply float_slice_to_sorted.
    now apply float_ranking_sorted, (Hnum ix q).
  - now apply slice_to_mono.
Qed.

Lemma search_larger_top_k_extends_result_witness :
  exists l l',
    result (Ieee.search_documents ieee_np Ieee.sort_desc constant_embeddings (Some store3)
              "q" 1 float_0_1) = Return l /\
    result (Ieee.search_documents ieee_np Ieee.sort_desc constant_embeddings (Some store3)
              "q" 2 float_0_1) = Return l' /\
    length l = 1 /\ l `prefix_of` l'.
Proof.
  assert (H : exists l,
            result (Ieee.search_documents ieee_np Ieee.sort_desc constant_embeddings
                      (Some store3) "q" 1 float_0_1) = Return l /\ length l = 1)
    by (eexists; split; vm_compute; reflexivity).
  destruct H as (l & H & Hlen).
  destruct (search_larger_top_k_extends_result ieee_np Ieee.sort_desc constant_embeddings
              store3 "q"%string 1%Z 2%Z float_0_1 l sort_desc_python_sort) as (l' & H' & Hp).
  - intros ix q [= <-] [= <-]. repeat constructor.
  - lia.
  - exact H.
  - exists l, l'. auto.
Defined.

(** ** The three outcomes of the builder *)

Section BuilderOutcomes.

Context (embeddings : GeminiAPIEmbeddings) (disk : Disk) (uuid4 : nat -> string).


End BuilderOutcomes.



